(** * MatriPixel AI: the anemia-detector training and export pipeline

    A shallow embedding of [training/train_anemia_model.py].  Python values
    keep their shapes: [int] is [Z], [float] is the kernel's binary64
    [float], [str] is [string], a [dict] is a [gmap], the file system is a
    map from paths to nodes.  The deep-learning runtime is opaque to the
    script, so it enters as a record of functions, [engine], over which
    every statement is quantified.  Effects (prints, file writes, runtime
    calls, the global random state) are threaded through a [world].

    Failures of the host (I/O errors, out of memory) are outside the model;
    decorative glyphs of the printed messages are dropped. *)

From Stdlib Require Import ZArith Floats Ascii Sorting.Sorted.
From stdpp Require Import base gmap strings list.

Set Warnings "-inexact-float,-register-all".
Open Scope Z_scope.

(** ** Python primitives *)

Module Py.

Inductive exn :=
| KeyError (k : string)
| ZeroDivisionError
| ImportError (module : string)
| IOError (p : string).

Inductive res (A : Type) :=
| Ok (a : A)
| Raise (e : exn).
Arguments Ok {A} a.
Arguments Raise {A} e.

(** [a // b] on [int]: floor division. *)
Definition floordiv (a b : Z) : Z := a / b.

(** [a / b] on [float]: a zero divisor raises instead of giving inf or nan. *)
Definition truediv (a b : float) : res float :=
  if (b =? 0)%float then Raise ZeroDivisionError else Ok (a / b)%float.

(** [a > b] on [float]. *)
Definition gt (a b : float) : bool := (b <? a)%float.

(** [l[:stop]]: a negative [stop] counts from the end, and both ends clamp. *)
Definition slice_to {A} (l : list A) (stop : Z) : list A :=
  let n := Z.of_nat (length l) in
  let s := if stop <? 0 then Z.max 0 (stop + n) else Z.min stop n in
  firstn (Z.to_nat s) l.

(** [l[start:stop]] for non-negative bounds. *)
Definition slice {A} (l : list A) (start stop : Z) : list A :=
  let n := Z.of_nat (length l) in
  let a := Z.min (Z.max 0 start) n in
  let b := Z.min (Z.max 0 stop) n in
  firstn (Z.to_nat (b - a)) (skipn (Z.to_nat a) l).

(** [int(x)] on a [float]: truncation toward zero. *)
Definition int_of_float (x : float) : Z :=
  match Prim2SF x with
  | S754_finite s m e =>
      let z := if 0 <=? e then Z.pos m * 2 ^ e else Z.pos m / 2 ^ (- e) in
      if s then - z else z
  | _ => 0
  end.

(** [float(n)] for the small non-negative counts that occur here. *)
Definition float_of_int (n : Z) : float := of_uint63 (Uint63.of_Z n).

Fixpoint ends_with_slash (s : string) : bool :=
  match s with
  | EmptyString => false
  | String c EmptyString => Ascii.eqb c "/"%char
  | String _ s' => ends_with_slash s'
  end.

Definition starts_with_slash (s : string) : bool :=
  match s with
  | String c _ => Ascii.eqb c "/"%char
  | EmptyString => false
  end.

(** [os.path.join(a, b)] on POSIX. *)
Definition path_join (a b : string) : string :=
  if starts_with_slash b then b
  else if String.eqb a "" || ends_with_slash a then a +:+ b
  else a +:+ "/" +:+ b.

(** [dict(zip(ks, vs))]: [zip] stops at the shorter list, and a key that
    occurs twice keeps its last value. *)
Fixpoint dict_zip {V} (ks : list string) (vs : list V) (d : gmap string V)
  : gmap string V :=
  match ks, vs with
  | k :: ks', v :: vs' => dict_zip ks' vs' (<[k := v]> d)
  | _, _ => d
  end.

(** [d[k]]. *)
Definition getitem {V} (d : gmap string V) (k : string) : res V :=
  match d !! k with
  | Some v => Ok v
  | None => Raise (KeyError k)
  end.

End Py.

Import Py.

(** ** Values that live in files *)

(** Parameters of the model: either the ones [create_model] starts from
    (ImageNet extractor, fresh head) or the ones left by a training epoch. *)
Inductive weights :=
| Pretrained
| Trained (epoch : Z).

Inductive json :=
| JStr (s : string)
| JNum (x : float)
| JInt (n : Z)
| JList (l : list json)
| JObj (fields : list (string * json)).

(** What [tflite_support] packs into a model file. *)
Record TensorMetadataT := {
  tm_name : string;
  tm_description : string;
  tm_content : string;
  tm_color_space : option string;
  tm_norm_mean : list float;
  tm_norm_std : list float;
}.

Record ModelMetadataT := {
  mm_name : string;
  mm_description : string;
  mm_version : string;
  mm_author : string;
  mm_license : string;
  mm_inputs : list TensorMetadataT;
  mm_outputs : list TensorMetadataT;
}.

(** A TFLite model file: the converter's bytes, the metadata block when one
    is embedded, and the names of the files packed behind it. *)
Record tflite := {
  tfl_bytes : list Z;
  tfl_metadata : option ModelMetadataT;
  tfl_packed : list string;
}.

Inductive content :=
| Bytes (b : list Z)
| Text (s : string)
| Json (j : json)
| KerasModel (w : weights)
| TFLite (t : tflite).

Inductive node :=
| Dir
| File (c : content).

(** ** Observable events *)

Inductive line :=
| Msg (s : string)
| MsgS (s : string) (v : string)
| MsgZ (s : string) (v : Z)
| MsgF (s : string) (v : float).

Inductive subset := Training | Validation.

Inductive engine_call :=
| FlowFromDirectory (sub : subset) (shuffle : bool)
| BuildModel
| Compile (lr : float)
| Summary
| Fit (epochs initial_epoch : Z)
| TrainEpoch (epoch : Z)
| Evaluate
| Convert.

Inductive event :=
| Print (l : line)
| MakeDirs (p : string)
| WriteFile (p : string)
| Checkpoint (epoch : Z) (monitored : float) (p : string)
| Engine (c : engine_call).

(** ** The world the script runs in *)

Record world := {
  fs : gmap string node;
  trace : list event;
  rng : Z;
}.

Definition emit (e : event) (w : world) : world :=
  {| fs := fs w; trace := trace w ++ [e]; rng := rng w |}.

Definition print (l : line) (w : world) : world := emit (Print l) w.

Definition set_rng (r : Z) (w : world) : world :=
  {| fs := fs w; trace := trace w; rng := r |}.

(** [os.path.exists]. *)
Definition exists_ (w : world) (p : string) : bool :=
  match fs w !! p with Some _ => true | None => false end.

(** [os.makedirs(p, exist_ok=True)]. *)
Definition makedirs (p : string) (w : world) : world :=
  let w' := emit (MakeDirs p) w in
  match fs w !! p with
  | Some _ => w'
  | None => {| fs := <[p := Dir]> (fs w); trace := trace w'; rng := rng w |}
  end.

(** [open(p, 'w').write(c)]. *)
Definition write_file (p : string) (c : content) (w : world) : world :=
  {| fs := <[p := File c]> (fs w); trace := trace w ++ [WriteFile p]; rng := rng w |}.

(** ** The deep-learning runtime

    [tf.keras] as the script uses it (TensorFlow 2.x, the line that still
    ships [ImageDataGenerator]).  What the runtime computes is opaque and
    comes from [engine]; what it does with the objects the script hands it
    (generators, callbacks, the model) follows the library. *)

Module Keras.

Definition image := list float.
Definition sample := (image * Z)%type.

Record engine := {
  (** whether [import tflite_support] succeeds *)
  tflite_support_installed : bool;
  (** the layers of [MobileNetV3Small(include_top=False, pooling='avg')] *)
  MobileNetV3Small_layers : list string;
  (** [load_img] and [img_to_array] at the target size, on what is at a path *)
  load_img : option node -> image;
  (** [np.random.uniform(lo, hi)] on the global random state *)
  rand_uniform : Z -> float -> float -> float * Z;
  (** [np.random.permutation(n)] on the global random state *)
  rand_permutation : Z -> nat -> list nat * Z;
  apply_affine_transform :
    float -> float -> float -> float -> float -> float -> string -> image -> image;
  flip_axis : Z -> image -> image;
  apply_brightness_shift : float -> image -> image;
  (** the value logged under a key at the end of an epoch *)
  train_epoch : Z -> weights -> list sample -> list sample -> string -> float;
  (** the value of a compiled metric on a stream *)
  evaluate : weights -> list sample -> string -> float;
  (** [TFLiteConverter.convert()] with float16 quantisation *)
  tflite_convert : weights -> list Z;
}.

(** Python's truth value of a [float]. *)
Definition truthy (x : float) : bool := negb (x =? 0)%float.

(** *** ImageDataGenerator *)

Record ImageDataGenerator := {
  rescale : option float;
  rotation_range : float;
  width_shift_range : float;
  height_shift_range : float;
  shear_range : float;
  zoom_range : float;
  horizontal_flip : bool;
  vertical_flip : bool;
  brightness_range : option (float * float);
  fill_mode : string;
  validation_split : float;
}.

(** The constructor's defaults. *)
Definition ImageDataGenerator_default : ImageDataGenerator := {|
  rescale := None;
  rotation_range := 0;
  width_shift_range := 0;
  height_shift_range := 0;
  shear_range := 0;
  zoom_range := 0;
  horizontal_flip := false;
  vertical_flip := false;
  brightness_range := None;
  fill_mode := "nearest";
  validation_split := 0;
|}.

Record transform := {
  theta : float;
  tx : float;
  ty : float;
  shear : float;
  zx : float;
  zy : float;
  flip_horizontal : bool;
  flip_vertical : bool;
  brightness : option float;
}.

(** [get_random_transform]: one draw per enabled parameter; the two flip
    coins are tossed whether or not flipping is enabled. *)
Definition get_random_transform (E : engine) (g : ImageDataGenerator)
    (rows cols : Z) (r : Z) : transform * Z :=
  let '(th, r) :=
    if truthy (rotation_range g)
    then rand_uniform E r (- rotation_range g)%float (rotation_range g)
    else (0%float, r) in
  let '(x, r) :=
    if truthy (height_shift_range g)
    then let '(v, r') := rand_uniform E r (- height_shift_range g)%float
                           (height_shift_range g) in
         (if (height_shift_range g <? 1)%float
          then (v * float_of_int rows)%float else v, r')
    else (0%float, r) in
  let '(y, r) :=
    if truthy (width_shift_range g)
    then let '(v, r') := rand_uniform E r (- width_shift_range g)%float
                           (width_shift_range g) in
         (if (width_shift_range g <? 1)%float
          then (v * float_of_int cols)%float else v, r')
    else (0%float, r) in
  let '(sh, r) :=
    if truthy (shear_range g)
    then rand_uniform E r (- shear_range g)%float (shear_range g)
    else (0%float, r) in
  let z0 := (1 - zoom_range g)%float in
  let z1 := (1 + zoom_range g)%float in
  let '(zx', zy', r) :=
    if (z0 =? 1)%float && (z1 =? 1)%float then (1%float, 1%float, r)
    else let '(a, r') := rand_uniform E r z0 z1 in
         let '(b, r'') := rand_uniform E r' z0 z1 in
         (a, b, r'') in
  let '(ch, r) := rand_uniform E r 0 1 in
  let '(cv, r) := rand_uniform E r 0 1 in
  let '(br, r) :=
    match brightness_range g with
    | Some (lo, hi) => let '(v, r') := rand_uniform E r lo hi in (Some v, r')
    | None => (None, r)
    end in
  ({| theta := th; tx := x; ty := y; shear := sh; zx := zx'; zy := zy';
      flip_horizontal := (ch <? 0.5)%float && horizontal_flip g;
      flip_vertical := (cv <? 0.5)%float && vertical_flip g;
      brightness := br |}, r).

(** [apply_transform]: the affine step leaves the image alone when every
    parameter is at its neutral value. *)
Definition apply_transform (E : engine) (g : ImageDataGenerator)
    (t : transform) (x : image) : image :=
  let x :=
    if truthy (theta t) || truthy (tx t) || truthy (ty t) || truthy (shear t)
       || negb (zx t =? 1)%float || negb (zy t =? 1)%float
    then apply_affine_transform E (theta t) (tx t) (ty t) (shear t) (zx t)
           (zy t) (fill_mode g) x
    else x in
  let x := if flip_horizontal t then flip_axis E 1 x else x in
  let x := if flip_vertical t then flip_axis E 0 x else x in
  match brightness t with
  | Some b => apply_brightness_shift E b x
  | None => x
  end.

(** [standardize]: [x *= rescale] when a rescale factor is set. *)
Definition standardize (g : ImageDataGenerator) (x : image) : image :=
  match rescale g with
  | Some k => if truthy k then map (fun v => (v * k)%float) x else x
  | None => x
  end.

(** *** DirectoryIterator *)

Definition white_list_formats : list string :=
  ["png"; "jpg"; "jpeg"; "bmp"; "ppm"; "tif"; "tiff"].

Definition lower_ascii (c : ascii) : ascii :=
  let n := nat_of_ascii c in
  if ((65 <=? n) && (n <=? 90))%nat then ascii_of_nat (n + 32) else c.

Fixpoint lower (s : string) : string :=
  match s with
  | EmptyString => EmptyString
  | String c s' => String (lower_ascii c) (lower s')
  end.

Definition endswith (s suf : string) : bool :=
  let n := String.length s in
  let k := String.length suf in
  ((k <=? n)%nat && String.eqb (String.substring (n - k) k s) suf).

Definition is_image_name (p : string) : bool :=
  existsb (fun ext => endswith (lower p) ("." +:+ ext)) white_list_formats.

Fixpoint insert_sorted (x : string) (l : list string) : list string :=
  match l with
  | [] => [x]
  | y :: l' => if String.leb x y then x :: l else y :: insert_sorted x l'
  end.

(** [sorted] on names. *)
Definition sorted (l : list string) : list string :=
  foldr insert_sorted [] l.

(** The image files below a directory, in the order the iterator lists them. *)
Definition list_valid_files (w : world) (directory : string) : list string :=
  sorted
    (omap (fun '(p, n) =>
             match n with
             | File _ =>
                 if String.prefix (directory +:+ "/") p && is_image_name p
                 then Some p else None
             | Dir => None
             end)
          (map_to_list (fs w))).

(** The slice of a class directory that belongs to a subset. *)
Definition split_files (g : ImageDataGenerator) (sub : subset)
    (files : list string) : list string :=
  let n := float_of_int (Z.of_nat (length files)) in
  let '(lo, hi) :=
    match sub with
    | Validation => (0%float, validation_split g)
    | Training => (validation_split g, 1%float)
    end in
  slice files (int_of_float (lo * n)) (int_of_float (hi * n)).

Record DirectoryIterator := {
  it_generator : ImageDataGenerator;
  it_target_size : Z * Z;
  it_batch_size : Z;
  it_shuffle : bool;
  it_subset : subset;
  (** paths and class indices, fixed when the iterator is built *)
  it_samples : list (string * Z);
}.

Fixpoint class_samples (g : ImageDataGenerator) (sub : subset) (w : world)
    (directory : string) (classes : list string) (index : Z)
  : list (string * Z) :=
  match classes with
  | [] => []
  | c :: cs =>
      map (fun p => (p, index))
          (split_files g sub (list_valid_files w (path_join directory c)))
      ++ class_samples g sub w directory cs (index + 1)
  end.

(** [datagen.flow_from_directory(...)] with [class_mode='binary']. *)
Definition flow_from_directory (g : ImageDataGenerator) (directory : string)
    (target_size : Z * Z) (batch_size : Z) (classes : list string)
    (sub : subset) (shuffle : bool) (w : world) : DirectoryIterator * world :=
  let samples := class_samples g sub w directory classes 0 in
  let it := {| it_generator := g; it_target_size := target_size;
               it_batch_size := batch_size; it_shuffle := shuffle;
               it_subset := sub; it_samples := samples |} in
  let w := emit (Engine (FlowFromDirectory sub shuffle)) w in
  (it, print (MsgZ "Found images: " (Z.of_nat (length samples))) w).

(** The order in which one pass visits the samples. *)
Definition index_array (E : engine) (it : DirectoryIterator) (r : Z)
  : list nat * Z :=
  let n := length (it_samples it) in
  if it_shuffle it then rand_permutation E r n else (seq 0 n, r).

Fixpoint transformed_samples (E : engine) (it : DirectoryIterator)
    (files : gmap string node) (idx : list nat) (r : Z) : list sample * Z :=
  match idx with
  | [] => ([], r)
  | i :: idx' =>
      match it_samples it !! i with
      | Some (p, label) =>
          let x := load_img E (files !! p) in
          let '(t, r) :=
            get_random_transform E (it_generator it)
              (fst (it_target_size it)) (snd (it_target_size it)) r in
          let x := standardize (it_generator it)
                     (apply_transform E (it_generator it) t x) in
          let '(rest, r) := transformed_samples E it files idx' r in
          ((x, label) :: rest, r)
      | None => transformed_samples E it files idx' r
      end
  end.

(** One pass over the stream: the samples it yields, in order, and the
    random state it leaves. *)
Definition epoch_pass (E : engine) (it : DirectoryIterator) (w : world)
  : list sample * world :=
  let '(idx, r) := index_array E it (rng w) in
  let '(xs, r) := transformed_samples E it (fs w) idx r in
  (xs, set_rng r w).

(** *** Model *)

Record layer := {
  layer_name : string;
  trainable : bool;
}.

Inductive head_layer :=
| Dropout (rate : float)
| Dense (units : Z) (activation : string) (l2 : option float)
| BatchNormalization.

Record Model := {
  base_layers : list layer;
  head_layers : list head_layer;
  optimizer_lr : option float;
  metrics_names : list string;
  model_weights : weights;
  stop_training : bool;
}.

Definition set_layer_trainable (b : bool) (l : layer) : layer :=
  {| layer_name := layer_name l; trainable := b |}.

(** [base_model.trainable = b]: the flag reaches every layer below. *)
Definition set_trainable (b : bool) (m : Model) : Model :=
  {| base_layers := map (set_layer_trainable b) (base_layers m);
     head_layers := head_layers m; optimizer_lr := optimizer_lr m;
     metrics_names := metrics_names m; model_weights := model_weights m;
     stop_training := stop_training m |}.

Definition with_base_layers (ls : list layer) (m : Model) : Model :=
  {| base_layers := ls;
     head_layers := head_layers m; optimizer_lr := optimizer_lr m;
     metrics_names := metrics_names m; model_weights := model_weights m;
     stop_training := stop_training m |}.

Definition set_weights (wt : weights) (m : Model) : Model :=
  {| base_layers := base_layers m;
     head_layers := head_layers m; optimizer_lr := optimizer_lr m;
     metrics_names := metrics_names m; model_weights := wt;
     stop_training := stop_training m |}.

Definition set_stop_training (b : bool) (m : Model) : Model :=
  {| base_layers := base_layers m;
     head_layers := head_layers m; optimizer_lr := optimizer_lr m;
     metrics_names := metrics_names m; model_weights := model_weights m;
     stop_training := b |}.

Definition set_lr (lr : float) (m : Model) : Model :=
  {| base_layers := base_layers m;
     head_layers := head_layers m; optimizer_lr := Some lr;
     metrics_names := metrics_names m; model_weights := model_weights m;
     stop_training := stop_training m |}.

(** [model.compile(optimizer=Adam(lr), loss=..., metrics=names)]. *)
Definition compile (lr : float) (names : list string) (m : Model) (w : world)
  : Model * world :=
  ({| base_layers := base_layers m;
      head_layers := head_layers m; optimizer_lr := Some lr;
      metrics_names := "loss" :: names; model_weights := model_weights m;
      stop_training := stop_training m |},
   emit (Engine (Compile lr)) w).

(** *** Callbacks

    [mode='max'] for the two callbacks on [val_auc]; [ReduceLROnPlateau]
    keeps its default mode, which is [min] for [val_loss]. *)

Record EarlyStopping := {
  es_monitor : string;
  es_patience : Z;
  es_min_delta : float;
  es_restore_best_weights : bool;
  es_wait : Z;
  es_best : float;
  es_best_weights : option weights;
  es_best_epoch : Z;
  es_stopped_epoch : Z;
}.

Record ModelCheckpoint := {
  mc_filepath : string;
  mc_monitor : string;
  mc_save_best_only : bool;
  mc_best : float;
}.

Record ReduceLROnPlateau := {
  rl_monitor : string;
  rl_factor : float;
  rl_patience : Z;
  rl_min_lr : float;
  rl_min_delta : float;
  rl_cooldown : Z;
  rl_wait : Z;
  rl_best : float;
  rl_cooldown_counter : Z;
}.

Inductive callback :=
| CbEarlyStopping (c : EarlyStopping)
| CbModelCheckpoint (c : ModelCheckpoint)
| CbReduceLROnPlateau (c : ReduceLROnPlateau).

(** [EarlyStopping(monitor, patience, restore_best_weights, mode='max')]. *)
Definition new_EarlyStopping (monitor : string) (patience : Z)
    (restore_best_weights : bool) : EarlyStopping :=
  {| es_monitor := monitor; es_patience := patience; es_min_delta := 0;
     es_restore_best_weights := restore_best_weights;
     es_wait := 0; es_best := neg_infinity; es_best_weights := None;
     es_best_epoch := 0; es_stopped_epoch := 0 |}.

(** [ModelCheckpoint(filepath, monitor, save_best_only, mode='max')]. *)
Definition new_ModelCheckpoint (filepath monitor : string)
    (save_best_only : bool) : ModelCheckpoint :=
  {| mc_filepath := filepath; mc_monitor := monitor;
     mc_save_best_only := save_best_only; mc_best := neg_infinity |}.

(** [ReduceLROnPlateau(monitor, factor, patience, min_lr)]. *)
Definition new_ReduceLROnPlateau (monitor : string) (factor : float)
    (patience : Z) (min_lr : float) : ReduceLROnPlateau :=
  {| rl_monitor := monitor; rl_factor := factor; rl_patience := patience;
     rl_min_lr := min_lr; rl_min_delta := 1e-4; rl_cooldown := 0;
     rl_wait := 0; rl_best := infinity; rl_cooldown_counter := 0 |}.

(** [on_train_begin]: [EarlyStopping] and [ReduceLROnPlateau] start every
    [fit] afresh (so that instances can be re-used); [ModelCheckpoint] keeps
    its best value. *)
Definition on_train_begin (cb : callback) : callback :=
  match cb with
  | CbEarlyStopping c =>
      CbEarlyStopping
        {| es_monitor := es_monitor c; es_patience := es_patience c;
           es_min_delta := es_min_delta c;
           es_restore_best_weights := es_restore_best_weights c;
           es_wait := 0; es_best := neg_infinity; es_best_weights := None;
           es_best_epoch := 0; es_stopped_epoch := 0 |}
  | CbModelCheckpoint c => CbModelCheckpoint c
  | CbReduceLROnPlateau c =>
      CbReduceLROnPlateau
        {| rl_monitor := rl_monitor c; rl_factor := rl_factor c;
           rl_patience := rl_patience c; rl_min_lr := rl_min_lr c;
           rl_min_delta := rl_min_delta c; rl_cooldown := rl_cooldown c;
           rl_wait := 0; rl_best := infinity; rl_cooldown_counter := 0 |}
  end.

Definition es_on_epoch_end (c : EarlyStopping) (epoch : Z)
    (logs : gmap string float) (m : Model) (w : world)
  : EarlyStopping * Model * world :=
  match logs !! es_monitor c with
  | None =>
      (c, m, print (MsgS "Early stopping conditioned on metric which is not available: "
                      (es_monitor c)) w)
  | Some current =>
      let bw0 :=
        if es_restore_best_weights c
        then match es_best_weights c with
             | None => Some (model_weights m)
             | Some b => Some b
             end
        else es_best_weights c in
      let improved := gt (current - es_min_delta c)%float (es_best c) in
      let wait := if improved then 0 else es_wait c + 1 in
      let best := if improved then current else es_best c in
      let best_epoch := if improved then epoch else es_best_epoch c in
      let bw :=
        if improved && es_restore_best_weights c
        then Some (model_weights m) else bw0 in
      let stop := (es_patience c <=? wait) && (0 <? epoch) in
      let c' :=
        {| es_monitor := es_monitor c; es_patience := es_patience c;
           es_min_delta := es_min_delta c;
           es_restore_best_weights := es_restore_best_weights c;
           es_wait := wait; es_best := best; es_best_weights := bw;
           es_best_epoch := best_epoch;
           es_stopped_epoch := if stop then epoch else es_stopped_epoch c |} in
      if stop then
        let m := set_stop_training true m in
        match (if es_restore_best_weights c then bw else None) with
        | Some b =>
            (c', set_weights b m,
             print (MsgZ "Restoring model weights from the end of the best epoch: "
                      (best_epoch + 1)) w)
        | None => (c', m, w)
        end
      else (c', m, w)
  end.

Definition mc_save (c : ModelCheckpoint) (epoch : Z) (value : float)
    (m : Model) (w : world) : world :=
  write_file (mc_filepath c) (KerasModel (model_weights m))
    (emit (Checkpoint epoch value (mc_filepath c)) w).

Definition mc_on_epoch_end (c : ModelCheckpoint) (epoch : Z)
    (logs : gmap string float) (m : Model) (w : world)
  : ModelCheckpoint * Model * world :=
  if mc_save_best_only c then
    match logs !! mc_monitor c with
    | None =>
        (c, m, print (MsgS "Can save best model only with metric available, skipping: "
                        (mc_monitor c)) w)
    | Some current =>
        if gt current (mc_best c) then
          let w := print (MsgF "improved, saving model; new best: " current) w in
          ({| mc_filepath := mc_filepath c; mc_monitor := mc_monitor c;
              mc_save_best_only := mc_save_best_only c; mc_best := current |},
           m, mc_save c epoch current m w)
        else (c, m, print (MsgF "did not improve from " (mc_best c)) w)
    end
  else
    match logs !! mc_monitor c with
    | Some current => (c, m, mc_save c epoch current m w)
    | None => (c, m, mc_save c epoch nan m w)
    end.

Definition rl_on_epoch_end (c : ReduceLROnPlateau) (epoch : Z)
    (logs : gmap string float) (m : Model) (w : world)
  : ReduceLROnPlateau * Model * world :=
  match logs !! rl_monitor c with
  | None =>
      (c, m, print (MsgS "Learning rate reduction is conditioned on metric which is not available: "
                      (rl_monitor c)) w)
  | Some current =>
      let in_cooldown0 := 0 <? rl_cooldown_counter c in
      let counter := if in_cooldown0 then rl_cooldown_counter c - 1
                     else rl_cooldown_counter c in
      let wait := if in_cooldown0 then 0 else rl_wait c in
      let mk wait best counter :=
        {| rl_monitor := rl_monitor c; rl_factor := rl_factor c;
           rl_patience := rl_patience c; rl_min_lr := rl_min_lr c;
           rl_min_delta := rl_min_delta c; rl_cooldown := rl_cooldown c;
           rl_wait := wait; rl_best := best; rl_cooldown_counter := counter |} in
      if (current <? rl_best c - rl_min_delta c)%float then
        (mk 0 current counter, m, w)
      else if 0 <? counter then (mk wait (rl_best c) counter, m, w)
      else
        let wait := wait + 1 in
        if rl_patience c <=? wait then
          match optimizer_lr m with
          | Some old_lr =>
              if gt old_lr (rl_min_lr c) then
                let scaled := (old_lr * rl_factor c)%float in
                let new_lr := if gt (rl_min_lr c) scaled
                              then rl_min_lr c else scaled in
                (mk 0 (rl_best c) (rl_cooldown c), set_lr new_lr m,
                 print (MsgF "ReduceLROnPlateau reducing learning rate to " new_lr) w)
              else (mk wait (rl_best c) counter, m, w)
          | None => (mk wait (rl_best c) counter, m, w)
          end
        else (mk wait (rl_best c) counter, m, w)
  end.

Definition on_epoch_end (cb : callback) (epoch : Z) (logs : gmap string float)
    (m : Model) (w : world) : callback * Model * world :=
  match cb with
  | CbEarlyStopping c =>
      let '(c, m, w) := es_on_epoch_end c epoch logs m w in
      (CbEarlyStopping c, m, w)
  | CbModelCheckpoint c =>
      let '(c, m, w) := mc_on_epoch_end c epoch logs m w in
      (CbModelCheckpoint c, m, w)
  | CbReduceLROnPlateau c =>
      let '(c, m, w) := rl_on_epoch_end c epoch logs m w in
      (CbReduceLROnPlateau c, m, w)
  end.

Definition on_train_end (cb : callback) (w : world) : world :=
  match cb with
  | CbEarlyStopping c =>
      if 0 <? es_stopped_epoch c
      then print (MsgZ "early stopping at epoch " (es_stopped_epoch c + 1)) w
      else w
  | _ => w
  end.

(** The callback list, called in order; every callback sees the model and
    the world its predecessors left. *)
Fixpoint callbacks_on_epoch_end (cbs : list callback) (epoch : Z)
    (logs : gmap string float) (m : Model) (w : world)
  : list callback * Model * world :=
  match cbs with
  | [] => ([], m, w)
  | cb :: rest =>
      let '(cb, m, w) := on_epoch_end cb epoch logs m w in
      let '(rest, m, w) := callbacks_on_epoch_end rest epoch logs m w in
      (cb :: rest, m, w)
  end.

(** *** fit and evaluate *)

(** The logs of an epoch: every compiled name for the training stream, and
    again with [val_] in front for the validation stream. *)
Definition epoch_logs (E : engine) (m : Model) (epoch : Z)
    (tr va : list sample) : gmap string float :=
  let keys := metrics_names m ++ map (fun k => "val_" +:+ k) (metrics_names m) in
  dict_zip keys (map (train_epoch E epoch (model_weights m) tr va) keys) ∅.

(** The epoch loop of [fit]: [n] epochs are left, [epoch] is the next one. *)
Fixpoint fit_epochs (E : engine) (train val : DirectoryIterator) (n : nat)
    (epoch : Z) (m : Model) (cbs : list callback) (w : world)
  : Model * list callback * world :=
  match n with
  | O => (m, cbs, w)
  | S n' =>
      let w := emit (Engine (TrainEpoch epoch)) w in
      let '(tr, w) := epoch_pass E train w in
      let '(va, w) := epoch_pass E val w in
      let logs := epoch_logs E m epoch tr va in
      let m := set_weights (Trained epoch) m in
      let '(cbs, m, w) := callbacks_on_epoch_end cbs epoch logs m w in
      if stop_training m then (m, cbs, w)
      else fit_epochs E train val n' (epoch + 1) m cbs w
  end.

(** [model.fit(train, epochs=, initial_epoch=, validation_data=val,
    callbacks=cbs)].  The callbacks are the caller's objects: the list that
    comes back is their state after the call. *)
Definition fit (E : engine) (m : Model) (train val : DirectoryIterator)
    (epochs initial_epoch : Z) (cbs : list callback) (w : world)
  : Model * list callback * world :=
  let w := emit (Engine (Fit epochs initial_epoch)) w in
  let m := set_stop_training false m in
  let cbs := map on_train_begin cbs in
  let '(m, cbs, w) :=
    fit_epochs E train val (Z.to_nat (epochs - initial_epoch)) initial_epoch
      m cbs w in
  (m, cbs, foldl (fun w cb => on_train_end cb w) w cbs).

(** [model.evaluate(stream)]: the loss and one value per compiled metric. *)
Definition model_evaluate (E : engine) (m : Model) (it : DirectoryIterator)
    (w : world) : list float * world :=
  let w := emit (Engine Evaluate) w in
  let '(xs, w) := epoch_pass E it w in
  (map (evaluate E (model_weights m) xs) (metrics_names m), w).

(** [model.save(path)]. *)
Definition model_save (m : Model) (p : string) (w : world) : world :=
  write_file p (KerasModel (model_weights m)) w.

End Keras.

Import Keras.

(** ** Computations that may raise

    A computation runs on a world and either returns or raises; the effects
    made before an exception stay. *)

Definition M (A : Type) : Type := world -> res A * world.

#[global] Instance M_ret : MRet M := fun A a w => (Ok a, w).

#[global] Instance M_bind : MBind M := fun A B f c w =>
  match c w with
  | (Ok a, w') => f a w'
  | (Raise e, w') => (Raise e, w')
  end.

(** An effect that cannot fail. *)
Definition act (f : world -> world) : M unit := fun w => (Ok tt, f w).

(** A runtime call that cannot fail in the model. *)
Definition call {A} (f : world -> A * world) : M A :=
  fun w => let '(a, w') := f w in (Ok a, w').

Definition raise {A} (e : exn) : M A := fun w => (Raise e, w).

Definition of_res {A} (r : res A) : M A := fun w => (r, w).

Definition path_exists (p : string) : M bool := fun w => (Ok (exists_ w p), w).

Definition say (l : line) : M unit := act (print l).

(** ** tflite_support's metadata populator

    [MetadataPopulator.with_model_file(p)] works on the file [p] itself:
    [populate()] writes the loaded metadata block and the associated files
    into that file and leaves no copy. *)

Module TFLiteSupport.

Record MetadataPopulator := {
  model_file : string;
  metadata_buf : option ModelMetadataT;
  associated_files : list string;
}.

Fixpoint basename_from (s acc : string) : string :=
  match s with
  | EmptyString => acc
  | String c s' =>
      if Ascii.eqb c "/"%char then basename_from s' s' else basename_from s' acc
  end.

(** [os.path.basename]. *)
Definition basename (p : string) : string := basename_from p p.

Definition with_model_file (p : string) : M MetadataPopulator := fun w =>
  if exists_ w p
  then (Ok {| model_file := p; metadata_buf := None; associated_files := [] |}, w)
  else (Raise (IOError p), w).

Definition load_metadata_buffer (buf : ModelMetadataT) (pop : MetadataPopulator)
  : MetadataPopulator :=
  {| model_file := model_file pop; metadata_buf := Some buf;
     associated_files := associated_files pop |}.

Fixpoint load_associated_files (paths : list string) (pop : MetadataPopulator)
  : M MetadataPopulator :=
  match paths with
  | [] => mret pop
  | p :: ps =>
      ok ← path_exists p;
      if ok : bool
      then load_associated_files ps
             {| model_file := model_file pop; metadata_buf := metadata_buf pop;
                associated_files := associated_files pop ++ [p] |}
      else raise (IOError p)
  end.

Definition populate (pop : MetadataPopulator) : M unit := fun w =>
  match fs w !! model_file pop with
  | Some (File (TFLite t)) =>
      (Ok tt,
       write_file (model_file pop)
         (TFLite {| tfl_bytes := tfl_bytes t;
                    tfl_metadata :=
                      match metadata_buf pop with
                      | Some b => Some b
                      | None => tfl_metadata t
                      end;
                    tfl_packed :=
                      tfl_packed t ++ map basename (associated_files pop) |})
         w)
  | _ => (Raise (IOError (model_file pop)), w)
  end.

End TFLiteSupport.

(** [shutil.copy(src, dst)]. *)
Definition shutil_copy (src dst : string) : M unit := fun w =>
  match fs w !! src with
  | Some (File c) => (Ok tt, write_file dst c w)
  | _ => (Raise (IOError src), w)
  end.

(** ** The script *)

Definition IMG_SIZE : Z * Z := (224, 224).
Definition CLASSES : list string := ["normal"; "anemic"].

Record Args := {
  data_dir : string;
  epochs : Z;
  batch_size : Z;
  learning_rate : float;
  output_dir : string;
  fine_tune_layers : Z;
}.

(** [parse_args] on an empty command line. *)
Definition default_args : Args := {|
  data_dir := "./data";
  epochs := 50;
  batch_size := 32;
  learning_rate := 0.001;
  output_dir := "./models";
  fine_tune_layers := 20;
|}.

Definition train_datagen (validation_split : float) : ImageDataGenerator := {|
  rescale := Some (1 / 255)%float;
  rotation_range := 20;
  width_shift_range := 0.2;
  height_shift_range := 0.2;
  shear_range := 0.15;
  zoom_range := 0.2;
  horizontal_flip := true;
  vertical_flip := vertical_flip ImageDataGenerator_default;
  brightness_range := Some (0.8, 1.2)%float;
  fill_mode := "nearest";
  validation_split := validation_split;
|}.

Definition val_datagen (validation_split : float) : ImageDataGenerator := {|
  rescale := Some (1 / 255)%float;
  rotation_range := rotation_range ImageDataGenerator_default;
  width_shift_range := width_shift_range ImageDataGenerator_default;
  height_shift_range := height_shift_range ImageDataGenerator_default;
  shear_range := shear_range ImageDataGenerator_default;
  zoom_range := zoom_range ImageDataGenerator_default;
  horizontal_flip := horizontal_flip ImageDataGenerator_default;
  vertical_flip := vertical_flip ImageDataGenerator_default;
  brightness_range := brightness_range ImageDataGenerator_default;
  fill_mode := fill_mode ImageDataGenerator_default;
  validation_split := validation_split;
|}.

Definition create_data_generators (data_dir : string) (batch_size : Z)
    (validation_split : float) (w : world)
  : (DirectoryIterator * DirectoryIterator) * world :=
  let '(train_generator, w) :=
    flow_from_directory (train_datagen validation_split) data_dir IMG_SIZE
      batch_size CLASSES Training true w in
  let '(validation_generator, w) :=
    flow_from_directory (val_datagen validation_split) data_dir IMG_SIZE
      batch_size CLASSES Validation false w in
  let w := print (Msg "Dataset Summary:") w in
  let w := print (MsgZ "   Training samples: "
                    (Z.of_nat (length (it_samples train_generator)))) w in
  let w := print (MsgZ "   Validation samples: "
                    (Z.of_nat (length (it_samples validation_generator)))) w in
  let w := print (Msg "   Classes: {'normal': 0, 'anemic': 1}") w in
  ((train_generator, validation_generator), w).

(** [create_model]: the frozen extractor and the classification head.  The
    extractor's layers stay reachable through the model, which is how
    [fine_tune_model] later unfreezes them. *)
Definition create_model (E : engine) (fine_tune_layers : Z) (w : world)
  : Model * world :=
  let base :=
    map (fun n => {| layer_name := n; trainable := true |})
        (MobileNetV3Small_layers E) in
  let base := map (set_layer_trainable false) base in
  let model :=
    {| base_layers := base;
       head_layers :=
         [Dropout 0.3; Dense 128 "relu" (Some 0.01%float); BatchNormalization;
          Dropout 0.4; Dense 64 "relu" (Some 0.01%float); Dropout 0.3;
          Dense 1 "sigmoid" None];
       optimizer_lr := None; metrics_names := [];
       model_weights := Pretrained; stop_training := false |} in
  let w := emit (Engine BuildModel) w in
  let w := print (Msg "Model Architecture:") w in
  let w := print (Msg "   Base model: MobileNetV3 Small") w in
  let w := print (Msg "   Total params") w in
  (model, w).

Definition compile_model (model : Model) (learning_rate : float) (w : world)
  : Model * world :=
  compile learning_rate ["accuracy"; "precision"; "recall"; "auc"] model w.

Definition get_callbacks (output_dir : string) (w : world)
  : list callback * world :=
  let w := makedirs output_dir w in
  ([CbEarlyStopping (new_EarlyStopping "val_auc" 10 true);
    CbModelCheckpoint
      (new_ModelCheckpoint (path_join output_dir "anemia_model_best.keras")
         "val_auc" true);
    CbReduceLROnPlateau (new_ReduceLROnPlateau "val_loss" 0.5 5 1e-7)],
   w).

(** [fine_tune_model].  The layers in the slice are the extractor's own
    objects, so the loop clears the flag at their positions. *)
Definition fine_tune_model (model : Model) (fine_tune_layers : Z)
    (learning_rate : float) (w : world) : Model * world :=
  let model := set_trainable true model in
  let frozen :=
    slice_to (seq 0 (length (base_layers model))) (- fine_tune_layers) in
  let layers :=
    foldl (fun ls i => alter (set_layer_trainable false) i ls)
          (base_layers model) frozen in
  let model := with_base_layers layers model in
  let '(model, w) :=
    compile (learning_rate / 10)%float
      ["accuracy"; "precision"; "recall"; "auc"] model w in
  let trainable_count :=
    length (filter (fun l => trainable l = true) (base_layers model)) in
  let w := print (Msg "Fine-tuning enabled:") w in
  let w := print (MsgZ "   Trainable layers in base: "
                    (Z.of_nat trainable_count)) w in
  (model, w).

Definition newline : string := String (ascii_of_nat 10) EmptyString.

(** The standalone metadata document of [convert_to_tflite]. *)
Definition metadata : json :=
  JObj
    [("name", JStr "Anemia Detector");
     ("description", JStr "Detects anemia from eye conjunctiva images");
     ("version", JStr "1.0.0");
     ("author", JStr "MatriPixel AI");
     ("input",
      JObj [("name", JStr "input_image");
            ("shape", JList [JInt 1; JInt 224; JInt 224; JInt 3]);
            ("type", JStr "float32");
            ("normalization",
             JObj [("mean", JList [JNum 127.5; JNum 127.5; JNum 127.5]);
                   ("std", JList [JNum 127.5; JNum 127.5; JNum 127.5])])]);
     ("output",
      JObj [("name", JStr "anemia_probability");
            ("shape", JList [JInt 1; JInt 1]);
            ("type", JStr "float32");
            ("labels", JList [JStr "Non-Anemic"; JStr "Anemic"]);
            ("threshold", JNum 0.5)])].

Definition convert_to_tflite (E : engine) (model : Model) (output_dir : string)
    (w : world) : string * world :=
  let w := makedirs output_dir w in
  let w := emit (Engine Convert) w in
  let tflite_model :=
    {| tfl_bytes := tflite_convert E (model_weights model);
       tfl_metadata := None; tfl_packed := [] |} in
  let tflite_path := path_join output_dir "anemia_detector.tflite" in
  let w := write_file tflite_path (TFLite tflite_model) w in
  let w := print (MsgS "TFLite model saved: " tflite_path) w in
  let w := print (Msg "   Model size") w in
  let labels_path := path_join output_dir "labels.txt" in
  let w := write_file labels_path
             (Text ("Non-Anemic" +:+ newline +:+ "Anemic")) w in
  let metadata_path := path_join output_dir "model_metadata.json" in
  let w := write_file metadata_path (Json metadata) w in
  let w := print (MsgS "   Labels saved: " labels_path) w in
  let w := print (MsgS "   Metadata saved: " metadata_path) w in
  (tflite_path, w).

(** The metadata block [add_tflite_metadata] builds. *)
Definition model_meta : ModelMetadataT := {|
  mm_name := "Anemia Detector";
  mm_description :=
    "Detects anemia from eye conjunctiva images. "
    +:+ "Output is a probability score where 0 = Non-Anemic and 1 = Anemic.";
  mm_version := "1.0.0";
  mm_author := "MatriPixel AI";
  mm_license := "Apache License 2.0";
  mm_inputs :=
    [{| tm_name := "image";
        tm_description := "Input eye image to be classified";
        tm_content := "ImageProperties";
        tm_color_space := Some "RGB";
        tm_norm_mean := [127.5; 127.5; 127.5]%float;
        tm_norm_std := [127.5; 127.5; 127.5]%float |}];
  mm_outputs :=
    [{| tm_name := "probability";
        tm_description := "Probability of anemia (0 = Non-Anemic, 1 = Anemic)";
        tm_content := "FeatureProperties";
        tm_color_space := None;
        tm_norm_mean := [];
        tm_norm_std := [] |}];
|}.

(** [from tflite_support import ...]. *)
Definition import_tflite_support (E : engine) : M unit :=
  if tflite_support_installed E then mret tt
  else raise (ImportError "tflite_support").

(** The [try] block of [add_tflite_metadata]. *)
Definition add_tflite_metadata_try (E : engine) (tflite_path output_dir : string)
  : M string :=
  import_tflite_support E;;
  let metadata_buf := model_meta in
  let output_path := path_join output_dir "anemia_detector_with_metadata.tflite" in
  populator ← TFLiteSupport.with_model_file tflite_path;
  let populator := TFLiteSupport.load_metadata_buffer metadata_buf populator in
  let labels_path := path_join output_dir "labels.txt" in
  populator ← TFLiteSupport.load_associated_files [labels_path] populator;
  TFLiteSupport.populate populator;;
  shutil_copy tflite_path output_path;;
  populator ← TFLiteSupport.with_model_file output_path;
  let populator := TFLiteSupport.load_metadata_buffer metadata_buf populator in
  populator ← TFLiteSupport.load_associated_files [labels_path] populator;
  TFLiteSupport.populate populator;;
  say (MsgS "TFLite model with metadata saved: " output_path);;
  mret output_path.

(** [add_tflite_metadata]: only [ImportError] is caught. *)
Definition add_tflite_metadata (E : engine) (tflite_path output_dir : string)
  : M string := fun w =>
  match add_tflite_metadata_try E tflite_path output_dir w with
  | (Raise (ImportError _), w) =>
      let w := print (Msg "tflite-support not installed. Skipping embedded metadata.") w in
      let w := print (Msg "   Install with: pip install tflite-support") w in
      let w := print (Msg "   Model metadata saved as separate JSON file instead.") w in
      (Ok tflite_path, w)
  | r => r
  end.

Definition evaluate_model (E : engine) (model : Model)
    (validation_generator : DirectoryIterator) : M (gmap string float) :=
  say (Msg "Evaluating model...");;
  results ← call (model_evaluate E model validation_generator);
  let metrics := dict_zip (metrics_names model) results ∅ in
  say (Msg "Final Metrics:");;
  v ← of_res (getitem metrics "loss");
  say (MsgF "   Loss:      " v);;
  v ← of_res (getitem metrics "accuracy");
  say (MsgF "   Accuracy:  " v);;
  v ← of_res (getitem metrics "precision");
  say (MsgF "   Precision: " v);;
  v ← of_res (getitem metrics "recall");
  say (MsgF "   Recall:    " v);;
  v ← of_res (getitem metrics "auc");
  say (MsgF "   AUC:       " v);;
  p ← of_res (getitem metrics "precision");
  r ← of_res (getitem metrics "recall");
  (if gt (p + r)%float 0 then
     p1 ← of_res (getitem metrics "precision");
     r1 ← of_res (getitem metrics "recall");
     p2 ← of_res (getitem metrics "precision");
     r2 ← of_res (getitem metrics "recall");
     f1 ← of_res (truediv (2 * (p1 * r1))%float (p2 + r2)%float);
     say (MsgF "   F1 Score:  " f1)
   else mret tt);;
  mret metrics.

(** How [main] ended: at one of its two early [return]s, or at its last
    line, with the objects it then holds. *)
Inductive outcome :=
| ConfigError
| Completed (model : Model) (callbacks : list callback)
    (metrics : gmap string float).

Definition banner : string :=
  "============================================================".

Definition main (E : engine) (args : Args) : M outcome :=
  say (Msg banner);;
  say (Msg "MatriPixel AI - Anemia Detection Model Training");;
  say (Msg banner);;
  say (MsgS "Data directory: " (data_dir args));;
  say (MsgZ "Epochs: " (epochs args));;
  say (MsgZ "Batch size: " (batch_size args));;
  say (MsgF "Learning rate: " (learning_rate args));;
  say (MsgS "Output directory: " (output_dir args));;
  found ← path_exists (data_dir args);
  if negb found then
    say (MsgS "Error: Data directory not found: " (data_dir args));;
    say (Msg "   Please create the following structure:");;
    say (Msg "   data/");;
    say (Msg "   +-- anemic/");;
    say (Msg "   |   +-- image1.jpg");;
    say (Msg "   |   +-- ...");;
    say (Msg "   +-- normal/");;
    say (Msg "       +-- image1.jpg");;
    say (Msg "       +-- ...");;
    mret ConfigError
  else
    let anemic_dir := path_join (data_dir args) "anemic" in
    let normal_dir := path_join (data_dir args) "normal" in
    has_anemic ← path_exists anemic_dir;
    has_normal ← path_exists normal_dir;
    if negb has_anemic || negb has_normal then
      say (MsgS "Error: Expected 'anemic' and 'normal' subdirectories in "
             (data_dir args));;
      mret ConfigError
    else
      '(train_gen, val_gen) ←
        call (create_data_generators (data_dir args) (batch_size args) 0.2);
      model ← call (create_model E (fine_tune_layers args));
      model ← call (compile_model model (learning_rate args));
      act (emit (Engine Summary));;
      callbacks ← call (get_callbacks (output_dir args));
      say (Msg banner);;
      say (Msg "Phase 1: Training classification head...");;
      say (Msg banner);;
      let initial_epochs := Z.min 10 (floordiv (epochs args) 2) in
      '(model, callbacks) ←
        call (fun w => let '(m, cbs, w) :=
                         fit E model train_gen val_gen initial_epochs 0
                           callbacks w in ((m, cbs), w));
      '(model, callbacks) ←
        (if initial_epochs <? epochs args then
           say (Msg banner);;
           say (Msg "Phase 2: Fine-tuning base model...");;
           say (Msg banner);;
           model ← call (fine_tune_model model (fine_tune_layers args)
                           (learning_rate args));
           call (fun w => let '(m, cbs, w) :=
                            fit E model train_gen val_gen (epochs args)
                              initial_epochs callbacks w in ((m, cbs), w))
         else mret (model, callbacks));
      metrics ← evaluate_model E model val_gen;
      let keras_path := path_join (output_dir args) "anemia_model_final.keras" in
      act (model_save model keras_path);;
      say (MsgS "Keras model saved: " keras_path);;
      say (Msg banner);;
      say (Msg "Converting to TFLite format...");;
      say (Msg banner);;
      tflite_path ← call (convert_to_tflite E model (output_dir args));
      add_tflite_metadata E tflite_path (output_dir args);;
      say (Msg banner);;
      say (Msg "Training Complete!");;
      say (Msg banner);;
      say (MsgS "Output files in: " (output_dir args));;
      say (Msg "   anemia_model_final.keras  - Full Keras model");;
      say (Msg "   anemia_detector.tflite    - TFLite model for Android");;
      say (Msg "   labels.txt                - Class labels");;
      say (Msg "   model_metadata.json       - Model metadata");;
      mret (Completed model callbacks metrics).

(** ** Vocabulary of the statements *)

(** The names [compile_model] and [fine_tune_model] leave on the model. *)
Definition compiled_names : list string :=
  ["loss"; "accuracy"; "precision"; "recall"; "auc"].

(** The dictionary [evaluate_model] builds from the runtime's values. *)
Definition metrics_record (v : string -> float) : gmap string float :=
  dict_zip compiled_names (map v compiled_names) ∅.

(** The runtime calls of a trace, in order. *)
Definition engine_calls (t : list event) : list engine_call :=
  omap (fun e => match e with Engine c => Some c | _ => None end) t.

(** The writes of the best-checkpoint file: epoch and monitored value. *)
Definition checkpoints (t : list event) : list (Z * float) :=
  omap (fun e => match e with Checkpoint n v _ => Some (n, v) | _ => None end) t.

(** The lines of a trace that holds nothing but prints. *)
Definition only_prints (t : list event) : Prop :=
  Forall (fun e => match e with Print _ => True | _ => False end) t.

(** [os.listdir]-like: every path below a directory. *)
Definition entries_below (w : world) (directory : string) : list string :=
  filter (fun p => String.prefix (directory +:+ "/") p = true)
         (map fst (map_to_list (fs w))).

(** A later checkpoint is a later epoch with a larger monitored value. *)
Definition improves (a b : Z * float) : Prop :=
  fst a < fst b /\ gt (snd b) (snd a) = true.

(** What [evaluate_model] prints before the F1 line. *)
Definition metric_lines (v : string -> float) : list event :=
  [Print (Msg "Evaluating model..."); Engine Evaluate;
   Print (Msg "Final Metrics:");
   Print (MsgF "   Loss:      " (v "loss"));
   Print (MsgF "   Accuracy:  " (v "accuracy"));
   Print (MsgF "   Precision: " (v "precision"));
   Print (MsgF "   Recall:    " (v "recall"));
   Print (MsgF "   AUC:       " (v "auc"))].

(** The F1 line, printed when precision + recall is positive. *)
Definition f1_lines (p r : float) : list event :=
  if gt (p + r)%float 0
  then [Print (MsgF "   F1 Score:  " (2 * (p * r) / (p + r))%float)]
  else [].

Definition es_room (d : Z) (cb : callback) : Prop :=
  match cb with
  | CbEarlyStopping c => 0 <= es_wait c /\ es_wait c + d <= es_patience c
  | _ => True
  end.

(** What one epoch of [ModelCheckpoint] with [save_best_only] adds to the
    checkpoint history. *)
Definition mc_step (c c' : ModelCheckpoint) (epoch : Z) (t : list event) : Prop :=
  (c' = c /\ checkpoints t = [])
  \/ (exists v, gt v (mc_best c) = true /\ mc_best c' = v
                /\ mc_save_best_only c' = mc_save_best_only c
                /\ checkpoints t = [(epoch, v)]).

Definition policy (es : EarlyStopping) (mc : ModelCheckpoint)
    (rl : ReduceLROnPlateau) : list callback :=
  [CbEarlyStopping es; CbModelCheckpoint mc; CbReduceLROnPlateau rl].

(** The checkpoint history [cps] is consistent with the best value the
    checkpoint callback remembers, all of it written before [epoch]. *)
Definition history_ok (cps : list (Z * float)) (best : float) (epoch : Z) : Prop :=
  StronglySorted improves cps
  /\ Forall (fun c => fst c < epoch /\ (snd c = best \/ gt best (snd c) = true)) cps.

(** The data directory and both class directories are there. *)
Definition layout_ok (args : Args) (w : world) : Prop :=
  is_Some (fs w !! data_dir args)
  /\ is_Some (fs w !! path_join (data_dir args) "anemic")
  /\ is_Some (fs w !! path_join (data_dir args) "normal").

Definition header (args : Args) (w : world) : world :=
  print (MsgS "Output directory: " (output_dir args))
    (print (MsgF "Learning rate: " (learning_rate args))
       (print (MsgZ "Batch size: " (batch_size args))
          (print (MsgZ "Epochs: " (epochs args))
             (print (MsgS "Data directory: " (data_dir args))
                (print (Msg banner)
                   (print (Msg "MatriPixel AI - Anemia Detection Model Training")
                      (print (Msg banner) w))))))).

(** [main] from the data generators to the Phase 1 banner. *)
Definition prepare (E : engine) (args : Args) (w : world)
  : DirectoryIterator * DirectoryIterator * Model * list callback * world :=
  let w := header args w in
  let '((train_gen, val_gen), w) :=
    create_data_generators (data_dir args) (batch_size args) 0.2 w in
  let '(model, w) := create_model E (fine_tune_layers args) w in
  let '(model, w) := compile_model model (learning_rate args) w in
  let w := emit (Engine Summary) w in
  let '(callbacks, w) := get_callbacks (output_dir args) w in
  let w := print (Msg banner) w in
  let w := print (Msg "Phase 1: Training classification head...") w in
  let w := print (Msg banner) w in
  (train_gen, val_gen, model, callbacks, w).

(** The two [fit] calls of [main]. *)
Definition train_phases (E : engine) (args : Args)
    (train_gen val_gen : DirectoryIterator) (model : Model)
    (callbacks : list callback) (w : world) : Model * list callback * world :=
  let initial_epochs := Z.min 10 (floordiv (epochs args) 2) in
  let '(model, callbacks, w) :=
    fit E model train_gen val_gen initial_epochs 0 callbacks w in
  if initial_epochs <? epochs args then
    let w := print (Msg banner) w in
    let w := print (Msg "Phase 2: Fine-tuning base model...") w in
    let w := print (Msg banner) w in
    let '(model, w) :=
      fine_tune_model model (fine_tune_layers args) (learning_rate args) w in
    fit E model train_gen val_gen (epochs args) initial_epochs callbacks w
  else (model, callbacks, w).

(** [main] from saving the final model to the end. *)
Definition export (E : engine) (args : Args) (model : Model) : M unit :=
  let keras_path := path_join (output_dir args) "anemia_model_final.keras" in
  act (model_save model keras_path);;
  say (MsgS "Keras model saved: " keras_path);;
  say (Msg banner);;
  say (Msg "Converting to TFLite format...");;
  say (Msg banner);;
  tflite_path ← call (convert_to_tflite E model (output_dir args));
  add_tflite_metadata E tflite_path (output_dir args);;
  say (Msg banner);;
  say (Msg "Training Complete!");;
  say (Msg banner);;
  say (MsgS "Output files in: " (output_dir args));;
  say (Msg "   anemia_model_final.keras  - Full Keras model");;
  say (Msg "   anemia_detector.tflite    - TFLite model for Android");;
  say (Msg "   labels.txt                - Class labels");;
  say (Msg "   model_metadata.json       - Model metadata").

Definition script_policy (output_dir : string) : list callback :=
  policy (new_EarlyStopping "val_auc" 10 true)
    (new_ModelCheckpoint (path_join output_dir "anemia_model_best.keras")
       "val_auc" true)
    (new_ReduceLROnPlateau "val_loss" 0.5 5 1e-7).

(** The runtime calls of Phase 2, when it is entered and runs [k] epochs. *)
Definition phase2_calls (args : Args) (k : Z) : list engine_call :=
  let i := Z.min 10 (floordiv (epochs args) 2) in
  if i <? epochs args
  then Compile (learning_rate args / 10)%float
       :: Fit (epochs args) i :: map TrainEpoch (seqZ i k)
  else [].

(** The runtime calls of both phases. *)
Definition training_calls (args : Args) (k : Z) : list engine_call :=
  let i := Z.min 10 (floordiv (epochs args) 2) in
  Fit i 0 :: map TrainEpoch (seqZ 0 i) ++ phase2_calls args k.


(** The events of [convert_to_tflite]. *)
Definition convert_events (output_dir : string) : list event :=
  [MakeDirs output_dir; Engine Convert;
   WriteFile (path_join output_dir "anemia_detector.tflite");
   Print (MsgS "TFLite model saved: " (path_join output_dir "anemia_detector.tflite"));
   Print (Msg "   Model size");
   WriteFile (path_join output_dir "labels.txt");
   WriteFile (path_join output_dir "model_metadata.json");
   Print (MsgS "   Labels saved: " (path_join output_dir "labels.txt"));
   Print (MsgS "   Metadata saved: " (path_join output_dir "model_metadata.json"))].

(** The model file as the converter writes it. *)
Definition converted (E : engine) (m : Model) : tflite :=
  {| tfl_bytes := tflite_convert E (model_weights m);
     tfl_metadata := None; tfl_packed := [] |}.

(** What [main] prints and writes between the evaluation and the converter. *)
Definition export_prefix (args : Args) : list event :=
  [WriteFile (path_join (output_dir args) "anemia_model_final.keras");
   Print (MsgS "Keras model saved: "
            (path_join (output_dir args) "anemia_model_final.keras"));
   Print (Msg banner);
   Print (Msg "Converting to TFLite format...");
   Print (Msg banner)].

(** A computation that calls the runtime no further and writes no checkpoint. *)
Definition quiet {A} (c : M A) : Prop :=
  forall w, exists t,
    trace (snd (c w)) = trace w ++ t
    /\ engine_calls t = [] /\ checkpoints t = [].

(** The runtime calls of [main] up to the first [fit]. *)
Definition prepare_calls (args : Args) : list engine_call :=
  [FlowFromDirectory Training true; FlowFromDirectory Validation false;
   BuildModel; Compile (learning_rate args); Summary].

(** The neutral transform: nothing rotated, shifted, sheared, zoomed,
    flipped or brightened. *)
Definition identity_transform : transform :=
  {| theta := 0; tx := 0; ty := 0; shear := 0; zx := 1; zy := 1;
     flip_horizontal := false; flip_vertical := false; brightness := None |}.

(** A validation sample: the loaded image with every pixel times 1/255. *)
Definition rescaled (E : engine) (files : gmap string node)
    (s : string * Z) : sample :=
  (map (fun v => (v * (1 / 255))%float) (load_img E (files !! fst s)), snd s).

(** ** Vocabulary of the further properties *)



(** How many leading layers [layers[:-K]] selects out of [n]. *)
Definition frozen_count (n : nat) (K : Z) : nat :=
  Z.to_nat (if 0 <? K then Z.max 0 (Z.of_nat n - K) else Z.min (- K) (Z.of_nat n)).

(** The files [main] may write below an output directory. *)
Definition artifact_names : list string :=
  ["anemia_model_best.keras"; "anemia_model_final.keras";
   "anemia_detector.tflite"; "anemia_detector_with_metadata.tflite";
   "labels.txt"; "model_metadata.json"].

Definition artifact_paths (out : string) : list string :=
  map (path_join out) artifact_names.

(** [os.makedirs(p, exist_ok=True)] goes through when nothing or a
    directory is at [p]; on a regular file it raises. *)
Definition dir_or_missing (w : world) (p : string) : Prop :=
  fs w !! p = None \/ fs w !! p = Some Dir.

(** What a stretch of training leaves at the path of the best checkpoint:
    with no checkpoint written the file system is as it was, otherwise a
    saved model is at the path. *)
Definition best_file (path : string) (t : list event) (w w' : world) : Prop :=
  (checkpoints t = [] -> fs w' = fs w)
  /\ (checkpoints t <> [] ->
      exists wts, fs w' !! path = Some (File (KerasModel wts))).

(** The parts of a model that training leaves alone. *)
Definition same_architecture (m m' : Model) : Prop :=
  base_layers m' = base_layers m
  /\ head_layers m' = head_layers m
  /\ metrics_names m' = metrics_names m.

(** The path of the best checkpoint. *)
Definition best_path (args : Args) : string :=
  path_join (output_dir args) "anemia_model_best.keras".

(** The extractor's layers as Phase 2 leaves them. *)
Definition fine_tuned (K : Z) (ls : list layer) : list layer :=
  map (set_layer_trainable false) (firstn (frozen_count (length ls) K) ls)
  ++ map (set_layer_trainable true) (skipn (frozen_count (length ls) K) ls).

(** A computation that leaves every path outside [S] as it found it. *)
Definition writes_only (S : list string) {A} (c : M A) : Prop :=
  forall w q, q ∉ S -> fs (snd (c w)) !! q = fs w !! q.

(** The path of the model file with embedded metadata. *)
Definition with_metadata_path (out : string) : string :=
  path_join out "anemia_detector_with_metadata.tflite".

(** The file at [p] is a TFLite model whose converter output is [b]. *)
Definition has_model_bytes (p : string) (b : list Z) (w : world) : Prop :=
  exists t, fs w !! p = Some (File (TFLite t)) /\ tfl_bytes t = b.

(** A computation that keeps a property of the world, however it ends. *)
Definition preserves (P : world -> Prop) {A} (c : M A) : Prop :=
  forall w, P w -> P (snd (c w)).

(** The extractor as [create_model] builds it: every layer frozen. *)
Definition frozen_base (E : engine) : list layer :=
  map (fun n => {| layer_name := n; trainable := false |})
      (MobileNetV3Small_layers E).

Definition final_path (args : Args) : string :=
  path_join (output_dir args) "anemia_model_final.keras".

Definition tflite_path_of (args : Args) : string :=
  path_join (output_dir args) "anemia_detector.tflite".

(** ** A small runtime and data set to run the script on *)

Module Sample.

(** A runtime with a linear-congruential random state; [auc] and [loss] give
    the validation curve, [pr] the precision and recall of the evaluation. *)
Definition engine_of (installed : bool) (auc loss : Z -> float)
    (pr : float * float) : engine := {|
  tflite_support_installed := installed;
  MobileNetV3Small_layers := ["stem"; "bneck_1"; "bneck_2"; "bneck_3"; "pool"];
  load_img := fun n =>
    match n with
    | Some (File (Bytes b)) => map float_of_int b
    | _ => []
    end;
  rand_uniform := fun r lo hi =>
    ((lo + (hi - lo) * (float_of_int (r mod 16) / 16))%float,
     (r * 75 + 74) mod 65537);
  rand_permutation := fun r n =>
    (if Z.even r then seq 0 n else rev (seq 0 n), (r * 75 + 74) mod 65537);
  apply_affine_transform := fun th x y sh zx zy _ img =>
    map (fun v => (v * zx + th + x + y + sh)%float) img;
  flip_axis := fun _ img => rev img;
  apply_brightness_shift := fun b img => map (fun v => (v * b)%float) img;
  train_epoch := fun e _ _ _ k =>
    if String.eqb k "val_auc" then auc e
    else if String.eqb k "val_loss" then loss e
    else 0.5%float;
  evaluate := fun _ _ k =>
    if String.eqb k "precision" then fst pr
    else if String.eqb k "recall" then snd pr
    else 0.75%float;
  tflite_convert := fun wt =>
    match wt with
    | Pretrained => [84; 70; 76; 51]
    | Trained e => [84; 70; 76; 51; e]
    end;
|}.

Definition flat (e : Z) : float := 0.5%float.

Definition engine_plain : engine := engine_of false flat flat (0.5, 0.25)%float.

(** The classifier never predicts the positive class. *)
Definition engine_degenerate : engine := engine_of false flat flat (0, 0)%float.

(** The model and the validation stream [main] evaluates, for a runtime. *)
Definition compiled_model (E : engine) : Model :=
  fst (compile_model (fst (create_model E 20 {| fs := ∅; trace := []; rng := 1 |}))
         0.001 {| fs := ∅; trace := []; rng := 1 |}).


Definition world_of (files : list (string * node)) : world :=
  {| fs := list_to_map files; trace := []; rng := 1 |}.

(** Four images per class. *)
Definition dataset : list (string * node) :=
  [("data", Dir); ("data/anemic", Dir); ("data/normal", Dir);
   ("data/anemic/a1.jpg", File (Bytes [200; 210; 220]));
   ("data/anemic/a2.jpg", File (Bytes [201; 211; 221]));
   ("data/anemic/a3.jpg", File (Bytes [202; 212; 222]));
   ("data/anemic/a4.jpg", File (Bytes [203; 213; 223]));
   ("data/anemic/a5.jpg", File (Bytes [204; 214; 224]));
   ("data/normal/n1.jpg", File (Bytes [190; 100; 110]));
   ("data/normal/n2.jpg", File (Bytes [191; 101; 111]));
   ("data/normal/n3.jpg", File (Bytes [192; 102; 112]));
   ("data/normal/n4.jpg", File (Bytes [193; 103; 113]));
   ("data/normal/n5.JPG", File (Bytes [194; 104; 114]))].

(** Both class directories are there and hold nothing. *)
Definition empty_classes : list (string * node) :=
  [("data", Dir); ("data/anemic", Dir); ("data/normal", Dir)].

Definition val_stream : DirectoryIterator :=
  snd (fst (create_data_generators "data" 2 0.2 (world_of dataset))).

Definition train_stream : DirectoryIterator :=
  fst (fst (create_data_generators "data" 2 0.2 (world_of dataset))).

Definition args_of (E : Z) (K : Z) : Args := {|
  data_dir := "data";
  epochs := E;
  batch_size := 2;
  learning_rate := 0.001;
  output_dir := "models";
  fine_tune_layers := K;
|}.

End Sample.

(** * Properties *)

(** Unfold one layer of the computation monad. *)
Ltac run_M :=
  unfold mbind, M_bind, say, act, call, of_res, mret, M_ret, raise, path_exists.

(** Membership in a list that is written out. *)
Ltac in_list :=
  repeat first [apply list_elem_of_here | apply list_elem_of_further].

(** ** Order facts on binary64 values *)

Section FloatOrder.

Lemma SFcompare_zero_lt (x : spec_float) :
  SFcompare (S754_zero false) x = Some Lt ->
  SFcompare x (S754_zero false) = Some Gt.
Proof. destruct x as [s|s| |s m e]; simpl; try destruct s; congruence. Qed.

Lemma float_pos_not_zero (x : float) :
  gt x 0 = true -> (x =? 0)%float = false.
Proof.
  unfold gt. rewrite ltb_spec, FloatAxioms.eqb_spec. unfold SFltb, SFeqb.
  change (Prim2SF 0) with (S754_zero false).
  destruct (SFcompare (S754_zero false) (Prim2SF x)) as [[]|] eqn:H;
    try discriminate.
  intros _. now rewrite (SFcompare_zero_lt _ H).
Qed.

Lemma float_zero_not_pos (x : float) :
  (x =? 0)%float = true -> gt x 0 = false.
Proof.
  intros H. destruct (gt x 0) eqn:G; [|reflexivity].
  apply float_pos_not_zero in G. congruence.
Qed.

Lemma SFltb_trans (x y z : spec_float) :
  SFltb x y = true -> SFltb y z = true -> SFltb x z = true.
Proof.
  unfold SFltb.
  destruct x as [sx|sx| |sx mx ex], y as [sy|sy| |sy my ey],
           z as [sz|sz| |sz mz ez];
    simpl; try destruct sx; try destruct sy; try destruct sz; simpl;
    try discriminate; try reflexivity;
    rewrite ?Pos.compare_cont_spec; simpl;
    destruct (Z.compare_spec ex ey), (Z.compare_spec ey ez),
             (Z.compare_spec ex ez);
    simpl; try discriminate; try reflexivity; try lia; subst;
    destruct (Pos.compare_spec mx my), (Pos.compare_spec my mz),
             (Pos.compare_spec mx mz);
    simpl; try discriminate; try reflexivity; try lia.
Qed.

Lemma float_gt_trans (x y z : float) :
  gt x y = true -> gt y z = true -> gt x z = true.
Proof.
  unfold gt. rewrite !ltb_spec. intros A B. eapply SFltb_trans; eauto.
Qed.

End FloatOrder.

(** ** Phase-2 layer selection *)

Section FineTune.

Lemma slice_to_nil {A} (l : list A) (stop : Z) :
  stop = 0 \/ stop + Z.of_nat (length l) <= 0 -> slice_to l stop = [].
Proof.
  intros H. unfold slice_to.
  destruct (stop <? 0) eqn:Hs.
  - apply Z.ltb_lt in Hs.
    replace (Z.max 0 (stop + Z.of_nat (length l))) with 0 by lia. reflexivity.
  - apply Z.ltb_ge in Hs.
    replace (Z.min stop (Z.of_nat (length l))) with 0 by lia. reflexivity.
Qed.

Lemma fine_tune_model_freezes_none (m : Model) (K : Z) (lr : float) (w : world) :
  K = 0 \/ Z.of_nat (length (base_layers m)) <= K ->
  base_layers (fst (fine_tune_model m K lr w))
  = map (set_layer_trainable true) (base_layers m).
Proof.
  intros H. unfold fine_tune_model.
  rewrite slice_to_nil.
  - reflexivity.
  - rewrite length_seq. simpl. rewrite length_map. lia.
Qed.

Lemma all_trainable_after_unfreeze (ls : list layer) :
  Forall (fun l => trainable l = true) (map (set_layer_trainable true) ls)
  /\ map layer_name (map (set_layer_trainable true) ls) = map layer_name ls.
Proof.
  split.
  - apply Forall_map, Forall_true. intros; reflexivity.
  - rewrite <- list_fmap_compose. reflexivity.
Qed.

(** C7. When [fine_tune_layers] is larger than the number of layers of the
    feature extractor, [fine_tune_model] returns (slicing never raises), the
    slice of layers to freeze is empty, and every layer of the extractor,
    the same layers in the same order, is trainable. *)
Theorem fine_tune_layers_above_count
    (m : Model) (K : Z) (lr : float) (w : world) :
  Z.of_nat (length (base_layers m)) < K ->
  let m' := fst (fine_tune_model m K lr w) in
  slice_to (base_layers (set_trainable true m)) (- K) = []
  /\ base_layers m' = map (set_layer_trainable true) (base_layers m)
  /\ Forall (fun l => trainable l = true) (base_layers m')
  /\ map layer_name (base_layers m') = map layer_name (base_layers m).
Proof.
  intros H m'. subst m'. split.
  - apply slice_to_nil. simpl. rewrite length_map. lia.
  - rewrite fine_tune_model_freezes_none by lia.
    split; [reflexivity | apply all_trainable_after_unfreeze].
Qed.

Lemma fine_tune_layers_above_count_witness :
  let m := fst (create_model Sample.engine_plain 9 (Sample.world_of [])) in
  let m' := fst (fine_tune_model m 9 0.001 (Sample.world_of [])) in
  Z.of_nat (length (base_layers m)) < 9
  /\ Forall (fun l => trainable l = true) (base_layers m').
Proof.
  intros m m'.
  assert (H : Z.of_nat (length (base_layers m)) < 9) by (vm_compute; reflexivity).
  split; [exact H|].
  exact (proj1 (proj2 (proj2
    (fine_tune_layers_above_count m 9 0.001 (Sample.world_of []) H)))).
Defined.

(** C10. With [fine_tune_layers = 0] the slice [layers[:-0]] is
    [layers[:0]], which is empty: no layer is frozen and the whole feature
    extractor is trainable. *)
Theorem fine_tune_layers_zero (m : Model) (lr : float) (w : world) :
  let m' := fst (fine_tune_model m 0 lr w) in
  slice_to (base_layers (set_trainable true m)) (- 0) = []
  /\ base_layers m' = map (set_layer_trainable true) (base_layers m)
  /\ Forall (fun l => trainable l = true) (base_layers m')
  /\ length (filter (fun l => trainable l = true) (base_layers m'))
     = length (base_layers m).
Proof.
  intros m'. subst m'. split.
  - apply slice_to_nil. left. reflexivity.
  - rewrite fine_tune_model_freezes_none by (left; reflexivity).
    split; [reflexivity|]. split; [apply all_trainable_after_unfreeze|].
    induction (base_layers m) as [|l ls IH]; [reflexivity|].
    cbn [map]. rewrite filter_cons_True by reflexivity.
    cbn [length]. now rewrite IH.
Qed.

End FineTune.

(** ** The evaluator *)

Section Evaluation.

Lemma getitem_metrics_record (v : string -> float) (k : string) :
  k ∈ compiled_names -> getitem (metrics_record v) k = Ok (v k).
Proof.
  intros H. unfold compiled_names in H.
  repeat (apply elem_of_cons in H as [->|H]; [vm_compute; reflexivity|]).
  inversion H.
Qed.

Lemma metrics_record_lookup (v : string -> float) (k : string) :
  metrics_record v !! k
  = if decide (k ∈ compiled_names) then Some (v k) else None.
Proof.
  destruct (decide (k ∈ compiled_names)) as [H|H].
  - generalize (getitem_metrics_record v k H). unfold getitem.
    destruct (metrics_record v !! k); congruence.
  - unfold metrics_record, compiled_names in *. cbn [map dict_zip].
    rewrite !lookup_insert_ne; [apply lookup_empty|..];
      intros <-; apply H; set_solver.
Qed.

Lemma epoch_pass_frame (E : engine) (it : DirectoryIterator) (w : world) :
  fs (snd (epoch_pass E it w)) = fs w
  /\ trace (snd (epoch_pass E it w)) = trace w.
Proof.
  unfold epoch_pass.
  destruct (index_array E it (rng w)) as [idx r].
  destruct (transformed_samples E it (fs w) idx r) as [xs r'].
  split; reflexivity.
Qed.

Lemma epoch_pass_samples (E : engine) (it : DirectoryIterator) (w1 w2 : world) :
  fs w1 = fs w2 -> rng w1 = rng w2 ->
  fst (epoch_pass E it w1) = fst (epoch_pass E it w2).
Proof.
  intros Hf Hr. unfold epoch_pass. rewrite Hf, Hr.
  destruct (index_array E it (rng w2)) as [idx r].
  destruct (transformed_samples E it (fs w2) idx r) as [xs r']. reflexivity.
Qed.

Lemma epoch_pass_rng (E : engine) (it : DirectoryIterator) (w1 w2 : world) :
  fs w1 = fs w2 -> rng w1 = rng w2 ->
  rng (snd (epoch_pass E it w1)) = rng (snd (epoch_pass E it w2)).
Proof.
  intros Hf Hr. unfold epoch_pass. rewrite Hf, Hr.
  destruct (index_array E it (rng w2)) as [idx r].
  destruct (transformed_samples E it (fs w2) idx r) as [xs r']. reflexivity.
Qed.

(** One run of [evaluate_model] on a model that carries the compiled names:
    it returns, the record is the runtime's five values, and the F1 line is
    the only thing that depends on precision + recall. *)
Lemma evaluate_model_run
    (E : engine) (m : Model) (it : DirectoryIterator) (w : world) :
  metrics_names m = compiled_names ->
  let v := evaluate E (model_weights m) (fst (epoch_pass E it w)) in
  exists w',
    evaluate_model E m it w = (Ok (metrics_record v), w')
    /\ fs w' = fs w
    /\ rng w' = rng (snd (epoch_pass E it w))
    /\ trace w'
       = trace w ++ metric_lines v ++ f1_lines (v "precision") (v "recall").
Proof.
  intros Hn v. unfold evaluate_model.
  unfold mbind, M_bind, say, act, call, of_res, mret, M_ret, model_evaluate.
  set (w0 := emit (Engine Evaluate) (print (Msg "Evaluating model...") w)).
  assert (Hx : fst (epoch_pass E it w0) = fst (epoch_pass E it w))
    by (apply epoch_pass_samples; reflexivity).
  assert (Hr : rng (snd (epoch_pass E it w0)) = rng (snd (epoch_pass E it w)))
    by (apply epoch_pass_rng; reflexivity).
  destruct (epoch_pass_frame E it w0) as [Hf Ht].
  destruct (epoch_pass E it w0) as [xs w1]. simpl in Hx, Hf, Ht, Hr. subst xs.
  rewrite Hn.
  change (dict_zip compiled_names (map ?f compiled_names) ∅)
    with (metrics_record f).
  fold v.
  rewrite !getitem_metrics_record by (unfold compiled_names; set_solver).
  unfold f1_lines.
  destruct (gt (v "precision" + v "recall") 0) eqn:G.
  - unfold truediv. rewrite (float_pos_not_zero _ G).
    eexists. split; [reflexivity|]. simpl. rewrite Hf, Ht, Hr.
    split; [reflexivity|]. split; [reflexivity|].
    unfold metric_lines. rewrite <- !app_assoc. reflexivity.
  - eexists. split; [reflexivity|]. simpl. rewrite Hf, Ht, Hr.
    split; [reflexivity|]. split; [reflexivity|].
    unfold metric_lines. rewrite <- !app_assoc. reflexivity.
Qed.

(** C2, as the code has it.  [evaluate_model] returns the record of exactly
    the five values the runtime reports (loss, accuracy, precision, recall,
    auc).  F1 = 2*(P*R)/(P+R) is computed when P + R > 0, and then it is
    printed, not stored: the record has no other key in either case. *)
Theorem evaluate_model_returns_runtime_metrics
    (E : engine) (m : Model) (it : DirectoryIterator) (w : world) :
  metrics_names m = compiled_names ->
  let v := evaluate E (model_weights m) (fst (epoch_pass E it w)) in
  exists metrics w',
    evaluate_model E m it w = (Ok metrics, w')
    /\ (forall k, metrics !! k
                  = if decide (k ∈ compiled_names) then Some (v k) else None)
    /\ trace w'
       = trace w ++ metric_lines v ++ f1_lines (v "precision") (v "recall").
Proof.
  intros Hn v.
  destruct (evaluate_model_run E m it w Hn) as (w' & He & _ & _ & Ht).
  exists (metrics_record v), w'. split; [exact He|]. split; [|exact Ht].
  apply metrics_record_lookup.
Qed.

Lemma evaluate_model_returns_runtime_metrics_witness :
  let E := Sample.engine_plain in
  let m := Sample.compiled_model E in
  metrics_names m = compiled_names
  /\ exists metrics w',
       evaluate_model E m Sample.val_stream (Sample.world_of Sample.dataset)
       = (Ok metrics, w')
       /\ metrics !! "recall" = Some 0.25%float
       /\ metrics !! "f1" = None.
Proof.
  intros E m.
  assert (Hn : metrics_names m = compiled_names) by reflexivity.
  split; [exact Hn|].
  destruct (evaluate_model_returns_runtime_metrics E m Sample.val_stream
              (Sample.world_of Sample.dataset) Hn)
    as (metrics & w' & He & Hk & _).
  exists metrics, w'. split; [exact He|].
  split; rewrite Hk; reflexivity.
Defined.

(** C2 fails as stated: with precision 0.5 and recall 0.25 the sum is
    positive, yet the returned record has the five runtime values only and
    no key holds F1. *)
Lemma evaluate_model_record_lacks_f1 :
  let E := Sample.engine_plain in
  let m := Sample.compiled_model E in
  let f1 := (2 * (0.5 * 0.25) / (0.5 + 0.25))%float in
  exists metrics w',
    evaluate_model E m Sample.val_stream (Sample.world_of Sample.dataset)
    = (Ok metrics, w')
    /\ metrics !! "precision" = Some 0.5%float
    /\ metrics !! "recall" = Some 0.25%float
    /\ gt (0.5 + 0.25)%float 0 = true
    /\ Print (MsgF "   F1 Score:  " f1) ∈ trace w'
    /\ forall k, metrics !! k <> Some f1.
Proof.
  intros E m f1.
  assert (Hn : metrics_names m = compiled_names) by reflexivity.
  destruct (evaluate_model_run E m Sample.val_stream
              (Sample.world_of Sample.dataset) Hn)
    as (w' & He & _ & _ & Ht).
  eexists _, w'. split; [exact He|].
  split; [reflexivity|]. split; [reflexivity|]. split; [reflexivity|].
  split.
  - rewrite Ht. apply elem_of_app. right. apply elem_of_app. right.
    vm_compute. constructor.
  - intros k. rewrite metrics_record_lookup.
    destruct (decide (k ∈ compiled_names)) as [H|H]; [|discriminate].
    unfold compiled_names in H.
    repeat (apply elem_of_cons in H as [->|H];
            [vm_compute; intros [=] |]).
    inversion H.
Qed.

(** C8. When precision + recall is zero, [evaluate_model] returns without a
    division fault: the guard skips the quotient, no F1 line is printed and
    the returned record has no F1 entry. *)
Theorem evaluate_model_total_without_f1
    (E : engine) (m : Model) (it : DirectoryIterator) (w : world) :
  metrics_names m = compiled_names ->
  let v := evaluate E (model_weights m) (fst (epoch_pass E it w)) in
  (v "precision" + v "recall" =? 0)%float = true ->
  exists metrics w',
    evaluate_model E m it w = (Ok metrics, w')
    /\ metrics = metrics_record v
    /\ metrics !! "f1" = None
    /\ trace w' = trace w ++ metric_lines v.
Proof.
  intros Hn v Hz.
  destruct (evaluate_model_run E m it w Hn) as (w' & He & _ & _ & Ht).
  exists (metrics_record v), w'. split; [exact He|]. split; [reflexivity|].
  split; [reflexivity|].
  rewrite Ht. fold v. unfold f1_lines.
  rewrite (float_zero_not_pos _ Hz). now rewrite app_nil_r.
Qed.

Lemma evaluate_model_total_without_f1_witness :
  let E := Sample.engine_degenerate in
  let m := Sample.compiled_model E in
  let w := Sample.world_of Sample.dataset in
  let v := evaluate E (model_weights m) (fst (epoch_pass E Sample.val_stream w)) in
  metrics_names m = compiled_names
  /\ (v "precision" + v "recall" =? 0)%float = true
  /\ exists metrics w',
       evaluate_model E m Sample.val_stream w = (Ok metrics, w')
       /\ metrics !! "f1" = None.
Proof.
  intros E m w v.
  assert (Hn : metrics_names m = compiled_names) by reflexivity.
  assert (Hz : (v "precision" + v "recall" =? 0)%float = true) by reflexivity.
  split; [exact Hn|]. split; [exact Hz|].
  destruct (evaluate_model_total_without_f1 E m Sample.val_stream w Hn Hz)
    as (metrics & w' & He & _ & Hf & _).
  exists metrics, w'. split; [exact He | exact Hf].
Defined.

End Evaluation.

(** ** Traces, callbacks and the two phases *)

Section Traces.

Lemma engine_calls_app (t u : list event) :
  engine_calls (t ++ u) = engine_calls t ++ engine_calls u.
Proof. apply omap_app. Qed.

Lemma checkpoints_app (t u : list event) :
  checkpoints (t ++ u) = checkpoints t ++ checkpoints u.
Proof. apply omap_app. Qed.

Lemma engine_calls_cons (c : engine_call) (t : list event) :
  engine_calls (Engine c :: t) = c :: engine_calls t.
Proof. reflexivity. Qed.

Lemma only_prints_silent (t : list event) :
  only_prints t -> engine_calls t = [] /\ checkpoints t = [].
Proof.
  induction 1 as [|e t He _ [IH1 IH2]]; [split; reflexivity|].
  destruct e; try contradiction. split; assumption.
Qed.

End Traces.

Section Callbacks.

Lemma es_on_epoch_end_spec (c : EarlyStopping) (epoch : Z)
    (logs : gmap string float) (m : Model) (w : world) (d : Z) :
  es_room d (CbEarlyStopping c) ->
  let '(c', m', w') := es_on_epoch_end c epoch logs m w in
  (exists t, trace w' = trace w ++ t /\ only_prints t)
  /\ metrics_names m' = metrics_names m
  /\ es_room (d - 1) (CbEarlyStopping c')
  /\ (stop_training m' = true -> stop_training m = true \/ d <= 1).
Proof.
  intros [H0 H1]. unfold es_on_epoch_end.
  destruct (logs !! es_monitor c) as [current|].
  2:{ split; [eexists; split; [reflexivity|repeat constructor]|].
      split; [reflexivity|]. split; [simpl; lia|]. now left. }
  destruct (gt (current - es_min_delta c) (es_best c)) eqn:Hi; cbn [andb].
  - destruct ((es_patience c <=? 0) && (0 <? epoch)) eqn:Hs.
    + apply andb_true_iff in Hs as [Hs _]. apply Z.leb_le in Hs.
      repeat case_match; simplify_eq; cbn;
        (split; [eexists; split; [try reflexivity; try (symmetry; apply app_nil_r)|repeat constructor]|]);
        (split; [reflexivity|]); (split; [lia|]); intros _; right; lia.
    + split; [exists []; split; [symmetry; apply app_nil_r|constructor]|].
      split; [reflexivity|]. split; [simpl; lia|]. now left.
  - destruct ((es_patience c <=? es_wait c + 1) && (0 <? epoch)) eqn:Hs.
    + apply andb_true_iff in Hs as [Hs _]. apply Z.leb_le in Hs.
      repeat case_match; simplify_eq; cbn;
        (split; [eexists; split; [try reflexivity; try (symmetry; apply app_nil_r)|repeat constructor]|]);
        (split; [reflexivity|]); (split; [lia|]); intros _; right; lia.
    + split; [exists []; split; [symmetry; apply app_nil_r|constructor]|].
      split; [reflexivity|]. split; [simpl; lia|]. now left.
Qed.

Lemma rl_on_epoch_end_spec (c : ReduceLROnPlateau) (epoch : Z)
    (logs : gmap string float) (m : Model) (w : world) :
  let '(c', m', w') := rl_on_epoch_end c epoch logs m w in
  (exists t, trace w' = trace w ++ t /\ only_prints t)
  /\ metrics_names m' = metrics_names m
  /\ stop_training m' = stop_training m.
Proof.
  unfold rl_on_epoch_end.
  repeat case_match; simplify_eq; cbn;
    (split; [eexists; split; [try reflexivity; try (symmetry; apply app_nil_r)|repeat constructor]|]);
    split; reflexivity.
Qed.

Lemma mc_on_epoch_end_spec (c : ModelCheckpoint) (epoch : Z)
    (logs : gmap string float) (m : Model) (w : world) :
  mc_save_best_only c = true ->
  let '(c', m', w') := mc_on_epoch_end c epoch logs m w in
  (exists t, trace w' = trace w ++ t /\ engine_calls t = [] /\ mc_step c c' epoch t)
  /\ m' = m.
Proof.
  intros Hb. unfold mc_on_epoch_end. rewrite Hb.
  destruct (logs !! mc_monitor c) as [current|].
  - destruct (gt current (mc_best c)) eqn:Hg.
    + split; [|reflexivity]. eexists. split.
      * cbn. rewrite <- !app_assoc. reflexivity.
      * split; [reflexivity|]. right. exists current. cbn. auto.
    + split; [|reflexivity]. eexists. split; [reflexivity|].
      split; [reflexivity|]. left. auto.
  - split; [|reflexivity]. eexists. split; [reflexivity|].
    split; [reflexivity|]. left. auto.
Qed.

End Callbacks.

Section Fit.

Lemma StronglySorted_snoc {A} (R : A -> A -> Prop) (l : list A) (y : A) :
  StronglySorted R l -> Forall (fun x => R x y) l -> StronglySorted R (l ++ [y]).
Proof.
  induction 1 as [|x l Hl IH Hx]; intros Hy; cbn.
  - repeat constructor.
  - apply Forall_cons in Hy as [Hxy Hy]. constructor; [auto|].
    apply Forall_app. split; [assumption | repeat constructor; assumption].
Qed.

Lemma history_ok_later (cps : list (Z * float)) (best : float) (e e' : Z) :
  e <= e' -> history_ok cps best e -> history_ok cps best e'.
Proof.
  intros He [Hs Hf]. split; [assumption|].
  eapply Forall_impl; [exact Hf|]. cbn. intros c [? ?]. split; [lia|assumption].
Qed.

Lemma history_ok_step (cps : list (Z * float)) (c c' : ModelCheckpoint)
    (epoch : Z) (t : list event) :
  mc_step c c' epoch t ->
  history_ok cps (mc_best c) epoch ->
  history_ok (cps ++ checkpoints t) (mc_best c') (epoch + 1).
Proof.
  intros [[-> Ht]|(v & Hv & Hb & _ & Ht)] [Hs Hf]; rewrite Ht.
  - rewrite app_nil_r. apply (history_ok_later _ _ epoch); [lia|]. split; assumption.
  - rewrite Hb. split.
    + apply StronglySorted_snoc; [assumption|].
      eapply Forall_impl; [exact Hf|]. cbn. intros x [Hx [Hy|Hy]]; split; cbn; try assumption.
      * now rewrite Hy.
      * eapply float_gt_trans; eassumption.
    + apply Forall_app. split.
      * eapply Forall_impl; [exact Hf|]. cbn. intros x [Hx [Hy|Hy]]; (split; [lia|right]).
        -- now rewrite Hy.
        -- eapply float_gt_trans; eassumption.
      * repeat constructor; cbn; lia.
Qed.

Lemma callbacks_on_epoch_end_policy (es : EarlyStopping) (mc : ModelCheckpoint)
    (rl : ReduceLROnPlateau) (epoch : Z) (logs : gmap string float)
    (m : Model) (w : world) (d : Z) :
  es_room d (CbEarlyStopping es) ->
  mc_save_best_only mc = true ->
  let '(cbs', m', w') := callbacks_on_epoch_end (policy es mc rl) epoch logs m w in
  exists es' mc' rl' t,
    cbs' = policy es' mc' rl'
    /\ trace w' = trace w ++ t
    /\ engine_calls t = []
    /\ mc_step mc mc' epoch t
    /\ mc_save_best_only mc' = true
    /\ metrics_names m' = metrics_names m
    /\ es_room (d - 1) (CbEarlyStopping es')
    /\ (stop_training m' = true -> stop_training m = true \/ d <= 1).
Proof.
  intros Hr Hb. unfold policy. cbn [callbacks_on_epoch_end on_epoch_end].
  pose proof (es_on_epoch_end_spec es epoch logs m w d Hr) as Hes.
  destruct (es_on_epoch_end es epoch logs m w) as [[es' m1] w1].
  destruct Hes as ((t1 & Ht1 & Hp1) & Hn1 & Hr1 & Hs1).
  pose proof (mc_on_epoch_end_spec mc epoch logs m1 w1 Hb) as Hmc.
  destruct (mc_on_epoch_end mc epoch logs m1 w1) as [[mc' m2] w2].
  destruct Hmc as ((t2 & Ht2 & He2 & Hstep) & ->).
  pose proof (rl_on_epoch_end_spec rl epoch logs m1 w2) as Hrl.
  destruct (rl_on_epoch_end rl epoch logs m1 w2) as [[rl' m3] w3].
  destruct Hrl as ((t3 & Ht3 & Hp3) & Hn3 & Hs3).
  destruct (only_prints_silent _ Hp1) as [Ha1 Hc1].
  destruct (only_prints_silent _ Hp3) as [Ha3 Hc3].
  exists es', mc', rl', (t1 ++ t2 ++ t3).
  split; [reflexivity|].
  split; [rewrite Ht3, Ht2, Ht1, <- !app_assoc; reflexivity|].
  split; [rewrite !engine_calls_app, Ha1, He2, Ha3; reflexivity|].
  split.
  { destruct Hstep as [[-> Hc]|(v & ? & ? & ? & Hc)]; [left|right; exists v];
      rewrite !checkpoints_app, Hc1, Hc, Hc3; auto. }
  split.
  { destruct Hstep as [[-> _]|(v & _ & _ & -> & _)]; assumption. }
  split; [congruence|]. split; [assumption|].
  rewrite Hs3. assumption.
Qed.

Lemma fit_epochs_policy (E : engine) (train val : DirectoryIterator) (n : nat) :
  forall (epoch : Z) (m : Model) (es : EarlyStopping) (mc : ModelCheckpoint)
         (rl : ReduceLROnPlateau) (w : world) (d : Z),
  es_room d (CbEarlyStopping es) ->
  mc_save_best_only mc = true ->
  stop_training m = false ->
  let '(m', cbs', w') := fit_epochs E train val n epoch m (policy es mc rl) w in
  exists es' mc' rl' t k,
    cbs' = policy es' mc' rl'
    /\ mc_save_best_only mc' = true
    /\ trace w' = trace w ++ t
    /\ 0 <= k <= Z.of_nat n
    /\ engine_calls t = map TrainEpoch (seqZ epoch k)
    /\ (Z.of_nat n <= d -> k = Z.of_nat n)
    /\ metrics_names m' = metrics_names m
    /\ (forall cps, history_ok cps (mc_best mc) epoch ->
                    history_ok (cps ++ checkpoints t) (mc_best mc')
                      (epoch + Z.of_nat n)).
Proof.
  induction n as [|n IH]; intros epoch m es mc rl w d Hr Hb Hs.
  - cbn [fit_epochs]. exists es, mc, rl, [], 0.
    split; [reflexivity|]. split; [assumption|].
    split; [symmetry; apply app_nil_r|]. split; [lia|].
    split; [reflexivity|]. split; [lia|]. split; [reflexivity|].
    intros cps H. rewrite app_nil_r, Z.add_0_r. assumption.
  - cbn [fit_epochs].
    set (w0 := emit (Engine (TrainEpoch epoch)) w).
    destruct (epoch_pass_frame E train w0) as [_ Ht1].
    destruct (epoch_pass E train w0) as [tr w1]. cbn [snd] in Ht1.
    destruct (epoch_pass_frame E val w1) as [_ Ht2].
    destruct (epoch_pass E val w1) as [va w2]. cbn [snd] in Ht2.
    pose proof (callbacks_on_epoch_end_policy es mc rl epoch
                  (epoch_logs E m epoch tr va) (set_weights (Trained epoch) m)
                  w2 d Hr Hb) as Hc.
    destruct (callbacks_on_epoch_end _ _ _ _ _) as [[cbs1 m1] w3].
    destruct Hc as (es1 & mc1 & rl1 & t1 & -> & Htr & Hen & Hstep & Hb1 & Hn1 & Hr1 & Hs1).
    assert (Htrace : trace w3 = trace w ++ Engine (TrainEpoch epoch) :: t1).
    { rewrite Htr, Ht2, Ht1. subst w0. cbn. rewrite <- app_assoc. reflexivity. }
    destruct (stop_training m1) eqn:Hstop.
    + exists es1, mc1, rl1, (Engine (TrainEpoch epoch) :: t1), 1.
      split; [reflexivity|]. split; [assumption|]. split; [assumption|].
      split; [lia|].
      split; [rewrite engine_calls_cons, Hen; reflexivity|].
      split.
      { intros Hd. destruct (Hs1 eq_refl) as [Hx|Hx]; [cbn in Hx; congruence|lia]. }
      split; [exact Hn1|].
      intros cps H.
      apply (history_ok_later _ _ (epoch + 1)); [lia|].
      change (checkpoints (Engine (TrainEpoch epoch) :: t1)) with (checkpoints t1).
      eapply history_ok_step; eassumption.
    + pose proof (IH (epoch + 1) m1 es1 mc1 rl1 w3 (d - 1) Hr1 Hb1 Hstop) as Hrec.
      destruct (fit_epochs E train val n (epoch + 1) m1 (policy es1 mc1 rl1) w3)
        as [[m2 cbs2] w4].
      destruct Hrec as (es2 & mc2 & rl2 & t2 & k & -> & Hb2 & Htr2 & Hk & Hen2 & Hfull & Hn2 & Hh).
      exists es2, mc2, rl2, ((Engine (TrainEpoch epoch) :: t1) ++ t2), (1 + k).
      split; [reflexivity|]. split; [assumption|].
      split; [rewrite Htr2, Htrace, <- app_assoc; reflexivity|].
      split; [lia|].
      split.
      { rewrite engine_calls_app, Hen2, engine_calls_cons, Hen.
        rewrite (seqZ_cons epoch (1 + k)) by lia.
        replace (Z.pred (1 + k)) with k by lia. reflexivity. }
      split; [intros Hd; rewrite Hfull by lia; lia|].
      split; [rewrite Hn2, Hn1; reflexivity|].
      intros cps H.
      rewrite checkpoints_app, app_assoc.
      replace (epoch + Z.of_nat (S n)) with (epoch + 1 + Z.of_nat n) by lia.
      apply Hh.
      change (checkpoints (Engine (TrainEpoch epoch) :: t1)) with (checkpoints t1).
      eapply history_ok_step; eassumption.
Qed.

End Fit.

Section Blocks.

Lemma fs_print (l : line) (w : world) : fs (print l w) = fs w.
Proof. reflexivity. Qed.

(** Past its two checks, [main] is its blocks in sequence. *)
Lemma main_blocks (E : engine) (args : Args) (w : world) :
  layout_ok args w ->
  main E args w =
  let '(train_gen, val_gen, model, callbacks, w) := prepare E args w in
  let '(model, callbacks, w) :=
    train_phases E args train_gen val_gen model callbacks w in
  match evaluate_model E model val_gen w with
  | (Ok metrics, w) =>
      match export E args model w with
      | (Ok _, w) => (Ok (Completed model callbacks metrics), w)
      | (Raise e, w) => (Raise e, w)
      end
  | (Raise e, w) => (Raise e, w)
  end.
Proof.
  intros ([n0 H0] & [n1 H1] & [n2 H2]).
  unfold main, prepare, train_phases, export. run_M. unfold exists_, header.
  rewrite !fs_print, H0. cbn [negb]. rewrite !fs_print, H1, H2. cbn [negb orb].
  destruct (create_data_generators _ _ _ _) as [[train val] w1].
  destruct (create_model _ _ _) as [m1 w2].
  destruct (compile_model _ _ _) as [m2 w3].
  destruct (get_callbacks _ _) as [cbs w4].
  destruct (fit E m2 train val _ 0 cbs _) as [[m3 cbs3] w5].
  destruct (Z.min 10 (floordiv (epochs args) 2) <? epochs args).
  - destruct (fine_tune_model _ _ _ _) as [m4 w6].
    destruct (fit E m4 train val _ _ cbs3 _) as [[m5 cbs5] w7].
    destruct (evaluate_model E m5 val w7) as [[metrics|e] w8]; [|reflexivity].
    destruct (convert_to_tflite _ _ _ _) as [p w9].
    destruct (add_tflite_metadata _ _ _ _) as [[q|e] w10]; reflexivity.
  - destruct (evaluate_model E m3 val w5) as [[metrics|e] w8]; [|reflexivity].
    destruct (convert_to_tflite _ _ _ _) as [p w9].
    destruct (add_tflite_metadata _ _ _ _) as [[q|e] w10]; reflexivity.
Qed.

End Blocks.

Section Phases.

Lemma fit_policy (E : engine) (m : Model) (train val : DirectoryIterator)
    (epochs initial : Z) (es : EarlyStopping) (mc : ModelCheckpoint)
    (rl : ReduceLROnPlateau) (w : world) :
  mc_save_best_only mc = true ->
  let '(m', cbs', w') := fit E m train val epochs initial (policy es mc rl) w in
  exists es' mc' rl' t k,
    cbs' = policy es' mc' rl'
    /\ mc_save_best_only mc' = true
    /\ trace w' = trace w ++ t
    /\ 0 <= k <= Z.max 0 (epochs - initial)
    /\ engine_calls t = Fit epochs initial :: map TrainEpoch (seqZ initial k)
    /\ (epochs - initial <= es_patience es -> k = Z.max 0 (epochs - initial))
    /\ metrics_names m' = metrics_names m
    /\ (forall cps, history_ok cps (mc_best mc) initial ->
                    history_ok (cps ++ checkpoints t) (mc_best mc')
                      (Z.max initial epochs)).
Proof.
  intros Hb. unfold fit. cbn [map policy on_train_begin].
  match goal with
  | |- context [fit_epochs E train val ?n initial ?m0 [CbEarlyStopping ?es0; CbModelCheckpoint mc; CbReduceLROnPlateau ?rl0] ?w0] =>
      pose proof (fit_epochs_policy E train val n initial m0 es0 mc rl0 w0
                    (es_patience es)) as H;
      unfold policy in H;
      destruct (fit_epochs E train val n initial m0
                  [CbEarlyStopping es0; CbModelCheckpoint mc; CbReduceLROnPlateau rl0] w0)
        as [[m1 cbs1] w1]
  end.
  destruct H as (es1 & mc1 & rl1 & t & k & -> & Hb1 & Htr & Hk & Hen & Hfull & Hn & Hh);
    [cbn; lia | assumption | reflexivity |].
  cbn [foldl on_train_end].
  set (wend := if 0 <? es_stopped_epoch es1 then _ else w1).
  assert (Hend : exists u, trace wend = trace w1 ++ u /\ only_prints u).
  { subst wend. destruct (0 <? es_stopped_epoch es1).
    - eexists. split; [reflexivity|repeat constructor].
    - exists []. split; [symmetry; apply app_nil_r|constructor]. }
  destruct Hend as (u & Hu & Hpu). destruct (only_prints_silent _ Hpu) as [Hu1 Hu2].
  exists es1, mc1, rl1, (Engine (Fit epochs initial) :: t ++ u), k.
  split; [reflexivity|]. split; [assumption|].
  split; [rewrite Hu, Htr; cbn; rewrite <- !app_assoc; reflexivity|].
  split; [lia|].
  split; [rewrite engine_calls_cons, engine_calls_app, Hen, Hu1, app_nil_r; reflexivity|].
  split.
  { intros Hd. destruct (Z.le_gt_cases (epochs - initial) 0); [lia|].
    rewrite Hfull by lia. lia. }
  split; [exact Hn|].
  intros cps H.
  change (checkpoints (Engine (Fit epochs initial) :: t ++ u)) with (checkpoints (t ++ u)).
  rewrite checkpoints_app, Hu2, app_nil_r.
  replace (Z.max initial epochs) with (initial + Z.of_nat (Z.to_nat (epochs - initial))) by lia.
  apply Hh. assumption.
Qed.

Lemma prepare_spec (E : engine) (args : Args) (w : world) :
  let '(train_gen, val_gen, model, callbacks, w') := prepare E args w in
  callbacks = script_policy (output_dir args)
  /\ metrics_names model = compiled_names
  /\ exists t,
       trace w' = trace w ++ t
       /\ engine_calls t
          = [FlowFromDirectory Training true; FlowFromDirectory Validation false;
             BuildModel; Compile (learning_rate args); Summary]
       /\ checkpoints t = [].
Proof.
  unfold prepare, create_data_generators, flow_from_directory, create_model,
    compile_model, compile, get_callbacks, makedirs, header.
  cbv beta iota zeta.
  match goal with |- context [match ?x with Some _ => _ | None => _ end] =>
    destruct x end;
  (split; [reflexivity|]; split; [reflexivity|];
   eexists; split;
   [cbn [trace print emit]; rewrite <- !app_assoc; reflexivity
   |split; reflexivity]).
Qed.

Lemma fine_tune_model_spec (m : Model) (K : Z) (lr : float) (w : world) :
  let '(m', w') := fine_tune_model m K lr w in
  metrics_names m' = compiled_names
  /\ exists t, trace w' = trace w ++ t
               /\ engine_calls t = [Compile (lr / 10)%float]
               /\ checkpoints t = [].
Proof.
  unfold fine_tune_model, compile. cbv beta iota zeta.
  split; [reflexivity|]. eexists. split.
  - cbn [trace print emit]. rewrite <- !app_assoc. reflexivity.
  - split; reflexivity.
Qed.

Lemma train_phases_spec (E : engine) (args : Args)
    (train val : DirectoryIterator) (m : Model) (w : world) :
  metrics_names m = compiled_names ->
  let i := Z.min 10 (floordiv (epochs args) 2) in
  let '(m', cbs', w') :=
    train_phases E args train val m (script_policy (output_dir args)) w in
  metrics_names m' = compiled_names
  /\ exists t k,
       trace w' = trace w ++ t
       /\ 0 <= k <= Z.max 0 (epochs args - i)
       /\ engine_calls t = training_calls args k
       /\ StronglySorted improves (checkpoints t).
Proof.
  intros Hn i. unfold train_phases, script_policy. fold i.
  pose proof (fit_policy E m train val i 0 (new_EarlyStopping "val_auc" 10 true)
                (new_ModelCheckpoint (path_join (output_dir args) "anemia_model_best.keras")
                   "val_auc" true)
                (new_ReduceLROnPlateau "val_loss" 0.5 5 1e-7) w eq_refl) as H1.
  destruct (fit E m train val i 0 _ w) as [[m1 cbs1] w1].
  destruct H1 as (es1 & mc1 & rl1 & t1 & k1 & -> & Hb1 & Htr1 & Hk1 & Hen1 & Hfull1 & Hn1 & Hh1).
  assert (Hk : k1 = Z.max 0 i).
  { rewrite Hfull1; [f_equal; lia|]. cbn. subst i. lia. }
  assert (Hseq : seqZ 0 k1 = seqZ 0 i).
  { rewrite Hk. destruct (Z.le_gt_cases 0 i).
    - now rewrite Z.max_r.
    - rewrite Z.max_l by lia. unfold seqZ. now destruct i. }
  assert (H0 : history_ok [] neg_infinity 0) by (split; constructor).
  specialize (Hh1 [] H0). cbn [app] in Hh1.
  unfold training_calls, phase2_calls. fold i.
  destruct (i <? epochs args) eqn:Hlt.
  - apply Z.ltb_lt in Hlt.
    assert (Hi : 0 <= i).
    { subst i. unfold floordiv in *. apply Z.min_glb; [lia|].
      apply Z.div_pos; [|lia].
      destruct (Z.le_gt_cases 0 (epochs args)); [assumption|].
      exfalso. assert (epochs args <= epochs args / 2); [|lia].
      apply Z.div_le_lower_bound; lia. }
    set (w2 := print (Msg banner) (print _ (print (Msg banner) w1))).
    pose proof (fine_tune_model_spec m1 (fine_tune_layers args) (learning_rate args) w2) as Hft.
    destruct (fine_tune_model m1 _ _ w2) as [m2 w3].
    destruct Hft as (Hn2 & tf & Htf & Hef & Hcf).
    pose proof (fit_policy E m2 train val (epochs args) i es1 mc1 rl1 w3 Hb1) as H2.
    destruct (fit E m2 train val (epochs args) i _ w3) as [[m3 cbs3] w4].
    destruct H2 as (es3 & mc3 & rl3 & t3 & k3 & -> & Hb3 & Htr3 & Hk3 & Hen3 & _ & Hn3 & Hh3).
    split; [congruence|].
    exists (t1 ++ [Print (Msg banner); Print (Msg "Phase 2: Fine-tuning base model...");
                   Print (Msg banner)] ++ tf ++ t3), k3.
    split.
    { rewrite Htr3, Htf. subst w2. cbn [trace print emit]. rewrite Htr1.
      rewrite <- ?app_assoc. reflexivity. }
    split; [lia|].
    split.
    { rewrite !engine_calls_app, Hen1, Hef, Hen3, Hseq. cbn [engine_calls omap].
      reflexivity. }
    rewrite !checkpoints_app, Hcf. cbn [checkpoints omap app].
    change (omap _ t1) with (checkpoints t1). change (omap _ t3) with (checkpoints t3).
    apply (Hh3 (checkpoints t1)).
    apply (history_ok_later _ _ (Z.max 0 i)); [lia|]. exact Hh1.
  - split; [congruence|]. exists t1, 0.
    split; [assumption|]. split; [lia|].
    split; [rewrite Hen1, Hseq, app_nil_r; reflexivity|].
    apply Hh1.
Qed.

End Phases.

Section Paths.

Lemma append_inv_head (a b c : string) : a +:+ b = a +:+ c -> b = c.
Proof. induction a as [|x a IH]; cbn; [auto|]. intros [=]. auto. Qed.

Lemma path_join_inj (a b c : string) :
  starts_with_slash b = false -> starts_with_slash c = false ->
  path_join a b = path_join a c -> b = c.
Proof.
  unfold path_join. intros -> ->.
  destruct (String.eqb a "" || ends_with_slash a); intros H.
  - now apply append_inv_head in H.
  - apply append_inv_head in H. now apply (append_inv_head "/") in H.
Qed.

End Paths.

(** Two artifacts of the output directory with different names are
    different paths. *)
Ltac distinct_paths :=
  let H := fresh in
  intros H; apply path_join_inj in H;
  [discriminate H | reflexivity | reflexivity].

Section ExportStage.

Lemma quiet_bind {A B} (c : M A) (f : A -> M B) :
  quiet c -> (forall a, quiet (f a)) -> quiet (c ≫= f).
Proof.
  intros Hc Hf w. unfold mbind, M_bind.
  destruct (Hc w) as (t & Ht & He & Hk).
  destruct (c w) as [[a|e] w1]; cbn [snd] in *.
  - destruct (Hf a w1) as (u & Hu & He' & Hk').
    exists (t ++ u). rewrite Hu, Ht, app_assoc, engine_calls_app, checkpoints_app.
    rewrite He, He', Hk, Hk'. auto.
  - exists t. auto.
Qed.

Lemma quiet_ret {A} (a : A) : quiet (mret a).
Proof. intros w. exists []. cbn. rewrite app_nil_r. auto. Qed.

Lemma quiet_raise {A} (e : exn) : quiet (@raise A e).
Proof. intros w. exists []. cbn. rewrite app_nil_r. auto. Qed.

Lemma quiet_say (l : line) : quiet (say l).
Proof. intros w. exists [Print l]. cbn. auto. Qed.

Lemma quiet_path_exists (p : string) : quiet (path_exists p).
Proof. intros w. exists []. cbn. rewrite app_nil_r. auto. Qed.

Lemma quiet_with_model_file (p : string) : quiet (TFLiteSupport.with_model_file p).
Proof.
  intros w. exists []. unfold TFLiteSupport.with_model_file.
  destruct (exists_ w p); cbn; rewrite app_nil_r; auto.
Qed.

Lemma quiet_load_associated_files (ps : list string) :
  forall pop, quiet (TFLiteSupport.load_associated_files ps pop).
Proof.
  induction ps as [|p ps IH]; intros pop; cbn [TFLiteSupport.load_associated_files].
  - apply quiet_ret.
  - apply quiet_bind; [apply quiet_path_exists|].
    intros [|]; [apply IH | apply quiet_raise].
Qed.

Lemma quiet_populate (pop : TFLiteSupport.MetadataPopulator) :
  quiet (TFLiteSupport.populate pop).
Proof.
  intros w. unfold TFLiteSupport.populate.
  destruct (fs w !! TFLiteSupport.model_file pop) as [[|[]]|];
    try (exists []; cbn; rewrite app_nil_r; now auto).
  eexists [_]. cbn. auto.
Qed.

Lemma quiet_shutil_copy (src dst : string) : quiet (shutil_copy src dst).
Proof.
  intros w. unfold shutil_copy.
  destruct (fs w !! src) as [[|c]|];
    try (exists []; cbn; rewrite app_nil_r; now auto).
  eexists [_]. cbn. auto.
Qed.

Lemma quiet_add_tflite_metadata (E : engine) (p out : string) :
  quiet (add_tflite_metadata E p out).
Proof.
  assert (Ht : quiet (add_tflite_metadata_try E p out)).
  { unfold add_tflite_metadata_try.
    apply quiet_bind.
    { unfold import_tflite_support.
      destruct (tflite_support_installed E); [apply quiet_ret|apply quiet_raise]. }
    intros _. apply quiet_bind; [apply quiet_with_model_file|]. intros pop1.
    apply quiet_bind; [apply quiet_load_associated_files|]. intros pop2.
    apply quiet_bind; [apply quiet_populate|]. intros _.
    apply quiet_bind; [apply quiet_shutil_copy|]. intros _.
    apply quiet_bind; [apply quiet_with_model_file|]. intros pop3.
    apply quiet_bind; [apply quiet_load_associated_files|]. intros pop4.
    apply quiet_bind; [apply quiet_populate|]. intros _.
    apply quiet_bind; [apply quiet_say|]. intros _. apply quiet_ret. }
  intros w. unfold add_tflite_metadata.
  destruct (Ht w) as (t & Htr & He & Hk).
  destruct (add_tflite_metadata_try E p out w) as [[a|[]] w1]; cbn [snd] in *;
    try (exists t; now auto).
  eexists (t ++ [_; _; _]). cbn. rewrite Htr, <- !app_assoc.
  split; [reflexivity|]. rewrite engine_calls_app, checkpoints_app, He, Hk. auto.
Qed.

Lemma convert_to_tflite_spec (E : engine) (m : Model) (out : string) (w : world) :
  let '(p, w') := convert_to_tflite E m out w in
  p = path_join out "anemia_detector.tflite"
  /\ fs w' = <[path_join out "model_metadata.json" := File (Json metadata)]>
             (<[path_join out "labels.txt" :=
                  File (Text ("Non-Anemic" +:+ newline +:+ "Anemic"))]>
                (<[path_join out "anemia_detector.tflite" :=
                     File (TFLite (converted E m))]>
                   (fs (makedirs out w))))
  /\ rng w' = rng w
  /\ trace w' = trace w ++ convert_events out.
Proof.
  unfold convert_to_tflite, makedirs, convert_events, converted.
  destruct (fs w !! out); cbv [write_file print emit fs trace rng];
    rewrite <- ?app_assoc; repeat split; reflexivity.
Qed.

Lemma convert_to_tflite_lookups (E : engine) (m : Model) (out : string) (w : world) :
  let w' := snd (convert_to_tflite E m out w) in
  fs w' !! path_join out "anemia_detector.tflite"
  = Some (File (TFLite (converted E m)))
  /\ fs w' !! path_join out "labels.txt"
     = Some (File (Text ("Non-Anemic" +:+ newline +:+ "Anemic")))
  /\ fs w' !! path_join out "model_metadata.json" = Some (File (Json metadata)).
Proof.
  pose proof (convert_to_tflite_spec E m out w) as H.
  destruct (convert_to_tflite E m out w) as [p w']. cbn [snd].
  destruct H as (_ & -> & _).
  split; [|split].
  - rewrite !lookup_insert_ne by distinct_paths. apply lookup_insert_eq.
  - rewrite lookup_insert_ne by distinct_paths. apply lookup_insert_eq.
  - apply lookup_insert_eq.
Qed.

Lemma quiet_convert (E : engine) (m : Model) (out : string) (w : world) :
  exists t, trace (snd (convert_to_tflite E m out w)) = trace w ++ t
            /\ engine_calls t = [Convert] /\ checkpoints t = [].
Proof.
  pose proof (convert_to_tflite_spec E m out w) as H.
  destruct (convert_to_tflite E m out w) as [p w']. cbn [snd].
  destruct H as (_ & _ & _ & ->). exists (convert_events out). auto.
Qed.

(** Whatever the runtime, the export block converts once and leaves the
    checkpoint alone. *)
Lemma export_trace (E : engine) (args : Args) (m : Model) (w : world) :
  exists t, trace (snd (export E args m w)) = trace w ++ t
            /\ engine_calls t = [Convert] /\ checkpoints t = [].
Proof.
  unfold export. run_M.
  set (w0 := print (Msg banner) (print _ (print _ (print _ (model_save m _ w))))).
  destruct (quiet_convert E m (output_dir args) w0) as (tc & Htc & Hec & Hkc).
  destruct (convert_to_tflite E m (output_dir args) w0) as [p w1]. cbn [snd] in Htc.
  destruct (quiet_add_tflite_metadata E p (output_dir args) w1) as (ta & Hta & Hea & Hka).
  destruct (add_tflite_metadata E p (output_dir args) w1) as [[q|e] w2]; cbn [snd] in *.
  - eexists (export_prefix args ++ tc ++ ta ++ [_; _; _; _; _; _; _; _]).
    split.
    + cbn [trace print emit]. rewrite Hta, Htc. subst w0.
      cbn [trace print emit model_save write_file]. unfold export_prefix.
      rewrite <- !app_assoc. reflexivity.
    + rewrite !engine_calls_app, !checkpoints_app, Hec, Hea, Hkc, Hka. auto.
  - exists (export_prefix args ++ tc ++ ta).
    split.
    + rewrite Hta, Htc. subst w0.
      cbn [trace print emit model_save write_file]. unfold export_prefix.
      rewrite <- !app_assoc. reflexivity.
    + rewrite !engine_calls_app, !checkpoints_app, Hec, Hea, Hkc, Hka. auto.
Qed.


End ExportStage.

Section Main.


End Main.

(** ** The claims about the whole pipeline *)

Section Configuration.

Lemma main_config_error (E : engine) (args : Args) (w : world) :
  fs w !! data_dir args = None
  \/ fs w !! path_join (data_dir args) "anemic" = None
  \/ fs w !! path_join (data_dir args) "normal" = None ->
  exists w' t,
    main E args w = (Ok ConfigError, w')
    /\ fs w' = fs w /\ rng w' = rng w
    /\ trace w' = trace w ++ t
    /\ only_prints t
    /\ (Print (MsgS "Error: Data directory not found: " (data_dir args)) ∈ t
        \/ Print (MsgS "Error: Expected 'anemic' and 'normal' subdirectories in "
                    (data_dir args)) ∈ t).
Proof.
  intros H. unfold main. run_M. unfold exists_.
  rewrite !fs_print.
  destruct (fs w !! data_dir args) as [n|] eqn:Hd; cbn [negb].
  - rewrite !fs_print.
    assert (Hs : negb match fs w !! path_join (data_dir args) "anemic" with
                      | Some _ => true | None => false end
                 || negb match fs w !! path_join (data_dir args) "normal" with
                         | Some _ => true | None => false end = true).
    { destruct H as [H|[H|H]]; [discriminate| |]; rewrite H; cbn;
        [reflexivity | apply orb_true_r]. }
    rewrite Hs.
    eexists _, _. split; [reflexivity|].
    split; [reflexivity|]. split; [reflexivity|].
    split; [cbn [trace print emit]; rewrite <- !app_assoc; reflexivity|].
    split; [repeat constructor|].
    right. in_list.
  - eexists _, _. split; [reflexivity|].
    split; [reflexivity|]. split; [reflexivity|].
    split; [cbn [trace print emit]; rewrite <- !app_assoc; reflexivity|].
    split; [repeat constructor|].
    left. in_list.
Qed.

(** C1, as the code has it.  When the data root is missing, or either class
    subdirectory is missing, [main] prints the diagnostic and returns at
    once: the file system and the random state are untouched, the run
    consists of prints only, and the runtime is never called (no
    partitioning, no training). *)
Theorem missing_directory_halts (E : engine) (args : Args) (w : world) :
  fs w !! data_dir args = None
  \/ fs w !! path_join (data_dir args) "anemic" = None
  \/ fs w !! path_join (data_dir args) "normal" = None ->
  exists w' t,
    main E args w = (Ok ConfigError, w')
    /\ fs w' = fs w /\ rng w' = rng w
    /\ trace w' = trace w ++ t
    /\ only_prints t
    /\ engine_calls t = []
    /\ (Print (MsgS "Error: Data directory not found: " (data_dir args)) ∈ t
        \/ Print (MsgS "Error: Expected 'anemic' and 'normal' subdirectories in "
                    (data_dir args)) ∈ t).
Proof.
  intros H.
  destruct (main_config_error E args w H) as (w' & t & Hm & Hf & Hr & Ht & Hp & Hd).
  exists w', t. repeat (split; [assumption|]).
  split; [apply (only_prints_silent t Hp) | exact Hd].
Qed.

Lemma missing_directory_halts_witness :
  let w := Sample.world_of [("data", Dir); ("data/normal", Dir)] in
  fs w !! path_join "data" "anemic" = None
  /\ exists w', main Sample.engine_plain (Sample.args_of 4 2) w = (Ok ConfigError, w')
                /\ fs w' = fs w.
Proof.
  intros w.
  assert (H : fs w !! path_join "data" "anemic" = None) by (vm_compute; reflexivity).
  split; [exact H|].
  destruct (missing_directory_halts Sample.engine_plain (Sample.args_of 4 2) w
              (or_intror (or_introl H))) as (w' & t & Hm & Hf & _).
  exists w'. split; assumption.
Defined.

(** C1 fails as stated for class directories that exist and are empty:
    [main] only tests that the paths exist.  The partitioner is called, the
    output directory is created and [fit] is called. *)
Lemma empty_class_directories_are_not_rejected :
  let w := Sample.world_of Sample.empty_classes in
  let r := main Sample.engine_plain (Sample.args_of 4 2) w in
  fs w !! "data/anemic" = Some Dir
  /\ fs w !! "data/normal" = Some Dir
  /\ entries_below w "data/anemic" = []
  /\ entries_below w "data/normal" = []
  /\ fst r <> Ok ConfigError
  /\ Engine (FlowFromDirectory Training true) ∈ trace (snd r)
  /\ Engine (Fit 2 0) ∈ trace (snd r)
  /\ fs w !! "models" = None
  /\ fs (snd r) !! "models" = Some Dir.
Proof.
  intros w r.
  split; [vm_compute; reflexivity|]. split; [vm_compute; reflexivity|].
  split; [vm_compute; reflexivity|]. split; [vm_compute; reflexivity|].
  split; [vm_compute; discriminate|].
  split; [vm_compute; in_list|].
  split; [vm_compute; in_list|].
  split; vm_compute; reflexivity.
Qed.

End Configuration.

Section Pipeline.





End Pipeline.

Section Checkpoints.

Lemma layout_ok_dec (args : Args) (w : world) :
  layout_ok args w
  \/ (fs w !! data_dir args = None
      \/ fs w !! path_join (data_dir args) "anemic" = None
      \/ fs w !! path_join (data_dir args) "normal" = None).
Proof.
  unfold layout_ok.
  destruct (fs w !! data_dir args); [|right; auto].
  destruct (fs w !! path_join (data_dir args) "anemic"); [|right; auto].
  destruct (fs w !! path_join (data_dir args) "normal"); [|right; auto].
  left. repeat split; eexists; reflexivity.
Qed.



End Checkpoints.

Section Metadata.






End Metadata.

Section Validation.

Lemma val_transform_identity (E : engine) (split : float) (rows cols r : Z) :
  fst (get_random_transform E (val_datagen split) rows cols r)
  = identity_transform.
Proof.
  unfold get_random_transform, val_datagen, ImageDataGenerator_default.
  cbn [rescale rotation_range width_shift_range height_shift_range shear_range
       zoom_range horizontal_flip vertical_flip brightness_range fill_mode
       validation_split].
  change (truthy 0) with false.
  change ((1 - 0 =? 1)%float && (1 + 0 =? 1)%float) with true.
  cbv beta iota.
  destruct (rand_uniform E r 0 1) as [ch r1].
  destruct (rand_uniform E r1 0 1) as [cv r2].
  cbn [fst]. rewrite !andb_false_r. reflexivity.
Qed.

Lemma val_sample (E : engine) (split : float) (x : image) :
  standardize (val_datagen split)
    (apply_transform E (val_datagen split) identity_transform x)
  = map (fun v => (v * (1 / 255))%float) x.
Proof. reflexivity. Qed.

Lemma val_transformed_samples (E : engine) (it : DirectoryIterator)
    (split : float) (files : gmap string node) (idx : list nat) :
  it_generator it = val_datagen split ->
  forall r,
    fst (transformed_samples E it files idx r)
    = omap (fun i => rescaled E files <$> it_samples it !! i) idx.
Proof.
  intros Hg. induction idx as [|i idx IH]; intros r; [reflexivity|].
  cbn [transformed_samples omap list_omap].
  destruct (it_samples it !! i) as [[p label]|]; cbn [fmap option_fmap option_map].
  - rewrite Hg.
    pose proof (val_transform_identity E split (fst (it_target_size it))
                  (snd (it_target_size it)) r) as Ht.
    destruct (get_random_transform E (val_datagen split) _ _ r) as [t r1].
    cbn [fst] in Ht. subst t. rewrite val_sample.
    specialize (IH r1).
    destruct (transformed_samples E it files idx r1) as [rest r2].
    cbn [fst] in *. rewrite IH. reflexivity.
  - apply IH.
Qed.

Lemma omap_lookup_seq {A B} (f : A -> B) (l k : list A) :
  omap (fun i => f <$> (k ++ l) !! i) (seq (length k) (length l)) = map f l.
Proof.
  revert k. induction l as [|x l IH]; intros k; [reflexivity|].
  cbn [length seq omap list_omap map].
  rewrite list_lookup_middle by reflexivity. cbn [fmap option_fmap option_map].
  f_equal.
  specialize (IH (k ++ [x])). rewrite <- app_assoc, length_app in IH.
  cbn [length app] in IH. rewrite Nat.add_1_r in IH. exact IH.
Qed.

Lemma val_epoch_pass (E : engine) (it : DirectoryIterator) (split : float)
    (w : world) :
  it_generator it = val_datagen split -> it_shuffle it = false ->
  fst (epoch_pass E it w) = map (rescaled E (fs w)) (it_samples it).
Proof.
  intros Hg Hs. unfold epoch_pass, index_array. rewrite Hs.
  pose proof (val_transformed_samples E it split (fs w)
                (seq 0 (length (it_samples it))) Hg (rng w)) as H.
  destruct (transformed_samples E it (fs w) _ (rng w)) as [xs r].
  cbn [fst] in *. rewrite H.
  apply (omap_lookup_seq (rescaled E (fs w)) (it_samples it) []).
Qed.

Lemma evaluate_model_result (E : engine) (m : Model) (it : DirectoryIterator)
    (w1 w2 : world) :
  fst (epoch_pass E it w1) = fst (epoch_pass E it w2) ->
  fst (model_evaluate E m it w1) = fst (model_evaluate E m it w2)
  /\ fst (evaluate_model E m it w1) = fst (evaluate_model E m it w2).
Proof.
  intros H.
  assert (H' : forall e1 e2,
             fst (epoch_pass E it (emit e1 (print e2 w1)))
             = fst (epoch_pass E it (emit e1 (print e2 w2)))).
  { intros e1 e2.
    rewrite (epoch_pass_samples E it (emit e1 (print e2 w1)) w1) by reflexivity.
    rewrite (epoch_pass_samples E it (emit e1 (print e2 w2)) w2) by reflexivity.
    exact H. }
  split.
  - unfold model_evaluate.
    assert (Hx : fst (epoch_pass E it (emit (Engine Evaluate) w1))
                 = fst (epoch_pass E it (emit (Engine Evaluate) w2))).
    { rewrite (epoch_pass_samples E it (emit (Engine Evaluate) w1) w1) by reflexivity.
      rewrite (epoch_pass_samples E it (emit (Engine Evaluate) w2) w2) by reflexivity.
      exact H. }
    destruct (epoch_pass E it (emit _ w1)) as [xs1 u1].
    destruct (epoch_pass E it (emit _ w2)) as [xs2 u2].
    cbn [fst] in *. now subst xs2.
  - unfold evaluate_model. run_M. unfold model_evaluate.
    specialize (H' (Engine Evaluate) (Msg "Evaluating model...")).
    destruct (epoch_pass E it (emit _ (print _ w1))) as [xs1 u1].
    destruct (epoch_pass E it (emit _ (print _ w2))) as [xs2 u2].
    cbn [fst] in H'. subst xs2.
    set (metrics := dict_zip _ _ _).
    repeat match goal with
           | |- context [getitem metrics ?k] => destruct (getitem metrics k)
           end; try reflexivity.
    all: destruct (gt _ _); try reflexivity.
    all: destruct (truediv _ _); reflexivity.
Qed.

(** C6. The validation generator rescales by 1/255 and has every
    augmentation parameter at its neutral default, and its iterator does not
    shuffle.  So a pass over the validation stream is the list of its
    samples, fixed when the iterator was built, each loaded and rescaled:
    it depends on neither the random state nor the epoch.  Two evaluation
    passes with the same model over the same files return the same values
    (loss, accuracy and the rest), whatever the random state. *)
Theorem validation_stream_is_deterministic
    (E : engine) (data_dir : string) (batch_size : Z) (split : float)
    (w0 : world) :
  let val := snd (fst (create_data_generators data_dir batch_size split w0)) in
  let g := it_generator val in
  (rescale g = Some (1 / 255)%float
   /\ rotation_range g = 0%float /\ width_shift_range g = 0%float
   /\ height_shift_range g = 0%float /\ shear_range g = 0%float
   /\ zoom_range g = 0%float /\ horizontal_flip g = false
   /\ vertical_flip g = false /\ brightness_range g = None)
  /\ it_shuffle val = false
  /\ (forall w, fst (epoch_pass E val w) = map (rescaled E (fs w)) (it_samples val))
  /\ (forall m files t1 t2 r1 r2,
        let w1 := {| fs := files; trace := t1; rng := r1 |} in
        let w2 := {| fs := files; trace := t2; rng := r2 |} in
        fst (epoch_pass E val w1) = fst (epoch_pass E val w2)
        /\ fst (model_evaluate E m val w1) = fst (model_evaluate E m val w2)
        /\ fst (evaluate_model E m val w1) = fst (evaluate_model E m val w2)).
Proof.
  intros val g.
  assert (Hg : it_generator val = val_datagen split) by reflexivity.
  assert (Hs : it_shuffle val = false) by reflexivity.
  split; [subst g; rewrite Hg; repeat split; reflexivity|].
  split; [exact Hs|].
  assert (Hp : forall w, fst (epoch_pass E val w)
                         = map (rescaled E (fs w)) (it_samples val)).
  { intros w. apply (val_epoch_pass E val split w Hg Hs). }
  split; [exact Hp|].
  intros m files t1 t2 r1 r2 w1 w2.
  assert (Hx : fst (epoch_pass E val w1) = fst (epoch_pass E val w2))
    by (rewrite !Hp; reflexivity).
  split; [exact Hx|]. apply evaluate_model_result. exact Hx.
Qed.

(** The training stream is not: another random state, another order. *)
Example training_stream_depends_on_random_state :
  let E := Sample.engine_plain in
  let w1 := {| fs := fs (Sample.world_of Sample.dataset); trace := []; rng := 1 |} in
  let w2 := {| fs := fs (Sample.world_of Sample.dataset); trace := []; rng := 2 |} in
  map snd (fst (epoch_pass E Sample.train_stream w1))
  <> map snd (fst (epoch_pass E Sample.train_stream w2)).
Proof. vm_compute. discriminate. Qed.

End Validation.


(** ** Further properties of the script *)

Section EvaluationEdges.




End EvaluationEdges.

Section FineTuneGeneral.

Lemma slice_to_seq (n : nat) (K : Z) :
  slice_to (seq 0 n) (- K) = seq 0 (frozen_count n K)
  /\ (frozen_count n K <= n)%nat.
Proof.
  unfold slice_to, frozen_count. rewrite length_seq.
  assert (H : (if - K <? 0 then Z.max 0 (- K + Z.of_nat n) else Z.min (- K) (Z.of_nat n))
              = (if 0 <? K then Z.max 0 (Z.of_nat n - K) else Z.min (- K) (Z.of_nat n))).
  { destruct (Z.ltb_spec (- K) 0), (Z.ltb_spec 0 K); try lia; f_equal; lia. }
  rewrite H.
  set (f := Z.to_nat _).
  assert (Hf : (f <= n)%nat).
  { subst f. destruct (Z.ltb_spec 0 K); lia. }
  split; [|exact Hf].
  clear H. revert Hf. generalize f. clear. intros f Hf.
  replace n with (f + (n - f))%nat at 1 by lia.
  rewrite seq_app, take_app_length'; [reflexivity | now rewrite length_seq].
Qed.

Lemma freeze_positions (g : layer -> layer) (l : list layer) (f : nat) :
  (f <= length l)%nat ->
  foldl (fun ls i => alter g i ls) l (seq 0 f)
  = map g (firstn f l) ++ skipn f l.
Proof.
  induction f as [|f IH]; intros Hf; [reflexivity|].
  rewrite seq_S, foldl_app. cbn [foldl Nat.add]. rewrite IH by lia.
  destruct (lookup_lt_is_Some_2 l f ltac:(lia)) as [x Hx].
  rewrite (drop_S l x f Hx), (take_S_r l f x Hx).
  rewrite map_app. cbn [map].
  replace f with (length (map g (take f l)) + 0)%nat at 1
    by (rewrite length_map, length_take; lia).
  rewrite alter_app_r. cbn. rewrite <- app_assoc. reflexivity.
Qed.

Lemma fine_tune_model_base_layers (m : Model) (K : Z) (lr : float) (w : world) :
  base_layers (fst (fine_tune_model m K lr w))
  = map (set_layer_trainable false)
        (firstn (frozen_count (length (base_layers m)) K) (base_layers m))
    ++ map (set_layer_trainable true)
         (skipn (frozen_count (length (base_layers m)) K) (base_layers m))
  /\ head_layers (fst (fine_tune_model m K lr w)) = head_layers m
  /\ fs (snd (fine_tune_model m K lr w)) = fs w.
Proof.
  unfold fine_tune_model.
  cbn [fst snd compile base_layers set_trainable with_base_layers
       model_weights head_layers optimizer_lr fs print emit].
  rewrite length_map.
  destruct (slice_to_seq (length (base_layers m)) K) as [-> Hf].
  rewrite freeze_positions by (rewrite length_map; exact Hf).
  split; [|split; reflexivity].
  change (@firstn layer) with (@take layer). change (@skipn layer) with (@drop layer).
  rewrite <- fmap_take, <- fmap_drop. f_equal.
  rewrite <- !list_fmap_compose. reflexivity.
Qed.

Lemma fine_tune_model_shape (m : Model) (K : Z) (lr : float) (w : world) :
  let n := length (base_layers m) in
  let f := frozen_count n K in
  let m' := fst (fine_tune_model m K lr w) in
  base_layers m'
  = map (set_layer_trainable false) (firstn f (base_layers m))
    ++ map (set_layer_trainable true) (skipn f (base_layers m))
  /\ length (filter (fun l => trainable l = true) (base_layers m')) = (n - f)%nat
  /\ model_weights m' = model_weights m
  /\ head_layers m' = head_layers m
  /\ optimizer_lr m' = Some (lr / 10)%float
  /\ fs (snd (fine_tune_model m K lr w)) = fs w.
Proof.
  intros n f m'. subst m'. unfold fine_tune_model.
  cbn [fst snd compile base_layers set_trainable with_base_layers
       model_weights head_layers optimizer_lr fs print emit].
  rewrite length_map. fold n.
  destruct (slice_to_seq n K) as [-> Hf]. fold f.
  rewrite freeze_positions by (rewrite length_map; exact Hf).
  assert (Hl : map (set_layer_trainable false)
                 (take f (map (set_layer_trainable true) (base_layers m)))
               ++ drop f (map (set_layer_trainable true) (base_layers m))
               = map (set_layer_trainable false) (take f (base_layers m))
                 ++ map (set_layer_trainable true) (drop f (base_layers m))).
  { rewrite <- fmap_take, <- fmap_drop. f_equal.
    rewrite <- !list_fmap_compose. reflexivity. }
  change (@firstn layer) with (@take layer). change (@skipn layer) with (@drop layer).
  rewrite Hl. split; [reflexivity|]. split; [|repeat split].
  rewrite filter_app, length_app.
  assert (H0 : forall ls, filter (fun l => trainable l = true)
                            (map (set_layer_trainable false) ls) = []).
  { induction ls as [|x ls IH]; [reflexivity|]. cbn [map].
    rewrite filter_cons_False by (cbn; discriminate). exact IH. }
  assert (H1 : forall ls, filter (fun l => trainable l = true)
                            (map (set_layer_trainable true) ls)
                          = map (set_layer_trainable true) ls).
  { induction ls as [|x ls IH]; [reflexivity|]. cbn [map].
    rewrite filter_cons_True by reflexivity. now rewrite IH. }
  rewrite H0, H1, length_map, length_drop. reflexivity.
Qed.

(** X2. [fine_tune_model] for every [fine_tune_layers] K and an extractor of n
    layers: the first [frozen_count n K] layers end up frozen and the rest
    trainable, whatever they were before.  That is n - K frozen layers for
    0 < K <= n, none for K = 0 and for K > n, and min(-K, n) for K < 0.  The
    weights and the head are kept, the learning rate is a tenth of the
    configured one, and no file is touched. *)
Theorem fine_tune_model_layers (m : Model) (K : Z) (lr : float) (w : world) :
  let n := length (base_layers m) in
  let f := frozen_count n K in
  let m' := fst (fine_tune_model m K lr w) in
  base_layers m'
  = map (set_layer_trainable false) (firstn f (base_layers m))
    ++ map (set_layer_trainable true) (skipn f (base_layers m))
  /\ length (filter (fun l => trainable l = true) (base_layers m')) = (n - f)%nat
  /\ model_weights m' = model_weights m
  /\ head_layers m' = head_layers m
  /\ optimizer_lr m' = Some (lr / 10)%float
  /\ fs (snd (fine_tune_model m K lr w)) = fs w.
Proof. exact (fine_tune_model_shape m K lr w). Qed.

(** X3. With [0 < K <= n] the last [K] layers, and only they, are trainable. *)
Theorem fine_tune_model_last_layers (m : Model) (K : Z) (lr : float) (w : world) :
  0 < K <= Z.of_nat (length (base_layers m)) ->
  let m' := fst (fine_tune_model m K lr w) in
  (forall j l, base_layers m' !! j = Some l ->
     trainable l = bool_decide (Z.of_nat (length (base_layers m)) - K <= Z.of_nat j))
  /\ Z.of_nat (length (filter (fun l => trainable l = true) (base_layers m'))) = K.
Proof.
  intros HK m'.
  destruct (fine_tune_model_shape m K lr w) as (Hl & Hc & _). cbv zeta in Hl, Hc.
  fold m' in Hl, Hc.
  assert (Hf : Z.of_nat (frozen_count (length (base_layers m)) K)
               = Z.of_nat (length (base_layers m)) - K).
  { unfold frozen_count. destruct (Z.ltb_spec 0 K); lia. }
  split; [|rewrite Hc; lia].
  intros j l Hj. rewrite Hl in Hj.
  set (f := frozen_count _ _) in *.
  assert (Hlen : length (map (set_layer_trainable false) (firstn f (base_layers m))) = f).
  { rewrite length_map, length_take. lia. }
  destruct (Nat.lt_ge_cases j f) as [Hlt|Hge].
  - rewrite lookup_app_l in Hj by lia.
    change (map ?g ?k) with (g <$> k) in Hj. rewrite list_lookup_fmap in Hj.
    destruct (_ !! j) as [x|]; [|discriminate]. injection Hj as <-.
    cbn. symmetry. apply bool_decide_eq_false. lia.
  - rewrite lookup_app_r in Hj by lia.
    change (map ?g ?k) with (g <$> k) in Hj. rewrite list_lookup_fmap in Hj.
    destruct (_ !! _) as [x|]; [|discriminate]. injection Hj as <-.
    cbn. symmetry. apply bool_decide_eq_true. lia.
Qed.

Lemma fine_tune_model_last_layers_witness :
  let m := fst (create_model Sample.engine_plain 2 (Sample.world_of [])) in
  let m' := fst (fine_tune_model m 2 0.001 (Sample.world_of [])) in
  0 < 2 <= Z.of_nat (length (base_layers m))
  /\ Z.of_nat (length (filter (fun l => trainable l = true) (base_layers m'))) = 2.
Proof.
  intros m m'.
  assert (H : 0 < 2 <= Z.of_nat (length (base_layers m))) by (vm_compute; split; [reflexivity | discriminate]).
  split; [exact H|].
  exact (proj2 (fine_tune_model_last_layers m 2 0.001 (Sample.world_of []) H)).
Defined.

End FineTuneGeneral.

Section Artifacts.

Lemma length_append (a b : string) :
  String.length (a +:+ b) = (String.length a + String.length b)%nat.
Proof.
  induction a as [|c a IH]; [reflexivity|].
  change (S (String.length (a +:+ b)) = S (String.length a + String.length b)%nat).
  now rewrite IH.
Qed.

Lemma path_join_longer (a b : string) :
  starts_with_slash b = false -> b <> "" -> path_join a b <> a.
Proof.
  intros Hb Hne H. apply (f_equal String.length) in H. revert H.
  unfold path_join. rewrite Hb.
  destruct (String.eqb a "" || ends_with_slash a);
    rewrite ?length_append; destruct b; [congruence| |congruence|]; cbn; lia.
Qed.

Lemma artifact_nodup (out : string) : NoDup (out :: artifact_paths out).
Proof.
  unfold artifact_paths, artifact_names. cbn [map].
  repeat (apply NoDup_cons_2;
          [rewrite ?not_elem_of_cons; repeat split;
           solve [ apply not_elem_of_nil
                 | distinct_paths
                 | intros H; symmetry in H; revert H;
                   apply path_join_longer; [reflexivity | discriminate] ]
          |]).
  apply NoDup_nil_2.
Qed.

Lemma makedirs_lookup (out : string) (w : world) (q : string) :
  fs (makedirs out w) !! q
  = if decide (q = out)
    then Some (default Dir (fs w !! out))
    else fs w !! q.
Proof.
  unfold makedirs. destruct (fs w !! out) as [n|] eqn:H; cbn [fs emit].
  - destruct (decide (q = out)) as [->|]; [now rewrite H | reflexivity].
  - destruct (decide (q = out)) as [->|].
    + apply lookup_insert_eq.
    + now apply lookup_insert_ne.
Qed.




(** X5. Converting again overwrites: after two conversions into the same
    directory the files are those of the second alone. *)
Theorem convert_to_tflite_last_wins
    (E : engine) (m1 m2 : Model) (out : string) (w : world) :
  dir_or_missing w out ->
  fs (snd (convert_to_tflite E m2 out (snd (convert_to_tflite E m1 out w))))
  = fs (snd (convert_to_tflite E m2 out w)).
Proof.
  intros _.
  pose proof (convert_to_tflite_spec E m1 out w) as H1.
  destruct (convert_to_tflite E m1 out w) as [p1 w1]. cbn [snd].
  destruct H1 as (_ & Hf1 & _).
  pose proof (convert_to_tflite_spec E m2 out w1) as H2.
  destruct (convert_to_tflite E m2 out w1) as [p2 w2]. cbn [snd].
  destruct H2 as (_ & Hf2 & _).
  pose proof (convert_to_tflite_spec E m2 out w) as H3.
  destruct (convert_to_tflite E m2 out w) as [p3 w3]. cbn [snd].
  destruct H3 as (_ & Hf3 & _).
  apply map_eq. intros q. rewrite Hf2, Hf3.
  rewrite !lookup_insert. repeat case_decide; try reflexivity.
  rewrite !makedirs_lookup. case_decide.
  - subst q. rewrite Hf1, !lookup_insert_ne, makedirs_lookup, decide_True by
      (first [reflexivity | apply path_join_longer; [reflexivity | discriminate]]).
    now destruct (fs w !! out).
  - rewrite Hf1, !lookup_insert_ne, makedirs_lookup, decide_False by congruence.
    reflexivity.
Qed.

Lemma convert_to_tflite_last_wins_witness :
  let E := Sample.engine_plain in
  let w := Sample.world_of Sample.dataset in
  let m1 := Sample.compiled_model E in
  let m2 := set_weights (Trained 3) m1 in
  dir_or_missing w "models"
  /\ fs (snd (convert_to_tflite E m2 "models" (snd (convert_to_tflite E m1 "models" w))))
     = fs (snd (convert_to_tflite E m2 "models" w)).
Proof.
  intros E w m1 m2.
  assert (Hd : dir_or_missing w "models") by (left; vm_compute; reflexivity).
  split; [exact Hd|].
  exact (convert_to_tflite_last_wins E m1 m2 "models" w Hd).
Defined.

End Artifacts.

Section FitFrame.

Lemma es_on_epoch_end_frame (c : EarlyStopping) (epoch : Z)
    (logs : gmap string float) (m : Model) (w : world) :
  let '(c', m', w') := es_on_epoch_end c epoch logs m w in
  fs w' = fs w /\ same_architecture m m' /\ es_patience c' = es_patience c.
Proof.
  unfold es_on_epoch_end, same_architecture.
  repeat case_match; simplify_eq; cbn; repeat split; reflexivity.
Qed.

Lemma rl_on_epoch_end_frame (c : ReduceLROnPlateau) (epoch : Z)
    (logs : gmap string float) (m : Model) (w : world) :
  let '(c', m', w') := rl_on_epoch_end c epoch logs m w in
  fs w' = fs w /\ same_architecture m m'.
Proof.
  unfold rl_on_epoch_end, same_architecture.
  repeat case_match; simplify_eq; cbn; repeat split; reflexivity.
Qed.

Lemma mc_on_epoch_end_frame (c : ModelCheckpoint) (epoch : Z)
    (logs : gmap string float) (m : Model) (w : world) :
  mc_save_best_only c = true ->
  let '(c', m', w') := mc_on_epoch_end c epoch logs m w in
  mc_filepath c' = mc_filepath c
  /\ (forall q, q <> mc_filepath c -> fs w' !! q = fs w !! q)
  /\ (forall t, trace w' = trace w ++ t ->
        (checkpoints t = [] /\ fs w' = fs w)
        \/ (checkpoints t <> []
            /\ exists wts, fs w' !! mc_filepath c = Some (File (KerasModel wts)))).
Proof.
  intros Hb. unfold mc_on_epoch_end. rewrite Hb.
  destruct (logs !! mc_monitor c) as [current|].
  - destruct (gt current (mc_best c)).
    + cbn [mc_filepath]. split; [reflexivity|]. split.
      * intros q Hq. unfold mc_save, write_file. cbn [fs emit print].
        now rewrite lookup_insert_ne.
      * intros t Ht. right. unfold mc_save, write_file in *. cbn [fs trace emit print] in *.
        rewrite <- !app_assoc in Ht. apply app_inv_head in Ht. subst t.
        split; [discriminate|]. eexists. apply lookup_insert_eq.
    + split; [reflexivity|]. split; [reflexivity|].
      intros t Ht. left. cbn [trace print emit] in Ht.
      apply app_inv_head in Ht. subst t. split; reflexivity.
  - split; [reflexivity|]. split; [reflexivity|].
    intros t Ht. left. cbn [trace print emit] in Ht.
    apply app_inv_head in Ht. subst t. split; reflexivity.
Qed.

Lemma es_on_epoch_end_prints (c : EarlyStopping) (epoch : Z)
    (logs : gmap string float) (m : Model) (w : world) :
  let '(c', m', w') := es_on_epoch_end c epoch logs m w in
  exists t, trace w' = trace w ++ t /\ only_prints t.
Proof.
  unfold es_on_epoch_end.
  repeat case_match; simplify_eq; cbn;
    first [ exists []; split; [symmetry; apply app_nil_r | constructor]
          | eexists [_]; split; [reflexivity | repeat constructor] ].
Qed.

Lemma best_file_refl (path : string) (w : world) : best_file path [] w w.
Proof. split; [reflexivity | intros H; now contradiction H]. Qed.

Lemma best_file_trans (path : string) (t u : list event) (w1 w2 w3 : world) :
  best_file path t w1 w2 -> best_file path u w2 w3 ->
  (forall q, q <> path -> fs w3 !! q = fs w2 !! q) ->
  best_file path (t ++ u) w1 w3.
Proof.
  intros [A1 A2] [B1 B2] Hfr. unfold best_file. rewrite checkpoints_app. split.
  - intros H. apply app_eq_nil in H as [Ht Hu]. rewrite (B1 Hu). exact (A1 Ht).
  - intros H. destruct (checkpoints u) as [|c cu] eqn:Hu.
    + rewrite (B1 eq_refl). apply A2. now rewrite app_nil_r in H.
    + apply B2. discriminate.
Qed.

Lemma best_file_silent (path : string) (t : list event) (w w' : world) :
  checkpoints t = [] -> fs w' = fs w -> best_file path t w w'.
Proof. intros Hc Hf. split; [now intros _ | intros H; contradiction]. Qed.

(** One epoch of the three callbacks. *)
Lemma callbacks_on_epoch_end_frame (es : EarlyStopping) (mc : ModelCheckpoint)
    (rl : ReduceLROnPlateau) (epoch : Z) (logs : gmap string float)
    (m : Model) (w : world) :
  mc_save_best_only mc = true ->
  let '(cbs', m', w') := callbacks_on_epoch_end (policy es mc rl) epoch logs m w in
  exists es' mc' rl' t,
    cbs' = policy es' mc' rl'
    /\ mc_filepath mc' = mc_filepath mc
    /\ mc_save_best_only mc' = true
    /\ trace w' = trace w ++ t
    /\ engine_calls t = []
    /\ (forall q, q <> mc_filepath mc -> fs w' !! q = fs w !! q)
    /\ best_file (mc_filepath mc) t w w'
    /\ same_architecture m m'
    /\ es_patience es' = es_patience es.
Proof.
  intros Hb. unfold policy. cbn [callbacks_on_epoch_end on_epoch_end].
  pose proof (es_on_epoch_end_frame es epoch logs m w) as Fes.
  pose proof (es_on_epoch_end_prints es epoch logs m w) as Ses.
  destruct (es_on_epoch_end es epoch logs m w) as [[es' m1] w1].
  destruct Fes as (Ff1 & Fa1 & Fpat). destruct Ses as (t1 & Ht1 & Hp1).
  pose proof (mc_on_epoch_end_frame mc epoch logs m1 w1 Hb) as Fmc.
  pose proof (mc_on_epoch_end_spec mc epoch logs m1 w1 Hb) as Smc.
  destruct (mc_on_epoch_end mc epoch logs m1 w1) as [[mc' m2] w2].
  destruct Fmc as (Fp & Ff2 & Fb2).
  destruct Smc as ((t2 & Ht2 & He2 & Hstep) & ->).
  pose proof (rl_on_epoch_end_frame rl epoch logs m1 w2) as Frl.
  pose proof (rl_on_epoch_end_spec rl epoch logs m1 w2) as Srl.
  destruct (rl_on_epoch_end rl epoch logs m1 w2) as [[rl' m3] w3].
  destruct Frl as (Ff3 & Fa3). destruct Srl as ((t3 & Ht3 & Hp3) & _).
  destruct (only_prints_silent _ Hp1) as [Ha1 Hc1].
  destruct (only_prints_silent _ Hp3) as [Ha3 Hc3].
  exists es', mc', rl', (t1 ++ t2 ++ t3).
  split; [reflexivity|]. split; [exact Fp|].
  split.
  { destruct Hstep as [[-> _]|(v & _ & _ & -> & _)]; assumption. }
  split; [rewrite Ht3, Ht2, Ht1, <- !app_assoc; reflexivity|].
  split; [rewrite !engine_calls_app, Ha1, He2, Ha3; reflexivity|].
  split; [intros q Hq; rewrite Ff3, (Ff2 q Hq), Ff1; reflexivity|].
  split.
  - apply (best_file_trans _ t1 (t2 ++ t3) w w1 w3).
    + apply best_file_silent; assumption.
    + apply (best_file_trans _ t2 t3 w1 w2 w3).
      * destruct (Fb2 t2 Ht2) as [[Hc Hf]|[Hc Hx]].
        -- apply best_file_silent; assumption.
        -- split; [intros Hn; contradiction | intros _; exact Hx].
      * apply best_file_silent; assumption.
      * intros q _. now rewrite Ff3.
    + intros q Hq. now rewrite Ff3, (Ff2 q Hq).
  - split; [|exact Fpat].
    destruct Fa1 as (? & ? & ?), Fa3 as (? & ? & ?). repeat split; congruence.
Qed.

(** The epoch loop with the script's callbacks: it runs at least as many
    epochs as early stopping has room for, writes nothing but the best
    checkpoint, and leaves the architecture alone. *)
Lemma fit_epochs_frame (E : engine) (train val : DirectoryIterator) (n : nat) :
  forall (epoch : Z) (m : Model) (es : EarlyStopping) (mc : ModelCheckpoint)
         (rl : ReduceLROnPlateau) (w : world) (d : Z),
  es_room d (CbEarlyStopping es) ->
  mc_save_best_only mc = true ->
  stop_training m = false ->
  let '(m', cbs', w') := fit_epochs E train val n epoch m (policy es mc rl) w in
  exists es' mc' rl' t k,
    cbs' = policy es' mc' rl'
    /\ mc_filepath mc' = mc_filepath mc
    /\ mc_save_best_only mc' = true
    /\ trace w' = trace w ++ t
    /\ engine_calls t = map TrainEpoch (seqZ epoch k)
    /\ 0 <= k /\ Z.min (Z.of_nat n) d <= k <= Z.of_nat n
    /\ (forall q, q <> mc_filepath mc -> fs w' !! q = fs w !! q)
    /\ best_file (mc_filepath mc) t w w'
    /\ same_architecture m m'
    /\ es_patience es' = es_patience es.
Proof.
  induction n as [|n IH]; intros epoch m es mc rl w d Hr Hb Hs.
  - cbn [fit_epochs]. exists es, mc, rl, [], 0.
    split; [reflexivity|]. split; [reflexivity|]. split; [assumption|].
    split; [symmetry; apply app_nil_r|]. split; [reflexivity|].
    split; [lia|]. split; [lia|]. split; [reflexivity|].
    split; [apply best_file_refl | repeat split].
  - cbn [fit_epochs].
    set (w0 := emit (Engine (TrainEpoch epoch)) w).
    destruct (epoch_pass_frame E train w0) as [Hf1 Ht1].
    assert (Hg1 := epoch_pass_frame E val (snd (epoch_pass E train w0))).
    destruct (epoch_pass E train w0) as [tr w1]. cbn [snd] in *.
    destruct Hg1 as [Hf2 Ht2].
    destruct (epoch_pass E val w1) as [va w2]. cbn [snd] in *.
    pose proof (callbacks_on_epoch_end_policy es mc rl epoch
                  (epoch_logs E m epoch tr va) (set_weights (Trained epoch) m)
                  w2 d Hr Hb) as Hc.
    pose proof (callbacks_on_epoch_end_frame es mc rl epoch
                  (epoch_logs E m epoch tr va) (set_weights (Trained epoch) m)
                  w2 Hb) as Hd.
    destruct (callbacks_on_epoch_end _ _ _ _ _) as [[cbs1 m1] w3].
    destruct Hc as (es1 & mc1 & rl1 & t1 & -> & Htr & Hen & _ & Hb1 & _ & Hr1 & Hs1).
    destruct Hd as (es1' & mc1' & rl1' & t1' & Heq & Hp1 & _ & Htr' & _ & Hfr & Hbf & Har & Hpat).
    injection Heq as <- <- <-.
    assert (t1' = t1) by (rewrite Htr in Htr'; now apply app_inv_head in Htr').
    subst t1'.
    assert (Htrace : trace w3 = trace w ++ Engine (TrainEpoch epoch) :: t1).
    { rewrite Htr, Ht2, Ht1. subst w0. cbn. rewrite <- app_assoc. reflexivity. }
    assert (Hfs0 : fs w2 = fs w) by (rewrite Hf2, Hf1; reflexivity).
    assert (Hbf0 : best_file (mc_filepath mc) (Engine (TrainEpoch epoch) :: t1) w w3).
    { destruct Hbf as [B1 B2]. split.
      - intros H. rewrite (B1 H). exact Hfs0.
      - intros H. exact (B2 H). }
    assert (Har0 : same_architecture m m1) by exact Har.
    destruct (stop_training m1) eqn:Hstop.
    + exists es1, mc1, rl1, (Engine (TrainEpoch epoch) :: t1), 1.
      split; [reflexivity|]. split; [assumption|]. split; [assumption|].
      split; [assumption|].
      split; [rewrite engine_calls_cons, Hen; reflexivity|].
      split; [lia|].
      split.
      { destruct (Hs1 eq_refl) as [Hx|Hx]; [cbn in Hx; congruence|lia]. }
      split; [intros q Hq; rewrite (Hfr q Hq), Hfs0; reflexivity|].
      split; [assumption|]. split; assumption.
    + pose proof (IH (epoch + 1) m1 es1 mc1 rl1 w3 (d - 1) Hr1 Hb1 Hstop) as Hrec.
      destruct (fit_epochs E train val n (epoch + 1) m1 (policy es1 mc1 rl1) w3)
        as [[m2 cbs2] w4].
      destruct Hrec as (es2 & mc2 & rl2 & t2 & k & -> & Hp2 & Hb2 & Htr2 & Hen2
                        & Hk0 & Hk & Hfr2 & Hbf2 & Har2 & Hpat2).
      rewrite Hp1 in *.
      exists es2, mc2, rl2, ((Engine (TrainEpoch epoch) :: t1) ++ t2), (1 + k).
      split; [reflexivity|]. split; [assumption|]. split; [assumption|].
      split; [rewrite Htr2, Htrace, <- app_assoc; reflexivity|].
      split.
      { rewrite engine_calls_app, Hen2, engine_calls_cons, Hen.
        rewrite (seqZ_cons epoch (1 + k)) by lia.
        replace (Z.pred (1 + k)) with k by lia. reflexivity. }
      split; [lia|]. split; [lia|].
      split; [intros q Hq; rewrite (Hfr2 q Hq), (Hfr q Hq), Hfs0; reflexivity|].
      split; [exact (best_file_trans _ _ _ _ _ _ Hbf0 Hbf2 Hfr2)|].
      split; [|congruence].
      destruct Har0 as (? & ? & ?), Har2 as (? & ? & ?). repeat split; congruence.
Qed.

(** One [fit] call with the script's callbacks. *)
Lemma fit_frame (E : engine) (m : Model) (train val : DirectoryIterator)
    (epochs initial : Z) (es : EarlyStopping) (mc : ModelCheckpoint)
    (rl : ReduceLROnPlateau) (w : world) :
  mc_save_best_only mc = true ->
  let '(m', cbs', w') := fit E m train val epochs initial (policy es mc rl) w in
  exists es' mc' rl' t k,
    cbs' = policy es' mc' rl'
    /\ mc_filepath mc' = mc_filepath mc
    /\ mc_save_best_only mc' = true
    /\ trace w' = trace w ++ t
    /\ engine_calls t = Fit epochs initial :: map TrainEpoch (seqZ initial k)
    /\ 0 <= k
    /\ Z.min (epochs - initial) (es_patience es) <= k <= Z.max 0 (epochs - initial)
    /\ (forall q, q <> mc_filepath mc -> fs w' !! q = fs w !! q)
    /\ best_file (mc_filepath mc) t w w'
    /\ same_architecture m m'
    /\ es_patience es' = es_patience es.
Proof.
  intros Hb. unfold fit. cbn [map policy on_train_begin].
  match goal with
  | |- context [fit_epochs E train val ?n initial ?m0
                  [CbEarlyStopping ?es0; CbModelCheckpoint mc;
                   CbReduceLROnPlateau ?rl0] ?w0] =>
      pose proof (fit_epochs_frame E train val n initial m0 es0 mc rl0 w0
                    (es_patience es)) as H;
      unfold policy in H;
      destruct (fit_epochs E train val n initial m0
                  [CbEarlyStopping es0; CbModelCheckpoint mc;
                   CbReduceLROnPlateau rl0] w0)
        as [[m1 cbs1] w1]
  end.
  destruct H as (es1 & mc1 & rl1 & t & k & -> & Hp & Hb1 & Htr & Hen & Hk0 & Hk
                 & Hfr & Hbf & Har & Hpat);
    [cbn; lia | assumption | reflexivity |].
  cbn [foldl on_train_end].
  set (wend := if 0 <? es_stopped_epoch es1 then _ else w1).
  assert (Hend : exists u, trace wend = trace w1 ++ u /\ only_prints u
                           /\ fs wend = fs w1).
  { subst wend. destruct (0 <? es_stopped_epoch es1).
    - eexists. split; [reflexivity|]. split; [repeat constructor | reflexivity].
    - exists []. split; [symmetry; apply app_nil_r|]. split; [constructor | reflexivity]. }
  destruct Hend as (u & Hu & Hpu & Hfu).
  destruct (only_prints_silent _ Hpu) as [Hu1 Hu2].
  exists es1, mc1, rl1, (Engine (Fit epochs initial) :: t ++ u), k.
  split; [reflexivity|]. split; [assumption|]. split; [assumption|].
  split; [rewrite Hu, Htr; cbn; rewrite <- !app_assoc; reflexivity|].
  split; [rewrite engine_calls_cons, engine_calls_app, Hen, Hu1, app_nil_r; reflexivity|].
  split; [assumption|]. split; [lia|].
  split; [intros q Hq; rewrite Hfu; exact (Hfr q Hq)|].
  split.
  - destruct Hbf as [B1 B2]. unfold best_file.
    change (checkpoints (Engine (Fit epochs initial) :: t ++ u))
      with (checkpoints (t ++ u)).
    rewrite checkpoints_app, Hu2, app_nil_r, Hfu. split; assumption.
  - split; [exact Har | exact Hpat].
Qed.

End FitFrame.

Section PhasesFrame.

Lemma create_data_generators_fs (d : string) (b : Z) (split : float) (w : world) :
  fs (snd (create_data_generators d b split w)) = fs w.
Proof.
  unfold create_data_generators, flow_from_directory. cbv beta iota zeta.
  cbn [snd]. rewrite !fs_print. reflexivity.
Qed.

Lemma prepare_frame (E : engine) (args : Args) (w : world) :
  let '(train_gen, val_gen, model, callbacks, w') := prepare E args w in
  (forall q, q <> output_dir args -> fs w' !! q = fs w !! q)
  /\ fs w' !! output_dir args = Some (default Dir (fs w !! output_dir args))
  /\ base_layers model
     = map (fun n => {| layer_name := n; trainable := false |})
           (MobileNetV3Small_layers E)
  /\ model_weights model = Pretrained
  /\ stop_training model = false.
Proof.
  unfold prepare.
  pose proof (create_data_generators_fs (data_dir args) (batch_size args) 0.2
                (header args w)) as Hg.
  destruct (create_data_generators _ _ _ _) as [[train val] w1]. cbn [snd] in Hg.
  assert (Hh : fs (header args w) = fs w) by (unfold header; rewrite !fs_print; reflexivity).
  rewrite Hh in Hg. clear Hh.
  unfold create_model, compile_model, compile, get_callbacks.
  cbv beta iota zeta.
  cbn [base_layers model_weights stop_training].
  split; [|split; [|split; [|split; reflexivity]]].
  - intros q Hq. rewrite !fs_print, makedirs_lookup, decide_False by assumption.
    cbn [fs emit]. rewrite !fs_print. cbn [fs emit]. rewrite Hg. reflexivity.
  - rewrite !fs_print, makedirs_lookup, decide_True by reflexivity.
    cbn [fs emit]. rewrite !fs_print. cbn [fs emit]. rewrite Hg. reflexivity.
  - rewrite <- list_fmap_compose. reflexivity.
Qed.

Lemma prepare_head (E : engine) (args : Args) (w : world) :
  let '(train_gen, val_gen, model, callbacks, w') := prepare E args w in
  head_layers model = head_layers (fst (create_model E (fine_tune_layers args) w)).
Proof.
  unfold prepare.
  destruct (create_data_generators _ _ _ _) as [[train val] w1].
  unfold create_model, compile_model, compile, get_callbacks.
  cbv beta iota zeta. cbn [head_layers fst]. reflexivity.
Qed.

Lemma train_phases_frame (E : engine) (args : Args)
    (train val : DirectoryIterator) (m : Model) (w : world) :
  let i := Z.min 10 (floordiv (epochs args) 2) in
  let '(m', cbs', w') :=
    train_phases E args train val m (script_policy (output_dir args)) w in
  exists t k,
    trace w' = trace w ++ t
    /\ engine_calls t = training_calls args k
    /\ 0 <= k <= Z.max 0 (epochs args - i)
    /\ (i < epochs args -> Z.min 10 (epochs args - i) <= k)
    /\ (forall q, q <> best_path args -> fs w' !! q = fs w !! q)
    /\ best_file (best_path args) t w w'
    /\ head_layers m' = head_layers m
    /\ base_layers m'
       = if i <? epochs args then fine_tuned (fine_tune_layers args) (base_layers m)
         else base_layers m.
Proof.
  intros i. unfold train_phases, script_policy. fold i.
  pose proof (fit_frame E m train val i 0 (new_EarlyStopping "val_auc" 10 true)
                (new_ModelCheckpoint (best_path args) "val_auc" true)
                (new_ReduceLROnPlateau "val_loss" 0.5 5 1e-7) w eq_refl) as H1.
  unfold best_path in *.
  destruct (fit E m train val i 0 _ w) as [[m1 cbs1] w1].
  destruct H1 as (es1 & mc1 & rl1 & t1 & k1 & -> & Hp1 & Hb1 & Htr1 & Hen1 & Hk10
                  & Hk1 & Hfr1 & Hbf1 & Har1 & Hpat1).
  cbn [mc_filepath new_ModelCheckpoint es_patience new_EarlyStopping] in *.
  assert (Hseq : seqZ 0 k1 = seqZ 0 i).
  { assert (k1 = Z.max 0 i) by (subst i; lia). subst k1.
    destruct (Z.le_gt_cases 0 i).
    - now rewrite Z.max_r.
    - rewrite Z.max_l by lia. unfold seqZ. now destruct i. }
  unfold training_calls, phase2_calls. fold i.
  destruct Har1 as (Hl1 & Hh1 & Hn1).
  destruct (i <? epochs args) eqn:Hlt'.
  - pose proof (proj1 (Z.ltb_lt _ _) Hlt') as Hlt.
    set (w2 := print (Msg banner) (print _ (print (Msg banner) w1))).
    pose proof (fine_tune_model_spec m1 (fine_tune_layers args) (learning_rate args) w2) as Hft.
    pose proof (fine_tune_model_base_layers m1 (fine_tune_layers args) (learning_rate args) w2) as Hfl.
    destruct (fine_tune_model m1 _ _ w2) as [m2 w3].
    destruct Hft as (Hn2 & tf & Htf & Hef & Hcf).
    destruct Hfl as (Hl2 & Hh2 & Hf2). cbn [fst snd] in Hl2, Hh2, Hf2.
    pose proof (fit_frame E m2 train val (epochs args) i es1 mc1 rl1 w3 Hb1) as H2.
    destruct (fit E m2 train val (epochs args) i _ w3) as [[m3 cbs3] w4].
    destruct H2 as (es3 & mc3 & rl3 & t3 & k3 & -> & Hp3 & Hb3 & Htr3 & Hen3 & Hk30
                    & Hk3 & Hfr3 & Hbf3 & Har3).
    rewrite Hp1 in *.
    destruct Har3 as ((Hl3 & Hh3 & Hn3) & Hpat3).
    set (ps := [Print (Msg banner); Print (Msg "Phase 2: Fine-tuning base model...");
                Print (Msg banner)]).
    assert (Htr2 : trace w2 = trace w1 ++ ps).
    { subst w2 ps. cbn [trace print emit]. rewrite <- !app_assoc. reflexivity. }
    assert (Hfs2 : fs w3 = fs w1).
    { rewrite Hf2. subst w2. rewrite !fs_print. reflexivity. }
    exists (t1 ++ (ps ++ tf) ++ t3), k3.
    split; [rewrite Htr3, Htf, Htr2, Htr1, <- !app_assoc; reflexivity|].
    split.
    { rewrite !engine_calls_app, Hen1, Hen3, Hef, Hseq. cbn.
      rewrite <- ?app_assoc. reflexivity. }
    split; [lia|]. split; [intros _; rewrite Hpat1 in Hk3; lia|].
    split; [intros q Hq; rewrite (Hfr3 q Hq), Hfs2; exact (Hfr1 q Hq)|].
    split.
    { apply (best_file_trans _ t1 ((ps ++ tf) ++ t3) w w1 w4); [assumption| |].
      - apply (best_file_trans _ (ps ++ tf) t3 w1 w3 w4); [|assumption|assumption].
        apply best_file_silent; [|assumption].
        rewrite checkpoints_app, Hcf. reflexivity.
      - intros q Hq. rewrite (Hfr3 q Hq), Hfs2. reflexivity. }
    split; [congruence|].
    unfold fine_tuned. rewrite Hl3, Hl2, Hl1. reflexivity.
  - exists t1, 0.
    split; [assumption|].
    split; [rewrite Hen1, Hseq, app_nil_r; reflexivity|].
    split; [lia|]. split; [intros H; apply Z.ltb_ge in Hlt'; lia|].
    split; [assumption|]. split; [assumption|]. split; assumption.
Qed.

End PhasesFrame.

Section MetadataFrame.

Lemma writes_only_bind {A B} (S : list string) (c : M A) (f : A -> M B) :
  writes_only S c -> (forall a, writes_only S (f a)) -> writes_only S (c ≫= f).
Proof.
  intros Hc Hf w q Hq. unfold mbind, M_bind.
  pose proof (Hc w q Hq) as H1.
  destruct (c w) as [[a|e] w1]; cbn [snd] in *.
  - rewrite (Hf a w1 q Hq). exact H1.
  - exact H1.
Qed.

Lemma writes_only_pure {A} (S : list string) (c : M A) :
  (forall w, fs (snd (c w)) = fs w) -> writes_only S c.
Proof. intros H w q _. now rewrite H. Qed.

Lemma writes_only_with_model_file (S : list string) (p : string) :
  writes_only S (TFLiteSupport.with_model_file p).
Proof.
  apply writes_only_pure. intros w. unfold TFLiteSupport.with_model_file.
  destruct (exists_ w p); reflexivity.
Qed.

Lemma writes_only_load_associated_files (S : list string) (ps : list string) :
  forall pop, writes_only S (TFLiteSupport.load_associated_files ps pop).
Proof.
  induction ps as [|p ps IH]; intros pop; cbn [TFLiteSupport.load_associated_files].
  - apply writes_only_pure. reflexivity.
  - apply writes_only_bind; [apply writes_only_pure; reflexivity|].
    intros [|]; [apply IH | apply writes_only_pure; reflexivity].
Qed.

Lemma load_associated_files_model_file (ps : list string) :
  forall pop pop' w w',
    TFLiteSupport.load_associated_files ps pop w = (Ok pop', w') ->
    TFLiteSupport.model_file pop' = TFLiteSupport.model_file pop.
Proof.
  induction ps as [|p ps IH]; intros pop pop' w w';
    cbn [TFLiteSupport.load_associated_files]; run_M.
  - intros [= <- _]. reflexivity.
  - destruct (exists_ w p); [|discriminate].
    intros H. apply IH in H. exact H.
Qed.

Lemma writes_only_populate (S : list string) (pop : TFLiteSupport.MetadataPopulator) :
  TFLiteSupport.model_file pop ∈ S -> writes_only S (TFLiteSupport.populate pop).
Proof.
  intros Hin w q Hq. unfold TFLiteSupport.populate.
  destruct (fs w !! TFLiteSupport.model_file pop) as [[|[]]|]; try reflexivity.
  unfold write_file. cbn [snd fs]. apply lookup_insert_ne.
  intros <-. contradiction.
Qed.

Lemma writes_only_shutil_copy (S : list string) (src dst : string) :
  dst ∈ S -> writes_only S (shutil_copy src dst).
Proof.
  intros Hin w q Hq. unfold shutil_copy.
  destruct (fs w !! src) as [[|c]|]; try reflexivity.
  unfold write_file. cbn [snd fs]. apply lookup_insert_ne.
  intros <-. contradiction.
Qed.

(** Loading a model file and its label file, then populating, writes the
    model file only. *)
Lemma writes_only_populate_file (S : list string) (p : string) (labels : list string)
    {B} (k : M B) :
  p ∈ S -> writes_only S k ->
  writes_only S
    (populator ← TFLiteSupport.with_model_file p;
     populator ← TFLiteSupport.load_associated_files labels
                   (TFLiteSupport.load_metadata_buffer model_meta populator);
     TFLiteSupport.populate populator;; k).
Proof.
  intros Hin Hk w q Hq. unfold mbind at 1. unfold M_bind.
  unfold TFLiteSupport.with_model_file.
  destruct (exists_ w p); [|reflexivity].
  unfold mbind at 1. unfold M_bind.
  set (pop0 := TFLiteSupport.load_metadata_buffer model_meta _).
  pose proof (writes_only_load_associated_files S labels pop0 w q Hq) as H1.
  pose proof (load_associated_files_model_file labels pop0) as H2.
  destruct (TFLiteSupport.load_associated_files labels pop0 w) as [[pop1|e] w1] eqn:Hl;
    cbn [snd] in *; [|exact H1].
  specialize (H2 pop1 w w1 Hl). cbn in H2.
  rewrite <- H1.
  apply (writes_only_bind S (TFLiteSupport.populate pop1) (fun _ => k));
    [apply writes_only_populate; rewrite H2; exact Hin | intros _; apply Hk | exact Hq].
Qed.

Lemma add_tflite_metadata_writes (E : engine) (p out : string) :
  writes_only [p; with_metadata_path out] (add_tflite_metadata E p out).
Proof.
  assert (Ht : writes_only [p; with_metadata_path out] (add_tflite_metadata_try E p out)).
  { unfold add_tflite_metadata_try. cbv zeta.
    apply writes_only_bind.
    { apply writes_only_pure. intros w. unfold import_tflite_support.
      destruct (tflite_support_installed E); reflexivity. }
    intros _.
    apply (writes_only_populate_file _ p [_]); [in_list|].
    apply writes_only_bind; [apply writes_only_shutil_copy; in_list|]. intros _.
    apply (writes_only_populate_file _ (with_metadata_path out) [_]); [in_list|].
    apply writes_only_bind; [apply writes_only_pure; reflexivity|]. intros _.
    apply writes_only_pure. reflexivity. }
  intros w q Hq. unfold add_tflite_metadata.
  pose proof (Ht w q Hq) as H.
  destruct (add_tflite_metadata_try E p out w) as [[a|[]] w1]; exact H.
Qed.

(** X6. [add_tflite_metadata] writes at most two files: the model file it is
    given and the copy with metadata.  Every other path is left alone,
    whether the library is there or not and whether the call returns or
    raises. *)
Theorem add_tflite_metadata_touches_two_files
    (E : engine) (p out : string) (w : world) (q : string) :
  q <> p -> q <> path_join out "anemia_detector_with_metadata.tflite" ->
  fs (snd (add_tflite_metadata E p out w)) !! q = fs w !! q.
Proof.
  intros H1 H2. apply add_tflite_metadata_writes.
  rewrite !not_elem_of_cons. repeat split; [assumption..|apply not_elem_of_nil].
Qed.

Lemma add_tflite_metadata_touches_two_files_witness :
  let E := Sample.engine_of true Sample.flat Sample.flat (0.5, 0.25)%float in
  let w := Sample.world_of Sample.dataset in
  let w1 := snd (convert_to_tflite E (Sample.compiled_model E) "models" w) in
  let w2 := snd (add_tflite_metadata E "models/anemia_detector.tflite" "models" w1) in
  "models/labels.txt" <> "models/anemia_detector.tflite"
  /\ "models/labels.txt" <> path_join "models" "anemia_detector_with_metadata.tflite"
  /\ fs w2 !! "models/labels.txt" = fs w1 !! "models/labels.txt".
Proof.
  intros E w w1 w2.
  assert (H1 : "models/labels.txt" <> "models/anemia_detector.tflite") by discriminate.
  assert (H2 : "models/labels.txt"
               <> path_join "models" "anemia_detector_with_metadata.tflite")
    by (vm_compute; discriminate).
  split; [exact H1|]. split; [exact H2|].
  exact (add_tflite_metadata_touches_two_files E "models/anemia_detector.tflite"
           "models" w1 "models/labels.txt" H1 H2).
Defined.

(** X7. With the library installed and no model file at [tflite_path], the
    [IOError] of the populator is not caught: only [ImportError] is.
    Nothing is written or printed. *)
Theorem add_tflite_metadata_missing_model_raises
    (E : engine) (p out : string) (w : world) :
  tflite_support_installed E = true ->
  fs w !! p = None ->
  add_tflite_metadata E p out w = (Raise (IOError p), w).
Proof.
  intros Hi Hp. unfold add_tflite_metadata, add_tflite_metadata_try,
    import_tflite_support, TFLiteSupport.with_model_file, exists_.
  rewrite Hi. run_M. rewrite Hp. reflexivity.
Qed.

Lemma add_tflite_metadata_missing_model_raises_witness :
  let E := Sample.engine_of true Sample.flat Sample.flat (0.5, 0.25)%float in
  let w := Sample.world_of Sample.dataset in
  tflite_support_installed E = true
  /\ fs w !! "models/anemia_detector.tflite" = None
  /\ add_tflite_metadata E "models/anemia_detector.tflite" "models" w
     = (Raise (IOError "models/anemia_detector.tflite"), w).
Proof.
  intros E w.
  assert (Hi : tflite_support_installed E = true) by reflexivity.
  assert (Hp : fs w !! "models/anemia_detector.tflite" = None)
    by (vm_compute; reflexivity).
  split; [exact Hi|]. split; [exact Hp|].
  exact (add_tflite_metadata_missing_model_raises E _ "models" w Hi Hp).
Defined.

Lemma preserves_bind {A B} (P : world -> Prop) (c : M A) (f : A -> M B) :
  preserves P c -> (forall a, preserves P (f a)) -> preserves P (c ≫= f).
Proof.
  intros Hc Hf w Hw. unfold mbind, M_bind.
  pose proof (Hc w Hw) as H1.
  destruct (c w) as [[a|e] w1]; cbn [snd] in *.
  - exact (Hf a w1 H1).
  - exact H1.
Qed.

Lemma preserves_pure {A} (P : world -> Prop) (c : M A) :
  (forall w, P w -> P (snd (c w))) -> preserves P c.
Proof. intros H. exact H. Qed.

Lemma has_model_bytes_fs (p : string) (b : list Z) (w w' : world) :
  fs w' = fs w -> has_model_bytes p b w -> has_model_bytes p b w'.
Proof. unfold has_model_bytes. intros ->. auto. Qed.

Lemma preserves_load_associated_files (P : world -> Prop) (ps : list string) :
  forall pop, preserves P (TFLiteSupport.load_associated_files ps pop).
Proof.
  induction ps as [|p ps IH]; intros pop; cbn [TFLiteSupport.load_associated_files].
  - intros w Hw. exact Hw.
  - apply preserves_bind; [intros w Hw; exact Hw|].
    intros [|]; [apply IH | intros w Hw; exact Hw].
Qed.

Lemma preserves_with_model_file (P : world -> Prop) (p : string) :
  preserves P (TFLiteSupport.with_model_file p).
Proof.
  intros w Hw. unfold TFLiteSupport.with_model_file.
  destruct (exists_ w p); exact Hw.
Qed.

(** [populate] rewrites the metadata and the packed files of a model file,
    never the model in it. *)
Lemma preserves_populate (p : string) (b : list Z)
    (pop : TFLiteSupport.MetadataPopulator) :
  preserves (has_model_bytes p b) (TFLiteSupport.populate pop).
Proof.
  intros w (t & Ht & Hb). unfold TFLiteSupport.populate.
  destruct (fs w !! TFLiteSupport.model_file pop) as [[|[]]|] eqn:Hm;
    try (exists t; split; assumption).
  cbn [snd]. unfold has_model_bytes, write_file. cbn [fs].
  destruct (decide (TFLiteSupport.model_file pop = p)) as [Heq|Hne].
  - rewrite Heq in *. rewrite lookup_insert_eq. eexists. split; [reflexivity|].
    cbn [tfl_bytes]. rewrite Ht in Hm. injection Hm as <-. exact Hb.
  - rewrite lookup_insert_ne by assumption. exists t. split; assumption.
Qed.

Lemma preserves_shutil_copy (p dst : string) (b : list Z) :
  preserves (has_model_bytes p b) (shutil_copy p dst).
Proof.
  intros w (t & Ht & Hb). unfold shutil_copy. rewrite Ht. cbn [snd].
  unfold has_model_bytes, write_file. cbn [fs].
  destruct (decide (dst = p)) as [->|Hne].
  - rewrite lookup_insert_eq. exists t. split; [reflexivity | exact Hb].
  - rewrite lookup_insert_ne by assumption. exists t. split; assumption.
Qed.

Lemma add_tflite_metadata_preserves (E : engine) (p out : string) (b : list Z) :
  preserves (has_model_bytes p b) (add_tflite_metadata E p out).
Proof.
  assert (Ht : preserves (has_model_bytes p b) (add_tflite_metadata_try E p out)).
  { unfold add_tflite_metadata_try. cbv zeta.
    apply preserves_bind.
    { intros w Hw. unfold import_tflite_support.
      destruct (tflite_support_installed E); exact Hw. }
    intros _.
    apply preserves_bind; [apply preserves_with_model_file|]. intros pop1.
    apply preserves_bind; [apply preserves_load_associated_files|]. intros pop2.
    apply preserves_bind; [apply preserves_populate|]. intros _.
    apply preserves_bind; [apply preserves_shutil_copy|]. intros _.
    apply preserves_bind; [apply preserves_with_model_file|]. intros pop3.
    apply preserves_bind; [apply preserves_load_associated_files|]. intros pop4.
    apply preserves_bind; [apply preserves_populate|]. intros _.
    apply preserves_bind; [intros w Hw; exact Hw|]. intros _.
    intros w Hw. exact Hw. }
  intros w Hw. unfold add_tflite_metadata.
  pose proof (Ht w Hw) as H.
  destruct (add_tflite_metadata_try E p out w) as [[a|[]] w1]; exact H.
Qed.

(** X8. Whatever [add_tflite_metadata] does to the model file it is given, the
    file stays a TFLite model with the converter's bytes: the stage adds
    metadata and packed files around the model and never replaces it. *)
Theorem add_tflite_metadata_keeps_model
    (E : engine) (p out : string) (w : world) (t : tflite) :
  fs w !! p = Some (File (TFLite t)) ->
  exists t', fs (snd (add_tflite_metadata E p out w)) !! p = Some (File (TFLite t'))
             /\ tfl_bytes t' = tfl_bytes t.
Proof.
  intros H. apply (add_tflite_metadata_preserves E p out (tfl_bytes t) w).
  exists t. split; [exact H | reflexivity].
Qed.

Lemma add_tflite_metadata_keeps_model_witness :
  let E := Sample.engine_of true Sample.flat Sample.flat (0.5, 0.25)%float in
  let m := Sample.compiled_model E in
  let w := Sample.world_of Sample.dataset in
  let w1 := snd (convert_to_tflite E m "models" w) in
  let w2 := snd (add_tflite_metadata E "models/anemia_detector.tflite" "models" w1) in
  fs w1 !! "models/anemia_detector.tflite" = Some (File (TFLite (converted E m)))
  /\ exists t', fs w2 !! "models/anemia_detector.tflite" = Some (File (TFLite t'))
                /\ tfl_bytes t' = [84; 70; 76; 51].
Proof.
  intros E m w w1 w2.
  assert (H : fs w1 !! "models/anemia_detector.tflite"
              = Some (File (TFLite (converted E m)))) by (vm_compute; reflexivity).
  split; [exact H|].
  exact (add_tflite_metadata_keeps_model E "models/anemia_detector.tflite" "models"
           w1 (converted E m) H).
Defined.

End MetadataFrame.

Section MainFrame.


Lemma artifact_not_tflite_pair (out q : string) :
  q ∈ [path_join out "anemia_model_best.keras";
       path_join out "anemia_model_final.keras";
       path_join out "labels.txt"; path_join out "model_metadata.json"; out] ->
  q ∉ [path_join out "anemia_detector.tflite"; with_metadata_path out].
Proof.
  unfold with_metadata_path.
  rewrite !not_elem_of_cons, !elem_of_cons, elem_of_nil.
  intros [->|[->|[->|[->|[->|[]]]]]];
    (split; [|split; [|intros []]]);
    first [ distinct_paths
          | intros H; symmetry in H; revert H; apply path_join_longer;
            [reflexivity | discriminate] ].
Qed.

(** What [export] leaves at the final model's path and at the converter's. *)
Lemma export_files (E : engine) (args : Args) (m : Model) (w : world) :
  let w' := snd (export E args m w) in
  fs w' !! final_path args = Some (File (KerasModel (model_weights m)))
  /\ has_model_bytes (tflite_path_of args) (tflite_convert E (model_weights m)) w'
  /\ fs w' !! path_join (output_dir args) "labels.txt"
     = Some (File (Text ("Non-Anemic" +:+ newline +:+ "Anemic")))
  /\ fs w' !! path_join (output_dir args) "model_metadata.json"
     = Some (File (Json metadata))
  /\ (forall n, fs w !! output_dir args = Some n -> fs w' !! output_dir args = Some n)
  /\ fs w' !! best_path args = fs w !! best_path args.
Proof.
  unfold final_path, tflite_path_of, best_path.
  set (out := output_dir args).
  unfold export. run_M. fold out.
  set (w0 := print (Msg banner) (print _ (print _ (print _ (model_save m _ w))))).
  assert (F0 : fs w0 = <[path_join out "anemia_model_final.keras"
                         := File (KerasModel (model_weights m))]> (fs w)) by reflexivity.
  pose proof (convert_to_tflite_spec E m out w0) as Hc.
  pose proof (convert_to_tflite_lookups E m out w0) as Hl. cbv zeta in Hl.
  destruct (convert_to_tflite E m out w0) as [p w1]. cbn [snd] in Hl.
  destruct Hc as (-> & Hfs1 & _). destruct Hl as (L1 & L2 & L3).
  pose proof (add_tflite_metadata_writes E (path_join out "anemia_detector.tflite")
                out w1) as Hfr.
  pose proof (add_tflite_metadata_preserves E (path_join out "anemia_detector.tflite")
                out (tflite_convert E (model_weights m)) w1) as Hpr.
  assert (Hw2 : exists w2, w2 = snd (add_tflite_metadata E
                  (path_join out "anemia_detector.tflite") out w1)
                /\ fs (snd (match add_tflite_metadata E
                              (path_join out "anemia_detector.tflite") out w1 with
                            | (Ok a, w') =>
                                (Ok tt,
                                 print (Msg "   model_metadata.json       - Model metadata")
                                   (print (Msg "   labels.txt                - Class labels")
                                      (print (Msg "   anemia_detector.tflite    - TFLite model for Android")
                                         (print (Msg "   anemia_model_final.keras  - Full Keras model")
                                            (print (MsgS "Output files in: " out)
                                               (print (Msg banner)
                                                  (print (Msg "Training Complete!")
                                                     (print (Msg banner) w'))))))))
                            | (Raise e, w') => (@Raise unit e, w')
                            end)) = fs w2).
  { eexists. split; [reflexivity|].
    destruct (add_tflite_metadata E _ out w1) as [[a|e] w2]; reflexivity. }
  destruct Hw2 as (w2 & Hw2 & Hfs2).
  rewrite <- Hw2 in Hfr, Hpr.
  cbv zeta.
  match goal with |- context [fs (snd ?x)] =>
    match type of Hfs2 with fs (snd ?y) = _ => change x with y end end.
  rewrite !Hfs2.
  assert (K : forall q, q ∈ [path_join out "anemia_model_best.keras";
                             path_join out "anemia_model_final.keras";
                             path_join out "labels.txt";
                             path_join out "model_metadata.json"; out] ->
                        fs w2 !! q = fs w1 !! q).
  { intros q Hq. apply Hfr. apply artifact_not_tflite_pair. exact Hq. }
  split.
  { rewrite K by in_list. rewrite Hfs1.
    rewrite !lookup_insert_ne by distinct_paths.
    rewrite makedirs_lookup, decide_False
      by (apply path_join_longer; [reflexivity|discriminate]).
    rewrite F0. apply lookup_insert_eq. }
  split.
  { apply has_model_bytes_fs with (w := w2); [exact Hfs2|].
    apply Hpr. exists (converted E m). split; [exact L1 | reflexivity]. }
  split; [rewrite K by in_list; exact L2|].
  split; [rewrite K by in_list; exact L3|].
  split.
  { rewrite K by in_list. rewrite Hfs1.
    rewrite !lookup_insert_ne
      by (apply path_join_longer; [reflexivity|discriminate]).
    rewrite makedirs_lookup, decide_True by reflexivity.
    rewrite F0, lookup_insert_ne
      by (apply path_join_longer; [reflexivity|discriminate]).
    intros n ->. reflexivity. }
  rewrite K by in_list. rewrite Hfs1.
  rewrite !lookup_insert_ne by distinct_paths.
  rewrite makedirs_lookup, decide_False
    by (apply path_join_longer; [reflexivity|discriminate]).
  rewrite F0. rewrite lookup_insert_ne by distinct_paths. reflexivity.
Qed.

End MainFrame.

Section MainStages.

Lemma initial_epochs_bounds (e : Z) :
  let i := Z.min 10 (floordiv e 2) in
  (e <= 0 -> i <= 0 /\ e <= i)
  /\ (0 < e -> 0 <= i < e)
  /\ (e <= 20 -> e - i <= 10).
Proof.
  unfold floordiv. cbv zeta.
  pose proof (Z.div_mod e 2 ltac:(lia)) as Hd.
  pose proof (Z.mod_pos_bound e 2 ltac:(lia)) as Hm.
  repeat split; intros; lia.
Qed.

(** With no epoch to run, training hands the weights back as they came. *)
Lemma train_phases_no_epochs (E : engine) (args : Args)
    (train val : DirectoryIterator) (m : Model) (cbs : list callback) (w : world) :
  epochs args <= 0 ->
  model_weights (fst (fst (train_phases E args train val m cbs w))) = model_weights m.
Proof.
  intros He. unfold train_phases.
  destruct (initial_epochs_bounds (epochs args)) as (Hi & _). specialize (Hi He).
  cbv zeta in Hi.
  set (i := Z.min 10 (floordiv (epochs args) 2)) in *.
  unfold fit.
  replace (Z.to_nat (i - 0)) with 0%nat by lia.
  cbn [fit_epochs].
  replace (i <? epochs args) with false by (symmetry; apply Z.ltb_ge; lia).
  reflexivity.
Qed.

Lemma main_stages (E : engine) (args : Args) (w : world) :
  layout_ok args w ->
  let i := Z.min 10 (floordiv (epochs args) 2) in
  exists m1 cbs1 metrics w0 w1 w2 tp tt te tx k,
    main E args w
    = (match fst (export E args m1 w2) with
       | Ok _ => Ok (Completed m1 cbs1 metrics)
       | Raise e => Raise e
       end, snd (export E args m1 w2))
    /\ (trace w0 = trace w ++ tp /\ engine_calls tp = prepare_calls args
        /\ checkpoints tp = []
        /\ (forall q, q <> output_dir args -> fs w0 !! q = fs w !! q)
        /\ fs w0 !! output_dir args = Some (default Dir (fs w !! output_dir args)))
    /\ (trace w1 = trace w0 ++ tt /\ engine_calls tt = training_calls args k
        /\ Z.max 0 (Z.min 10 (epochs args - i)) <= k <= Z.max 0 (epochs args - i)
        /\ (forall q, q <> best_path args -> fs w1 !! q = fs w0 !! q)
        /\ best_file (best_path args) tt w0 w1)
    /\ (head_layers m1 = head_layers (fst (create_model E (fine_tune_layers args) w))
        /\ base_layers m1
           = (if i <? epochs args
              then fine_tuned (fine_tune_layers args) (frozen_base E)
              else frozen_base E)
        /\ (epochs args <= 0 -> model_weights m1 = Pretrained))
    /\ (trace w2 = trace w1 ++ te /\ engine_calls te = [Evaluate]
        /\ checkpoints te = [] /\ fs w2 = fs w1)
    /\ (trace (snd (export E args m1 w2)) = trace w2 ++ tx
        /\ engine_calls tx = [Convert] /\ checkpoints tx = []).
Proof.
  intros Hl i. rewrite (main_blocks E args w Hl).
  pose proof (prepare_spec E args w) as Hp.
  pose proof (prepare_frame E args w) as Hpf.
  pose proof (prepare_head E args w) as Hh0.
  destruct (prepare E args w) as [[[[train val] m0] cbs0] w0].
  destruct Hp as (-> & Hn0 & tp & Htp & Hep & Hkp).
  destruct Hpf as (Hfr0 & Hd0 & Hb0 & Hw0 & _).
  pose proof (train_phases_spec E args train val m0 w0 Hn0) as Ht.
  pose proof (train_phases_frame E args train val m0 w0) as Htf.
  pose proof (train_phases_no_epochs E args train val m0
                (script_policy (output_dir args)) w0) as Hne.
  cbv zeta in Ht, Htf. fold i in Htf.
  destruct (train_phases E args train val m0 _ w0) as [[m1 cbs1] w1].
  cbn [fst] in Hne.
  destruct Ht as (Hn1 & _).
  destruct Htf as (tt & k & Htt & Het & Hk & Hklo & Hfr1 & Hbf & Hh1 & Hb1).
  destruct (evaluate_model_run E m1 val w1 Hn1) as (w2 & Hev & Hfs2 & _ & Hte).
  rewrite Hev.
  destruct (export_trace E args m1 w2) as (tx & Htx & Hex & Hkx).
  set (v := evaluate E (model_weights m1) (fst (epoch_pass E val w1))) in *.
  exists m1, cbs1, (metrics_record v), w0, w1, w2, tp, tt,
    (metric_lines v ++ f1_lines (v "precision") (v "recall")), tx, k.
  split.
  { destruct (export E args m1 w2) as [[[]|e] w3]; reflexivity. }
  split; [repeat split; assumption|].
  split.
  { split; [assumption|]. split; [assumption|]. split; [|split; assumption].
    destruct (initial_epochs_bounds (epochs args)) as (Hi1 & Hi2 & _).
    cbv zeta in Hi1, Hi2. fold i in Hi1, Hi2.
    destruct (Z.lt_ge_cases i (epochs args)) as [Hlt|Hge]; [specialize (Hklo Hlt)|]; lia. }
  split.
  { split; [rewrite Hh1; exact Hh0|]. split.
    - rewrite Hb1, Hb0. reflexivity.
    - intros He. rewrite (Hne He). exact Hw0. }
  split.
  { split; [assumption|].
    assert (Hf : engine_calls (f1_lines (v "precision") (v "recall")) = []
                 /\ checkpoints (f1_lines (v "precision") (v "recall")) = []).
    { unfold f1_lines. destruct (gt _ _); split; reflexivity. }
    destruct Hf as [Hf1 Hf2].
    rewrite engine_calls_app, checkpoints_app, Hf1, Hf2.
    repeat split; try reflexivity; assumption. }
  repeat split; assumption.
Qed.

End MainStages.

Section WholeRun.



(** X10. Early stopping cannot end Phase 2 before it has run min(10, E - i)
    epochs: its counter starts again at every [fit].  So with at most 20
    configured epochs every epoch is trained, E of them in all. *)
Theorem phase_2_outlasts_patience (E : engine) (args : Args) (w : world) :
  layout_ok args w ->
  dir_or_missing w (output_dir args) ->
  let i := Z.min 10 (floordiv (epochs args) 2) in
  exists t k,
    trace (snd (main E args w)) = trace w ++ t
    /\ engine_calls t
       = prepare_calls args ++ training_calls args k ++ [Evaluate; Convert]
    /\ Z.max 0 (Z.min 10 (epochs args - i)) <= k <= Z.max 0 (epochs args - i)
    /\ (epochs args <= 20 -> k = Z.max 0 (epochs args - i)).
Proof.
  intros Hl _ i.
  destruct (main_stages E args w Hl)
    as (m1 & cbs1 & metrics & w0 & w1 & w2 & tp & tt & te & tx & k & Hm
        & (T0 & E0 & _) & (T1 & E1 & Hk & _) & _ & (T2 & E2 & _) & (T3 & E3 & _)).
  fold i in Hk.
  exists (tp ++ tt ++ te ++ tx), k.
  split; [rewrite Hm; cbn [snd]; rewrite T3, T2, T1, T0, <- !app_assoc; reflexivity|].
  split; [rewrite !engine_calls_app, E0, E1, E2, E3; reflexivity|].
  split; [exact Hk|].
  intros H20. destruct (initial_epochs_bounds (epochs args)) as (_ & _ & Hb).
  specialize (Hb H20). cbv zeta in Hb. fold i in Hb. lia.
Qed.

Lemma phase_2_outlasts_patience_witness :
  let E := Sample.engine_plain in
  let args := Sample.args_of 4 2 in
  let w := Sample.world_of Sample.dataset in
  layout_ok args w
  /\ dir_or_missing w (output_dir args)
  /\ exists t,
       trace (snd (main E args w)) = trace w ++ t
       /\ engine_calls t
          = prepare_calls args
            ++ [Fit 2 0; TrainEpoch 0; TrainEpoch 1;
                Compile (0.001 / 10)%float; Fit 4 2; TrainEpoch 2; TrainEpoch 3]
            ++ [Evaluate; Convert].
Proof.
  intros E args w.
  assert (Hl : layout_ok args w).
  { repeat split; vm_compute; eexists; reflexivity. }
  assert (Hd : dir_or_missing w (output_dir args)) by (left; vm_compute; reflexivity).
  split; [exact Hl|]. split; [exact Hd|].
  destruct (phase_2_outlasts_patience E args w Hl Hd) as (t & k & Ht & He & _ & Hk).
  assert (k = 2) as -> by (apply Hk; vm_compute; discriminate).
  exists t. split; [exact Ht | exact He].
Defined.

(** X11. The model [main] returns has the head [create_model] built, and an
    extractor that is frozen throughout when Phase 2 was skipped and has the
    Phase 2 pattern otherwise: training changes no [trainable] flag. *)
Theorem completed_model_layers (E : engine) (args : Args) (w : world) :
  let i := Z.min 10 (floordiv (epochs args) 2) in
  match fst (main E args w) with
  | Ok (Completed model _ _) =>
      head_layers model
      = head_layers (fst (create_model E (fine_tune_layers args) w))
      /\ base_layers model
         = (if i <? epochs args
            then fine_tuned (fine_tune_layers args) (frozen_base E)
            else frozen_base E)
  | _ => True
  end.
Proof.
  intros i.
  destruct (layout_ok_dec args w) as [Hl|Hbad].
  - destruct (main_stages E args w Hl)
      as (m1 & cbs1 & metrics & w0 & w1 & w2 & tp & tt & te & tx & k & Hm
          & _ & _ & (Hh & Hb & _) & _).
    rewrite Hm. cbn [fst].
    destruct (fst (export E args m1 w2)); [|exact I].
    split; [exact Hh | exact Hb].
  - destruct (main_config_error E args w Hbad) as (w' & t & Hm & _).
    rewrite Hm. exact I.
Qed.



(** X13. The best checkpoint outlives the export: when training wrote one, a
    saved model is at its path at the end of the run; when it wrote none,
    the path holds what it held before the run. *)
Theorem best_checkpoint_survives (E : engine) (args : Args) (w : world) :
  layout_ok args w ->
  dir_or_missing w (output_dir args) ->
  let w' := snd (main E args w) in
  exists t,
    trace w' = trace w ++ t
    /\ (checkpoints t <> [] ->
        exists wts, fs w' !! best_path args = Some (File (KerasModel wts)))
    /\ (checkpoints t = [] -> fs w' !! best_path args = fs w !! best_path args).
Proof.
  intros Hl _ w'.
  destruct (main_stages E args w Hl)
    as (m1 & cbs1 & metrics & w0 & w1 & w2 & tp & tt & te & tx & k & Hm
        & (T0 & _ & K0 & F0 & _) & (T1 & _ & _ & _ & B1 & B2) & _
        & (T2 & _ & K2 & F2) & (T3 & _ & K3)).
  pose proof (export_files E args m1 w2) as Hx. cbv zeta in Hx.
  destruct Hx as (_ & _ & _ & _ & _ & X).
  subst w'. rewrite Hm. cbn [snd].
  exists (tp ++ tt ++ te ++ tx).
  split; [rewrite T3, T2, T1, T0, <- !app_assoc; reflexivity|].
  rewrite !checkpoints_app, K0, K2, K3, !app_nil_r. cbn [app].
  rewrite X, F2.
  split.
  - intros Hc. exact (B2 Hc).
  - intros Hc. rewrite (B1 Hc). apply F0.
    unfold best_path. apply path_join_longer; [reflexivity | discriminate].
Qed.

Lemma best_checkpoint_survives_witness :
  let E := Sample.engine_plain in
  let args := Sample.args_of 4 2 in
  let w := Sample.world_of Sample.dataset in
  layout_ok args w
  /\ dir_or_missing w (output_dir args)
  /\ exists t, trace (snd (main E args w)) = trace w ++ t
               /\ (checkpoints t <> [] ->
                   exists wts, fs (snd (main E args w)) !! best_path args
                               = Some (File (KerasModel wts))).
Proof.
  intros E args w.
  assert (Hl : layout_ok args w).
  { repeat split; vm_compute; eexists; reflexivity. }
  assert (Hd : dir_or_missing w (output_dir args)) by (left; vm_compute; reflexivity).
  split; [exact Hl|]. split; [exact Hd|].
  destruct (best_checkpoint_survives E args w Hl Hd) as (t & Ht & Hc & _).
  exists t. split; [exact Ht | exact Hc].
Defined.

End WholeRun.

Section Streams.

Lemma insert_sorted_perm (x : string) (l : list string) :
  insert_sorted x l ≡ₚ x :: l.
Proof.
  induction l as [|y l IH]; cbn [insert_sorted]; [reflexivity|].
  destruct (String.leb x y); [reflexivity|].
  rewrite IH. apply Permutation_swap.
Qed.

Lemma sorted_perm (l : list string) : sorted l ≡ₚ l.
Proof.
  induction l as [|x l IH]; [reflexivity|].
  unfold sorted in *. cbn [foldr]. rewrite insert_sorted_perm, IH. reflexivity.
Qed.

Lemma list_valid_files_elem (w : world) (d p : string) :
  p ∈ list_valid_files w d ->
  exists c, fs w !! p = Some (File c)
            /\ String.prefix (d +:+ "/") p = true /\ is_image_name p = true.
Proof.
  unfold list_valid_files. rewrite sorted_perm, list_elem_of_omap.
  intros ([q n] & Hin & Hf). apply elem_of_map_to_list in Hin.
  destruct n as [|c]; [discriminate|].
  destruct (String.prefix (d +:+ "/") q && is_image_name q) eqn:Hb; [|discriminate].
  injection Hf as ->. apply andb_prop in Hb as [H1 H2].
  exists c. repeat split; assumption.
Qed.

Lemma omap_fst_sublist {A} (f : string * A -> option string) (l : list (string * A)) :
  (forall x p, f x = Some p -> p = fst x) ->
  omap f l `sublist_of` map fst l.
Proof.
  intros Hf. induction l as [|x l IH]; cbn [omap list_omap map]; [constructor|].
  destruct (f x) as [p|] eqn:Hx.
  - rewrite (Hf x p Hx). now constructor.
  - now constructor.
Qed.

Lemma list_valid_files_NoDup (w : world) (d : string) :
  NoDup (list_valid_files w d).
Proof.
  unfold list_valid_files. rewrite sorted_perm.
  eapply sublist_NoDup; [apply (NoDup_fst_map_to_list (fs w))|].
  apply omap_fst_sublist. intros [q n] p. cbn [fst].
  destruct n as [|c]; [discriminate|].
  destruct (_ && _); [|discriminate]. now intros [= ->].
Qed.

Lemma slice_before {A} (l : list A) (a b : Z) (x : A) :
  x ∈ slice l a b ->
  x ∈ take (Z.to_nat (Z.min (Z.max 0 b) (Z.of_nat (length l)))) l.
Proof.
  unfold slice. cbv zeta.
  set (a' := Z.min (Z.max 0 a) _). set (b' := Z.min (Z.max 0 b) _).
  destruct (Z.le_gt_cases a' b') as [Hle|Hgt].
  - change (@firstn A) with (@take A). change (@skipn A) with (@drop A).
    rewrite take_drop_commute.
    replace (Z.to_nat a' + Z.to_nat (b' - a'))%nat with (Z.to_nat b') by lia.
    intros H. eapply list_elem_of_lookup in H as [i Hi].
    rewrite lookup_drop in Hi. eapply list_elem_of_lookup_2. exact Hi.
  - replace (Z.to_nat (b' - a')) with 0%nat by lia. cbn. intros H. inversion H.
Qed.

Lemma slice_after {A} (l : list A) (b c : Z) (x : A) :
  x ∈ slice l b c ->
  x ∈ drop (Z.to_nat (Z.min (Z.max 0 b) (Z.of_nat (length l)))) l.
Proof.
  unfold slice. cbv zeta.
  change (@firstn A) with (@take A). change (@skipn A) with (@drop A).
  intros H. eapply list_elem_of_lookup in H as [i Hi].
  apply lookup_take_Some in Hi as [Hi _].
  eapply list_elem_of_lookup_2. exact Hi.
Qed.

(** Two slices that meet at a bound share no element of a duplicate-free
    list. *)
Lemma slices_disjoint {A} (l : list A) (a b c : Z) (x : A) :
  NoDup l -> x ∈ slice l a b -> x ∈ slice l b c -> False.
Proof.
  intros Hn H1 H2. apply slice_before in H1. apply slice_after in H2.
  rewrite <- (take_drop (Z.to_nat (Z.min (Z.max 0 b) (Z.of_nat (length l)))) l) in Hn.
  apply NoDup_app in Hn as (_ & Hd & _). exact (Hd x H1 H2).
Qed.

Lemma slice_elem {A} (l : list A) (a b : Z) (x : A) : x ∈ slice l a b -> x ∈ l.
Proof.
  intros H. apply slice_after in H.
  eapply list_elem_of_lookup in H as [i Hi]. rewrite lookup_drop in Hi.
  eapply list_elem_of_lookup_2. exact Hi.
Qed.

Lemma split_files_elem (g : ImageDataGenerator) (sub : subset)
    (files : list string) (p : string) :
  p ∈ split_files g sub files -> p ∈ files.
Proof.
  unfold split_files. destruct sub; apply slice_elem.
Qed.

Lemma split_files_disjoint (g g' : ImageDataGenerator) (files : list string)
    (p : string) :
  validation_split g = validation_split g' -> NoDup files ->
  p ∈ split_files g Training files -> p ∈ split_files g' Validation files -> False.
Proof.
  unfold split_files. intros Hs Hn Ht Hv. rewrite Hs in Ht.
  exact (slices_disjoint files _ _ _ p Hn Hv Ht).
Qed.

Lemma prefix_common (a b c p : string) :
  String.prefix (a +:+ b) p = true -> String.prefix (a +:+ c) p = true ->
  exists q, String.prefix b q = true /\ String.prefix c q = true.
Proof.
  revert p. induction a as [|x a IH]; intros p Hb Hc.
  - exists p. split; assumption.
  - destruct p as [|y p]; [discriminate|].
    cbn [String.append String.prefix] in Hb, Hc.
    change (String x a +:+ b) with (String x (a +:+ b)) in Hb.
    change (String x a +:+ c) with (String x (a +:+ c)) in Hc.
    cbn [String.prefix] in Hb, Hc.
    destruct (ascii_dec x y); [|discriminate].
    exact (IH p Hb Hc).
Qed.

Lemma append_assoc (a b c : string) : (a +:+ b) +:+ c = a +:+ (b +:+ c).
Proof.
  induction a as [|x a IH]; [reflexivity|].
  change (String x ((a +:+ b) +:+ c) = String x (a +:+ (b +:+ c))). now rewrite IH.
Qed.

(** No path is below both class directories. *)
Lemma class_directories_apart (d p : string) :
  String.prefix (path_join d "normal" +:+ "/") p = true ->
  String.prefix (path_join d "anemic" +:+ "/") p = true -> False.
Proof.
  unfold path_join. cbn [starts_with_slash].
  change (Ascii.eqb "n" "/") with false. change (Ascii.eqb "a" "/") with false.
  cbv iota.
  assert (K : forall q, String.prefix "normal/" q = true ->
                        String.prefix "anemic/" q = true -> False).
  { intros [|y q] Q1 Q2; [discriminate Q1|].
    cbn [String.prefix] in Q1, Q2.
    destruct (ascii_dec "n" y) as [<-|]; [|discriminate Q1].
    destruct (ascii_dec "a" "n") as [e|]; [discriminate e | discriminate Q2]. }
  destruct (String.eqb d "" || ends_with_slash d); intros H1 H2.
  - rewrite !append_assoc in H1, H2.
    destruct (prefix_common _ _ _ _ H1 H2) as (q & Q1 & Q2). exact (K q Q1 Q2).
  - rewrite !append_assoc in H1, H2.
    destruct (prefix_common _ _ _ _ H1 H2) as (q & Q1 & Q2).
    change ("/" +:+ "normal" +:+ "/") with ("/" +:+ "normal/") in Q1.
    change ("/" +:+ "anemic" +:+ "/") with ("/" +:+ "anemic/") in Q2.
    destruct (prefix_common "/" _ _ _ Q1 Q2) as (r & R1 & R2). exact (K r R1 R2).
Qed.

Lemma class_samples_elem (g : ImageDataGenerator) (sub : subset) (w : world)
    (d : string) (classes : list string) :
  forall (index : Z) (p : string) (l : Z),
    (p, l) ∈ class_samples g sub w d classes index ->
    exists cls, classes !! Z.to_nat (l - index) = Some cls /\ index <= l
                /\ p ∈ split_files g sub (list_valid_files w (path_join d cls)).
Proof.
  induction classes as [|c cs IH]; intros index p l; cbn [class_samples].
  - intros H. inversion H.
  - rewrite elem_of_app. intros [H|H].
    + change (map ?f ?k) with (f <$> k) in H. apply list_elem_of_fmap in H as (q & Heq & Hq).
      cbn beta in Heq. injection Heq as -> ->.
      exists c. replace (Z.to_nat (index - index)) with 0%nat by lia.
      split; [reflexivity|]. split; [lia | exact Hq].
    + apply IH in H as (cls & Hc & Hi & Hp). exists cls.
      replace (Z.to_nat (l - index)) with (S (Z.to_nat (l - (index + 1)))) by lia.
      split; [exact Hc|]. split; [lia | exact Hp].
Qed.

Lemma class_samples_script (g : ImageDataGenerator) (sub : subset) (w : world)
    (d p : string) (l : Z) :
  (p, l) ∈ class_samples g sub w d CLASSES 0 ->
  (l = 0 /\ p ∈ split_files g sub (list_valid_files w (path_join d "normal")))
  \/ (l = 1 /\ p ∈ split_files g sub (list_valid_files w (path_join d "anemic"))).
Proof.
  intros H. apply class_samples_elem in H as (cls & Hc & Hi & Hp).
  rewrite Z.sub_0_r in Hc. unfold CLASSES in Hc.
  destruct (Z.to_nat l) as [|[|n]] eqn:Hn; cbn in Hc; try discriminate;
    injection Hc as <-; [left | right]; (split; [lia | exact Hp]).
Qed.

(** X14. The two streams of [create_data_generators] share no image: a path
    that is a training sample is not a validation sample, under either
    label.  Both generators are given the same split, the same directory
    and the same class order. *)
Theorem streams_share_no_image
    (data_dir : string) (batch_size : Z) (split : float) (w : world) :
  let '(train, val, _) := create_data_generators data_dir batch_size split w in
  forall p l l', (p, l) ∈ it_samples train -> (p, l') ∈ it_samples val -> False.
Proof.
  unfold create_data_generators, flow_from_directory. cbv beta iota zeta.
  cbn [it_samples fs print emit].
  intros p l l' Ht Hv.
  apply class_samples_script in Ht. apply class_samples_script in Hv.
  destruct Ht as [[_ Ht]|[_ Ht]], Hv as [[_ Hv]|[_ Hv]].
  - exact (split_files_disjoint _ _ _ p eq_refl (list_valid_files_NoDup _ _) Ht Hv).
  - apply split_files_elem, list_valid_files_elem in Ht as (_ & _ & Ht & _).
    apply split_files_elem, list_valid_files_elem in Hv as (_ & _ & Hv & _).
    exact (class_directories_apart data_dir p Ht Hv).
  - apply split_files_elem, list_valid_files_elem in Ht as (_ & _ & Ht & _).
    apply split_files_elem, list_valid_files_elem in Hv as (_ & _ & Hv & _).
    exact (class_directories_apart data_dir p Hv Ht).
  - exact (split_files_disjoint _ _ _ p eq_refl (list_valid_files_NoDup _ _) Ht Hv).
Qed.

Lemma streams_share_no_image_witness :
  ("data/anemic/a2.jpg", 1) ∈ it_samples Sample.train_stream
  /\ ("data/anemic/a2.jpg", 1) ∉ it_samples Sample.val_stream.
Proof.
  assert (Ht : ("data/anemic/a2.jpg", 1) ∈ it_samples Sample.train_stream)
    by (apply (bool_decide_unpack _); vm_compute; reflexivity).
  split; [exact Ht|]. intros Hv.
  pose proof (streams_share_no_image "data" 2 0.2 (Sample.world_of Sample.dataset)) as H.
  unfold Sample.train_stream, Sample.val_stream in Ht, Hv.
  destruct (create_data_generators "data" 2 0.2 (Sample.world_of Sample.dataset))
    as [[tr va] w'].
  exact (H _ _ _ Ht Hv).
Defined.



End Streams.
